(** * Soni Zi Creations API: products, orders and the checkout total

    A shallow embedding of [src/main.py] and [src/schemas.py].  Documents are
    finite maps from field names to BSON values, Python floats are binary64
    primitive floats, and every endpoint is a computation over an explicit
    document store that can raise Python exceptions. *)

From Stdlib Require Import ZArith NArith Ascii String Strings.Byte List Bool Lia.
From Stdlib Require Import PrimFloat SpecFloat FloatOps.
From stdpp Require Import base option list gmap strings pretty.

Set Warnings "-register-all,-inexact-float".

Local Open Scope string_scope.
Local Open Scope Z_scope.

(** ** BSON values and documents *)

(** A naive [datetime.datetime], as pymongo decodes BSON dates. *)
Record datetime := {
  dt_year : N; dt_month : N; dt_day : N;
  dt_hour : N; dt_minute : N; dt_second : N; dt_microsecond : N
}.

(** A [bson.ObjectId], kept as its binary form [oid.binary]: twelve bytes
    when the driver generates it, as many as [bytes.fromhex] decodes when it
    is built from text. *)
Definition ObjectId := list byte.

Inductive value :=
| VNull
| VBool (b : bool)
| VInt (z : Z)
| VFloat (f : float)
| VStr (s : string)
| VOid (o : ObjectId)
| VDate (d : datetime)
| VList (l : list value)
| VDoc (d : list (string * value)).

(** A Python [dict] with string keys, as the store returns them. *)
Abbreviation doc := (gmap string value).

(** Python truthiness, used by [if doc.get("_id")] and friends. *)
Definition truthy (v : value) : bool :=
  match v with
  | VNull => false
  | VBool b => b
  | VInt z => negb (z =? 0)
  | VFloat f => negb (PrimFloat.eqb f 0%float)
  | VStr s => negb (String.eqb s "")
  | VOid _ => true
  | VDate _ => true
  | VList l => match l with [] => false | _ => true end
  | VDoc d => match d with [] => false | _ => true end
  end.

(** [not d] for a dict: true exactly when it has no key. *)
Definition dict_empty (d : doc) : bool := Nat.eqb (size d) 0.

Fixpoint bytes_eqb (a b : list byte) : bool :=
  match a, b with
  | [], [] => true
  | x :: a', y :: b' => Byte.eqb x y && bytes_eqb a' b'
  | _, _ => false
  end.

Definition datetime_eqb (a b : datetime) : bool :=
  (dt_year a =? dt_year b)%N && (dt_month a =? dt_month b)%N &&
  (dt_day a =? dt_day b)%N && (dt_hour a =? dt_hour b)%N &&
  (dt_minute a =? dt_minute b)%N && (dt_second a =? dt_second b)%N &&
  (dt_microsecond a =? dt_microsecond b)%N.

(** Exact match of two stored values, the comparison a query filter makes. *)
Fixpoint value_eqb (a b : value) {struct a} : bool :=
  match a, b with
  | VNull, VNull => true
  | VBool x, VBool y => Bool.eqb x y
  | VInt x, VInt y => x =? y
  | VFloat x, VFloat y => PrimFloat.Leibniz.eqb x y
  | VStr x, VStr y => String.eqb x y
  | VOid x, VOid y => bytes_eqb x y
  | VDate x, VDate y => datetime_eqb x y
  | VList xs, VList ys =>
      (fix all2 (xs ys : list value) : bool :=
         match xs, ys with
         | [], [] => true
         | x :: xs', y :: ys' => value_eqb x y && all2 xs' ys'
         | _, _ => false
         end) xs ys
  | VDoc xs, VDoc ys =>
      (fix all2 (xs ys : list (string * value)) : bool :=
         match xs, ys with
         | [], [] => true
         | (k, x) :: xs', (k', y) :: ys' =>
             String.eqb k k' && value_eqb x y && all2 xs' ys'
         | _, _ => false
         end) xs ys
  | _, _ => false
  end.

(** ** Text forms: Python strings, hexadecimal ObjectIds, ISO-8601 timestamps *)

(** A Python [str] is kept as its UTF-8 bytes.  A character is a byte that
    is no continuation byte ([10xxxxxx]) together with the continuation
    bytes that follow it. *)
Definition continuation (c : ascii) : bool :=
  let n := N_of_ascii c in (128 <=? n)%N && (n <? 192)%N.

(** [len(s)]: the number of characters. *)
Fixpoint py_len (s : string) : nat :=
  match s with
  | EmptyString => O
  | String c rest => ((if continuation c then 0 else 1) + py_len rest)%nat
  end.

(** [s[:n]]: the first [n] characters. *)
Fixpoint str_prefix (n : nat) (s : string) : string :=
  match s with
  | EmptyString => EmptyString
  | String c rest =>
      if continuation c then String c (str_prefix n rest)
      else match n with
           | O => EmptyString
           | S n' => String c (str_prefix n' rest)
           end
  end.

Definition digit_char (d : N) : ascii :=
  if (d <? 10)%N then ascii_of_N (48 + d) else ascii_of_N (87 + d).

Definition hex_val (c : ascii) : option N :=
  let n := N_of_ascii c in
  if (48 <=? n)%N && (n <=? 57)%N then Some (n - 48)%N
  else if (97 <=? n)%N && (n <=? 102)%N then Some (n - 87)%N
  else if (65 <=? n)%N && (n <=? 70)%N then Some (n - 55)%N
  else None.

(** ASCII whitespace: tab, line feed, vertical tab, form feed, carriage
    return and space. *)
Definition is_space (c : ascii) : bool :=
  let n := N_of_ascii c in ((9 <=? n)%N && (n <=? 13)%N) || (n =? 32)%N.

(** The [k] low digits of [n] in base [base], most significant first,
    written in front of [tail]. *)
Fixpoint digits (base : N) (k : nat) (n : N) (tail : string) : string :=
  match k with
  | O => tail
  | S k' => digits base k' (n / base)%N (String (digit_char (n mod base)%N) tail)
  end.

Definition byte_of_N (n : N) : byte := default x00 (Byte.of_N n).

(** [bytes.fromhex(s)]: two hexadecimal digits per byte, in either case;
    ASCII whitespace is skipped before a byte, not between its two digits;
    anything else is refused. *)
Fixpoint bytes_fromhex (s : string) : option (list byte) :=
  match s with
  | EmptyString => Some []
  | String c rest =>
      if is_space c then bytes_fromhex rest
      else
        match hex_val c, rest with
        | Some top, String c' rest' =>
            match hex_val c' with
            | Some bot => cons (byte_of_N (16 * top + bot)) <$> bytes_fromhex rest'
            | None => None
            end
        | _, _ => None
        end
  end.

(** [binascii.hexlify(b).decode()]: two lower-case digits per byte. *)
Fixpoint hexlify (b : list byte) : string :=
  match b with
  | [] => EmptyString
  | x :: rest =>
      String (digit_char (Byte.to_N x / 16)%N)
        (String (digit_char (Byte.to_N x mod 16)%N) (hexlify rest))
  end.

(** [str(oid)] *)
Definition ObjectId_str (o : ObjectId) : string := hexlify o.

(** [ObjectId(s)] for a string: defined on the 24-character strings that
    [bytes.fromhex] decodes. *)
Definition ObjectId_of_str (s : string) : option ObjectId :=
  if Nat.eqb (py_len s) 24 then bytes_fromhex s else None.

(** [ObjectId.is_valid(s)] *)
Definition ObjectId_is_valid (s : string) : bool :=
  negb (String.eqb s "") && bool_decide (is_Some (ObjectId_of_str s)).

(** The [k] low bytes of [n], most significant first, in front of [tail]. *)
Fixpoint N_to_bytes (k : nat) (n : N) (tail : list byte) : list byte :=
  match k with
  | O => tail
  | S k' => N_to_bytes k' (n / 256)%N (byte_of_N (n mod 256)%N :: tail)
  end.

(** The twelve-byte identifier that spells the number [n]. *)
Definition oid_bytes (n : N) : ObjectId := N_to_bytes 12 n [].

(** [datetime.isoformat(sep)] of a naive datetime. *)
Definition isoformat_sep (sep : string) (d : datetime) : string :=
  digits 10 4 (dt_year d) "" +:+ "-" +:+ digits 10 2 (dt_month d) "" +:+ "-" +:+
  digits 10 2 (dt_day d) "" +:+ sep +:+ digits 10 2 (dt_hour d) "" +:+ ":" +:+
  digits 10 2 (dt_minute d) "" +:+ ":" +:+ digits 10 2 (dt_second d) "" +:+
  (if (dt_microsecond d =? 0)%N then ""
   else "." +:+ digits 10 6 (dt_microsecond d) "").

(** [datetime.isoformat()] *)
Definition isoformat (d : datetime) : string := isoformat_sep "T" d.

(** ** Python floats *)

(** [float(z)] for an [int]: the nearest binary64 value, ties to even;
    an infinite result stands for the overflow Python reports. *)
Definition float_of_Z (z : Z) : float :=
  SF2Prim (binary_normalize prec emax z 0 false).

Definition half_even_div (a b : Z) : Z :=
  let q := a / b in
  match 2 * (a mod b) ?= b with
  | Lt => q
  | Gt => q + 1
  | Eq => if Z.even q then q else q + 1
  end.

(** The number of hundredths nearest to the exact value [m * 2^e], ties to
    even: the decimal string [round(x, 2)] goes through. *)
Definition hundredths (m : positive) (e : Z) : Z :=
  if 0 <=? e then Z.pos m * 2 ^ e * 100
  else half_even_div (Z.pos m * 100) (2 ^ (- e)).

(** [round(x, 2)] before the overflow test: non-finite values and zeros round
    to themselves, a finite value to the double nearest to its hundredths. *)
Definition round_half_even_2 (x : float) : float :=
  match Prim2SF x with
  | S754_finite s m e =>
      match hundredths m e with
      | Z.pos n => SF2Prim (SFdiv prec emax (S754_finite s n 0) (S754_finite false 100 0))
      | _ => SF2Prim (S754_zero s)
      end
  | _ => x
  end.

(** ** Exceptions and the store monad *)

Inductive exn :=
| HTTPException (status_code : Z) (detail : string)
| ValueError (msg : string)
| TypeError (msg : string)
| OverflowError (msg : string)
| InvalidId (msg : string)
| PersistenceError (msg : string)
| DuplicateKeyError (msg : string).

(** [str(e)] *)
Definition exn_str (e : exn) : string :=
  match e with
  | HTTPException c d => pretty c +:+ ": " +:+ d
  | ValueError m | TypeError m | OverflowError m | InvalidId m
  | PersistenceError m | DuplicateKeyError m => m
  end.

Inductive result (A : Type) :=
| Ok (a : A)
| Raise (e : exn).
Arguments Ok {A} a.
Arguments Raise {A} e.

(** Modelled from the spec: [database.db], the shared store handle that
    [main.py] imports.  It stands for the document store: the named
    collections in insertion order, the next identifier the driver
    generates, and for each coming operation whether the store is
    unreachable (and the error text). *)
Record store := {
  collections : gmap string (list doc);
  next_oid : N;
  outages : list (option string)
}.

Definition M (A : Type) : Type := store -> result A * store.

Definition ret {A} (a : A) : M A := fun s => (Ok a, s).
Definition raise {A} (e : exn) : M A := fun s => (Raise e, s).
Definition bind {A B} (m : M A) (k : A -> M B) : M B :=
  fun s => match m s with
           | (Ok a, s') => k a s'
           | (Raise e, s') => (Raise e, s')
           end.
Definition lift {A} (r : result A) : M A := fun s => (r, s).

Notation "'let!' x ':=' c 'in' k" := (bind c (fun x => k))
  (at level 10, x name, c at level 100, k at level 200).

(** [try: m  except Exception as e: raise HTTPException(500, str(e))] *)
Definition except_500 {A} (m : M A) : M A :=
  fun s => match m s with
           | (Raise e, s') => (Raise (HTTPException 500 (exn_str e)), s')
           | r => r
           end.

(** The same with [except HTTPException: raise] in front. *)
Definition except_http_500 {A} (m : M A) : M A :=
  fun s => match m s with
           | (Raise (HTTPException c d), s') => (Raise (HTTPException c d), s')
           | (Raise e, s') => (Raise (HTTPException 500 (exn_str e)), s')
           | r => r
           end.

(** ** The driver's collection operations *)

Definition docs (s : store) (coll : string) : list doc :=
  default [] (collections s !! coll).

Definition set_docs (coll : string) (l : list doc) (s : store) : store :=
  {| collections := <[coll := l]> (collections s);
     next_oid := next_oid s; outages := outages s |}.

(** Every operation first reaches the store, which may be down. *)
Definition access : M unit :=
  fun s => match outages s with
           | [] => (Ok tt, s)
           | o :: rest =>
               let s' := {| collections := collections s;
                            next_oid := next_oid s; outages := rest |} in
               match o with
               | Some msg => (Raise (PersistenceError msg), s')
               | None => (Ok tt, s')
               end
           end.

Definition filter_doc := list (string * value).

Definition matches (flt : filter_doc) (d : doc) : bool :=
  forallb (fun kv => match d !! kv.1 with
                     | Some v => value_eqb v kv.2
                     | None => false
                     end) flt.

Definition find_one (coll : string) (flt : filter_doc) : M (option doc) :=
  let! _ := access in
  fun s => (Ok (List.find (matches flt) (docs s coll)), s).

Definition find (coll : string) (flt : filter_doc) : M (list doc) :=
  let! _ := access in
  fun s => (Ok (List.filter (matches flt) (docs s coll)), s).

Definition count_documents (coll : string) (flt : filter_doc) : M Z :=
  let! _ := access in
  fun s => (Ok (Z.of_nat (length (List.filter (matches flt) (docs s coll)))), s).

(** [ObjectId()]: a fresh twelve-byte identifier. *)
Definition new_ObjectId : M ObjectId :=
  fun s => (Ok (oid_bytes (next_oid s)),
            {| collections := collections s;
               next_oid := N.succ (next_oid s); outages := outages s |}).

(** One document written: it gets an [_id] unless it carries one, and the
    unique index on [_id] rejects a duplicate. *)
Definition write_doc (coll : string) (d : doc) : M value :=
  let! i := match d !! "_id" with
            | Some v => ret v
            | None => let! o := new_ObjectId in ret (VOid o)
            end in
  fun s =>
    if existsb (matches [("_id", i)]) (docs s coll)
    then (Raise (DuplicateKeyError "E11000 duplicate key error"), s)
    else (Ok i, set_docs coll (docs s coll ++ [<["_id" := i]> d]) s).

Definition insert_one (coll : string) (d : doc) : M value :=
  let! _ := access in write_doc coll d.

Fixpoint write_docs (coll : string) (ds : list doc) : M (list value) :=
  match ds with
  | [] => ret []
  | d :: rest =>
      let! i := write_doc coll d in
      let! ids := write_docs coll rest in
      ret (i :: ids)
  end.

Definition insert_many (coll : string) (ds : list doc) : M (list value) :=
  let! _ := access in write_docs coll ds.

(** ** Schemas ([src/schemas.py]) *)

Record Product := {
  title : string;
  description : option string;
  price : float;
  category : string;
  in_stock : bool;
  stock_qty : Z;
  image : option string
}.

Record OrderItem := {
  product_id : string;
  quantity : Z
}.

Record Order := {
  order_customer_name : string;
  order_customer_email : string;
  order_customer_phone : option string;
  order_shipping_address : string;
  order_items : list OrderItem;
  subtotal : float;
  total : float;
  status : string
}.

(** [status: str = Field("pending", ...)]: the value of an [Order] built
    without a status. *)
Definition Order_default_status : string := "pending".

(** [Field(..., ge=0)] on [price] and [stock_qty] *)
Definition Product_valid (p : Product) : bool :=
  PrimFloat.leb 0%float (price p) && (0 <=? stock_qty p).

(** [Field(..., ge=1)] on [quantity] *)
Definition OrderItem_valid (i : OrderItem) : bool := 1 <=? quantity i.

Definition opt_str (o : option string) : value :=
  match o with Some s => VStr s | None => VNull end.

(** [model_dump()] of each schema *)
Definition Product_dump (p : Product) : doc :=
  <["title" := VStr (title p)]> (
  <["description" := opt_str (description p)]> (
  <["price" := VFloat (price p)]> (
  <["category" := VStr (category p)]> (
  <["in_stock" := VBool (in_stock p)]> (
  <["stock_qty" := VInt (stock_qty p)]> (
  <["image" := opt_str (image p)]> ∅)))))).

Definition OrderItem_dump (i : OrderItem) : value :=
  VDoc [("product_id", VStr (product_id i)); ("quantity", VInt (quantity i))].

Definition Order_dump (o : Order) : doc :=
  <["customer_name" := VStr (order_customer_name o)]> (
  <["customer_email" := VStr (order_customer_email o)]> (
  <["customer_phone" := opt_str (order_customer_phone o)]> (
  <["shipping_address" := VStr (order_shipping_address o)]> (
  <["items" := VList (map OrderItem_dump (order_items o))]> (
  <["subtotal" := VFloat (subtotal o)]> (
  <["total" := VFloat (total o)]> (
  <["status" := VStr (status o)]> ∅))))))).

(** ** The application ([src/main.py]) *)

Record CheckoutPayload := {
  customer_name : string;
  customer_email : string;
  customer_phone : option string;
  shipping_address : string;
  items : list OrderItem
}.

Definition CheckoutPayload_valid (p : CheckoutPayload) : bool :=
  forallb OrderItem_valid (items p).

(** The name Python prints for the type of a value. *)
Definition type_name (v : value) : string :=
  match v with
  | VNull => "NoneType" | VBool _ => "bool" | VInt _ => "int"
  | VFloat _ => "float" | VStr _ => "str" | VOid _ => "ObjectId"
  | VDate _ => "datetime.datetime" | VList _ => "list" | VDoc _ => "dict"
  end.

(** [float(z)] on an [int], with Python's overflow error. *)
Definition int_to_float (z : Z) : result float :=
  let f := float_of_Z z in
  if is_infinity f then Raise (OverflowError "int too large to convert to float")
  else Ok f.

(** [x * n] for a float [x] and an int [n] *)
Definition float_mul_int (x : float) (n : Z) : result float :=
  match int_to_float n with
  | Ok q => Ok (x * q)%float
  | Raise e => Raise e
  end.

(** [round(x, 2)] *)
Definition py_round2 (x : float) : result float :=
  let r := round_half_even_2 x in
  if is_infinity r && negb (is_infinity x)
  then Raise (OverflowError "rounded value too large to represent")
  else Ok r.

(** [math.isfinite(x)] *)
Definition is_finite (x : float) : bool := negb (is_nan x || is_infinity x).

(** ** What the framework sends for a returned value *)

(** FastAPI passes the value an endpoint returns through
    [jsonable_encoder] and renders the result with
    [json.dumps(..., allow_nan=False)].  The encoder refuses an ObjectId
    (it is no JSON type and has neither items nor attributes) and the
    renderer refuses a float that is not finite; either failure happens
    after the endpoint has returned. *)
Fixpoint json_ok (v : value) : bool :=
  match v with
  | VFloat f => is_finite f
  | VOid _ => false
  | VList l => forallb json_ok l
  | VDoc d => forallb (fun kv => json_ok (snd kv)) d
  | _ => true
  end.

(** [jsonable_encoder(v)] where it succeeds: a timestamp becomes its
    ISO-8601 text, at any depth. *)
Fixpoint jsonable_encoder (v : value) : value :=
  match v with
  | VDate t => VStr (isoformat t)
  | VList l => VList (map jsonable_encoder l)
  | VDoc d => VDoc (map (fun kv => (fst kv, jsonable_encoder (snd kv))) d)
  | _ => v
  end.

(** A returned document can be rendered: every value in it can. *)
Definition doc_ok (d : doc) : bool :=
  bool_decide (map_Forall (fun _ v => json_ok v = true) d).

(** The document as it is sent. *)
Definition json_doc (d : doc) : doc := jsonable_encoder <$> d.

Section Api.

(** Two builtins stay parameters: how [float(s)] reads a string, and how
    [repr] prints a value. *)
Variable float_of_str : string -> option float.
Variable repr : value -> string.

(** [str(v)]: the text itself for a string, the hexadecimal digits for an
    ObjectId, [isoformat(sep=' ')] for a timestamp, and [repr(v)] for the
    other values. *)
Definition py_str (v : value) : string :=
  match v with
  | VOid o => ObjectId_str o
  | VStr s => s
  | VDate t => isoformat_sep " " t
  | _ => repr v
  end.

(** [float(v)] *)
Definition py_float (v : value) : result float :=
  match v with
  | VFloat f => Ok f
  | VInt z => int_to_float z
  | VBool b => Ok (if b then 1%float else 0%float)
  | VStr s =>
      match float_of_str s with
      | Some f => Ok f
      | None => Raise (ValueError ("could not convert string to float: " +:+ repr v))
      end
  | _ => Raise (TypeError ("float() argument must be a string or a real number, not '"
                           +:+ type_name v +:+ "'"))
  end.

(** [ObjectId(s)] *)
Definition ObjectId_new (s : string) : M ObjectId :=
  match ObjectId_of_str s with
  | Some o => ret o
  | None => raise (InvalidId (repr (VStr s) +:+
      " is not a valid ObjectId, it must be a 12-byte input or a 24-character hex string"))
  end.

(** [PyObjectId.validate(v)] on a string, as [create_order] calls it; the
    [isinstance(v, ObjectId)] branch is for identifiers already built. *)
Definition PyObjectId_validate (v : string) : M ObjectId :=
  if negb (ObjectId_is_valid v) then raise (ValueError "Invalid ObjectId")
  else ObjectId_new v.

(** Modelled from the spec: [database.create_document], the Document
    Gateway's [insert(collectionName, record) -> identifier]: the record is
    persisted with a generated identifier, whose text form is returned; it
    fails when the store is unreachable. *)
Definition create_document (coll : string) (record : doc) : M string :=
  let! i := insert_one coll record in
  ret (py_str i).

(** Modelled from the spec: [database.get_documents], the Document Gateway's
    [query(collectionName, filter)]: the documents whose fields match the
    filter exactly, all of them for the empty filter, in a stable order. *)
Definition get_documents (coll : string) (flt : filter_doc) : M (list doc) :=
  find coll flt.

Definition iso_value (v : value) : value :=
  match v with
  | VDate t => VStr (isoformat t)
  | _ => v
  end.

Definition serialize_doc (d : doc) : doc :=
  if dict_empty d then d
  else
    let d1 := match d !! "_id" with
              | Some v => if truthy v
                          then <["id" := VStr (py_str v)]> (delete "_id" d)
                          else d
              | None => d
              end in
    iso_value <$> d1.

(** [serialize_doc] on what [find_one] returns: [None] stays [None]. *)
Definition serialize_found (o : option doc) : option doc :=
  serialize_doc <$> o.

Definition list_products (category : option string) : M (list doc) :=
  except_500 (
    let filter_q := match category with
                    | Some c => if negb (String.eqb c "")
                                then [("category", VStr c)] else []
                    | None => []
                    end in
    let! ds := get_documents "product" filter_q in
    ret (map serialize_doc ds)).

Definition create_product (product : Product) : M (option doc) :=
  except_500 (
    let! new_id := create_document "product" (Product_dump product) in
    let! oid := ObjectId_new new_id in
    let! d := find_one "product" [("_id", VOid oid)] in
    ret (serialize_found d)).

Definition not_found (item : OrderItem) : exn :=
  HTTPException 404 ("Product not found: " +:+ product_id item).

(** The loop of [create_order]: one product lookup per item. *)
Fixpoint order_subtotal (its : list OrderItem) (subtotal : float) : M float :=
  match its with
  | [] => ret subtotal
  | item :: rest =>
      let! oid := PyObjectId_validate (product_id item) in
      let! prod := find_one "product" [("_id", VOid oid)] in
      match prod with
      | None => raise (not_found item)
      | Some p =>
          if dict_empty p then raise (not_found item)
          else
            let! pr := lift (py_float (default (VInt 0) (p !! "price"))) in
            let! amount := lift (float_mul_int pr (quantity item)) in
            order_subtotal rest (subtotal + amount)%float
      end
  end.

Definition create_order (payload : CheckoutPayload) : M (option doc) :=
  except_http_500 (
    let! subtotal := order_subtotal (items payload) 0%float in
    let! st := lift (py_round2 subtotal) in
    let! tot := lift (py_round2 subtotal) in
    let order := {| order_customer_name := customer_name payload;
                    order_customer_email := customer_email payload;
                    order_customer_phone := customer_phone payload;
                    order_shipping_address := shipping_address payload;
                    order_items := items payload;
                    subtotal := st;
                    total := tot;
                    status := Order_default_status |} in
    let! new_id := create_document "order" (Order_dump order) in
    let! oid := ObjectId_new new_id in
    let! d := find_one "order" [("_id", VOid oid)] in
    ret (serialize_found d)).

Definition list_orders (email : option string) : M (list doc) :=
  except_500 (
    let q := match email with
             | Some e => if negb (String.eqb e "")
                         then [("customer_email", VStr e)] else []
             | None => []
             end in
    let! ds := get_documents "order" q in
    ret (map serialize_doc ds)).

Definition sample_product (t d : string) (p : float) (c : string) (q : Z)
    (img : string) : doc :=
  <["title" := VStr t]> (<["description" := VStr d]> (<["price" := VFloat p]> (
  <["category" := VStr c]> (<["in_stock" := VBool true]> (
  <["stock_qty" := VInt q]> (<["image" := VStr img]> ∅)))))).

Definition sample_products : list doc :=
  [ sample_product "Handcrafted Silk Scarf"
      "Premium silk scarf with elegant patterns" 1499.0 "Accessories" 25
      "https://images.unsplash.com/photo-1520975693411-b40e8f1de1e5?q=80&w=1200&auto=format&fit=crop";
    sample_product "Artisanal Pottery Vase"
      "Handmade ceramic vase with glaze finish" 2299.0 "Home Decor" 12
      "https://images.unsplash.com/photo-1519710164239-da123dc03ef4?q=80&w=1200&auto=format&fit=crop";
    sample_product "Embroidered Tote Bag"
      "Canvas tote with traditional embroidery" 999.0 "Bags" 40
      "https://images.unsplash.com/photo-1553062407-98eeb64c6a62?q=80&w=1200&auto=format&fit=crop" ].

Definition seed_products : M doc :=
  except_500 (
    let! n := count_documents "product" [] in
    if 0 <? n then ret {[ "message" := VStr "Products already exist" ]}
    else
      let! inserted := insert_many "product" sample_products in
      ret {[ "inserted" := VInt (Z.of_nat (length inserted)) ]}).

(** ** Requests and responses *)

Inductive request :=
| GET_products (category : option string)
| POST_products (product : Product)
| POST_orders (payload : CheckoutPayload)
| GET_orders (email : option string)
| POST_seed.

Inductive body :=
| JDoc (d : option doc)
| JList (l : list doc).

Inductive response :=
| Response (status_code : Z) (content : body)
| Error (status_code : Z) (detail : string).

Definition body_ok (b : body) : bool :=
  match b with
  | JDoc (Some d) => doc_ok d
  | JDoc None => true
  | JList l => forallb doc_ok l
  end.

Definition body_json (b : body) : body :=
  match b with
  | JDoc d => JDoc (json_doc <$> d)
  | JList l => JList (map json_doc l)
  end.

(** The response for a returned value: the encoded body under the route's
    status code, or the server's plain 500 when the body cannot be
    rendered. *)
Definition render (code : Z) (b : body) : response :=
  if body_ok b then Response code (body_json b)
  else Error 500 "Internal Server Error".

(** The response for an endpoint's outcome: an [HTTPException] is answered
    with its status code and detail, any other exception with the server's
    plain 500. *)
Definition respond {A} (code : Z) (wrap : A -> body) (m : M A)
    : store -> response * store :=
  fun s => match m s with
           | (Ok a, s') => (render code (wrap a), s')
           | (Raise (HTTPException c d), s') => (Error c d, s')
           | (Raise _, s') => (Error 500 "Internal Server Error", s')
           end.

Definition unprocessable : store -> response * store :=
  fun s => (Error 422 "Unprocessable Entity", s).

(** A request is validated against its schema, then routed. *)
Definition handle (r : request) : store -> response * store :=
  match r with
  | GET_products c => respond 200 JList (list_products c)
  | POST_products p =>
      if Product_valid p then respond 201 JDoc (create_product p)
      else unprocessable
  | POST_orders p =>
      if CheckoutPayload_valid p then respond 201 JDoc (create_order p)
      else unprocessable
  | GET_orders e => respond 200 JList (list_orders e)
  | POST_seed => respond 201 (fun d => JDoc (Some d)) seed_products
  end.

(** ** Notions the properties are stated with *)

Definition to_option {A} (r : result A) : option A :=
  match r with Ok a => Some a | Raise _ => None end.

(** The price in effect of the product an item refers to. *)
Definition resolved_price (products : list doc) (pid : string) : option float :=
  match ObjectId_of_str pid with
  | Some o =>
      match List.find (matches [("_id", VOid o)]) products with
      | Some p => to_option (py_float (default (VInt 0) (p !! "price")))
      | None => None
      end
  | None => None
  end.

(** [price_i * qty_i] *)
Definition line_amount (products : list doc) (item : OrderItem) : option float :=
  match resolved_price products (product_id item) with
  | Some pr => to_option (float_mul_int pr (quantity item))
  | None => None
  end.

Fixpoint line_amounts (products : list doc) (its : list OrderItem)
    : option (list float) :=
  match its with
  | [] => Some []
  | item :: rest =>
      match line_amount products item, line_amounts products rest with
      | Some a, Some l => Some (a :: l)
      | _, _ => None
      end
  end.

(** The order total in the specification's words:
    [round(sum(price_i * qty_i), 2)], summed in item order from [0.0]. *)
Definition spec_order_total (products : list doc) (its : list OrderItem)
    : option float :=
  match line_amounts products its with
  | Some l => to_option (py_round2 (fold_left PrimFloat.add l 0%float))
  | None => None
  end.





(** The store is reachable for the next [k] operations. *)
Definition online (k : nat) (s : store) : Prop :=
  Forall (fun o => o = None) (take k (outages s)).

(** The store once an operation has reached it. *)
Definition reached (s : store) : store :=
  {| collections := collections s; next_oid := next_oid s;
     outages := tail (outages s) |}.

(** The store after a sequence of requests. *)
Fixpoint run (rs : list request) (s : store) : store :=
  match rs with
  | [] => s
  | r :: rest => run rest (handle r s).2
  end.

(** The documents a response body carries. *)
Definition body_docs (b : body) : list doc :=
  match b with
  | JDoc (Some d) => [d]
  | JDoc None => []
  | JList l => l
  end.

(** A computation that writes to no collection. *)
Definition read_only {A} (m : M A) : Prop :=
  forall s r s', m s = (r, s') -> collections s' = collections s.

(** What reaching the store answers: the error text when it is down. *)
Definition outage (s : store) : option string :=
  match outages s with
  | Some msg :: _ => Some msg
  | _ => None
  end.

(** The store once the driver has generated an identifier. *)
Definition advanced (s : store) : store :=
  {| collections := collections s; next_oid := N.succ (next_oid s);
     outages := outages s |}.

(** The order document [create_order] hands to the gateway. *)
Definition order_record (payload : CheckoutPayload) (amount : float) : doc :=
  Order_dump {| order_customer_name := customer_name payload;
                order_customer_email := customer_email payload;
                order_customer_phone := customer_phone payload;
                order_shipping_address := shipping_address payload;
                order_items := items payload;
                subtotal := amount;
                total := amount;
                status := Order_default_status |}.

(** The store once [k] operations have reached it. *)
Fixpoint after (k : nat) (s : store) : store :=
  match k with
  | O => s
  | S k' => after k' (reached s)
  end.

(** The errors an endpoint lets out: a not-found or a server error. *)
Definition http_failure (c : Z) : Prop := c = 404 \/ c = 500.

(** The document's [category] field is exactly the text [c]. *)
Definition category_is (c : string) (d : doc) : bool :=
  match d !! "category" with
  | Some (VStr x) => String.eqb x c
  | _ => false
  end.

(** Documents stored with the identifiers generated from [n] on. *)
Fixpoint with_ids (n : N) (ds : list doc) : list doc :=
  match ds with
  | [] => []
  | d :: rest => <["_id" := VOid (oid_bytes n)]> d :: with_ids (N.succ n) rest
  end.

(** A computation that at most appends documents satisfying [P] to the
    collection [coll] and leaves every other collection alone. *)
Definition appends {A} (coll : string) (P : doc -> Prop) (m : M A) : Prop :=
  forall s r s', m s = (r, s') ->
    (forall c, c <> coll -> docs s' c = docs s c) /\
    exists new, docs s' coll = (docs s coll ++ new)%list /\ Forall P new.

Definition pending (d : doc) : Prop := d !! "status" = Some (VStr "pending").

(** A document that carries an ObjectId as "_id". *)
Definition has_id (d : doc) : Prop := exists o, d !! "_id" = Some (VOid o).

(** The data model's store: each stored document carries the identifier the
    store generated for it, an ObjectId. *)
Definition identified (s : store) : Prop :=
  forall coll d, In d (docs s coll) -> has_id d.
(** ** A runtime and stores for the examples *)

Fixpoint decimal_value (s : string) (acc : N) : option N :=
  match s with
  | EmptyString => Some acc
  | String c rest =>
      let n := N_of_ascii c in
      if (48 <=? n)%N && (n <=? 57)%N then decimal_value rest (10 * acc + (n - 48))%N
      else None
  end.

(** [float(s)] on an unsigned decimal literal such as ["1499"]; the
    examples hold no other text where a number is expected. *)
Definition float_of_decimal (s : string) : option float :=
  match s with
  | EmptyString => None
  | _ => (fun n => float_of_Z (Z.of_N n)) <$> decimal_value s 0%N
  end.

(** [repr(v)] on scalars. *)
Definition repr_scalar (v : value) : string :=
  match v with
  | VNull => "None"
  | VBool true => "True"
  | VBool false => "False"
  | VInt z => pretty z
  | VStr s => "'" +:+ s +:+ "'"
  | VOid o => "ObjectId('" +:+ ObjectId_str o +:+ "')"
  | _ => "<" +:+ type_name v +:+ ">"
  end.

Definition content_of (r : response) : body :=
  match r with
  | Response _ c => c
  | Error _ _ => JList []
  end.

Definition empty_store : store :=
  {| collections := ∅; next_oid := 1%N; outages := [] |}.

(** The store once seeded: scarf, vase and tote bag under the identifiers
    that spell 1, 2 and 3. *)
Definition demo_store : store := (seed_products empty_store).2.

Definition scarf : doc := default ∅ (docs demo_store "product" !! 0%nat).
Definition vase : doc := default ∅ (docs demo_store "product" !! 1%nat).

Definition checkout_of (its : list OrderItem) : CheckoutPayload :=
  {| customer_name := "Asha"; customer_email := "asha@example.com";
     customer_phone := None; shipping_address := "12 Lake Road";
     items := its |}.

Definition scarf_item (q : Z) : OrderItem :=
  {| product_id := ObjectId_str (oid_bytes 1); quantity := q |}.
Definition vase_item (q : Z) : OrderItem :=
  {| product_id := ObjectId_str (oid_bytes 2); quantity := q |}.
Definition absent_item : OrderItem :=
  {| product_id := ObjectId_str (oid_bytes 255); quantity := 1 |}.

Definition demo_checkout : CheckoutPayload :=
  checkout_of [scarf_item 2; vase_item 1].

(** A product with a generated identifier, a creation date and no price. *)
Definition gift_card : doc :=
  <["_id" := VOid (oid_bytes 9)]> (<["title" := VStr "Gift card"]> (
  <["category" := VStr "Gifts"]> (
  <["created_at" := VDate {| dt_year := 2025; dt_month := 11; dt_day := 30;
                             dt_hour := 18; dt_minute := 45; dt_second := 9;
                             dt_microsecond := 120000 |}]> ∅))).

Definition gift_store : store :=
  {| collections := {[ "product" := [gift_card] ]};
     next_oid := 10%N; outages := [] |}.

Definition gift_item : OrderItem :=
  {| product_id := ObjectId_str (oid_bytes 9); quantity := 3 |}.

(** A quantity too large for a float. *)
Definition huge_gift_item : OrderItem :=
  {| product_id := ObjectId_str (oid_bytes 9); quantity := 2 ^ 1024 |}.




(** ** The rest of [main.py] *)

(** [ObjectId.is_valid(v)] on any value: a falsy value is not valid, and
    neither is one [ObjectId(v)] refuses. *)
Definition ObjectId_is_valid_value (v : value) : bool :=
  truthy v &&
  match v with
  | VOid _ => true
  | VStr s => bool_decide (is_Some (ObjectId_of_str s))
  | _ => false
  end.

(** [ObjectId(v)] on any value *)
Definition ObjectId_new_value (v : value) : M ObjectId :=
  match v with
  | VOid o => ret o
  | VStr s => ObjectId_new s
  | _ => raise (TypeError ("id must be an instance of (bytes, str, ObjectId), not <class '"
                           +:+ type_name v +:+ "'>"))
  end.

(** [PyObjectId.validate(v)], with its [isinstance(v, ObjectId)] branch. *)
Definition PyObjectId_validate_value (v : value) : M ObjectId :=
  match v with
  | VOid o => ret o
  | _ => if negb (ObjectId_is_valid_value v) then raise (ValueError "Invalid ObjectId")
         else ObjectId_new_value v
  end.

(** [try: m  except Exception as e: handler(e)] *)
Definition try_except {A} (m : M A) (handler : exn -> M A) : M A :=
  fun s => match m s with
           | (Raise e, s') => handler e s'
           | r => r
           end.

(** What [test_database] looks at in the [db] handle: whether it has a
    [name] attribute, and its value. *)
Record db_handle := { db_name : option string }.

(** [db.list_collection_names()] *)
Definition list_collection_names : M (list string) :=
  let! _ := access in
  fun s => (Ok (map fst (map_to_list (collections s))), s).

(** The dictionary [test_database] starts from. *)
Definition test_response : doc :=
  <["backend" := VStr "✅ Running"]> (
  <["database" := VStr "❌ Not Available"]> (
  <["database_url" := VNull]> (
  <["database_name" := VNull]> (
  <["connection_status" := VStr "Not Connected"]> (
  <["collections" := VList []]> ∅))))).

(** [test_database()], given the [db] handle ([None] when the connection was
    never set up) and the value of the environment variable DATABASE_URL.
    No statement of the outer [try] raises outside the inner one, so the
    outer handler finds the dictionary as it was first built. *)
Definition test_database (db : option db_handle) (DATABASE_URL : option string)
    : M doc :=
  let response := test_response in
  try_except
    (match db with
     | Some h =>
         let response := <["database" := VStr "✅ Available"]> response in
         let response :=
           <["database_url" :=
               VStr (if truthy (opt_str DATABASE_URL) then "✅ Set" else "❌ Not Set")]>
             response in
         let response :=
           <["database_name" :=
               VStr (match db_name h with Some n => n | None => "✅ Connected" end)]>
             response in
         let response := <["connection_status" := VStr "Connected"]> response in
         try_except
           (let! collections := list_collection_names in
            let response :=
              <["collections" := VList (map VStr (take 10 collections))]> response in
            ret (<["database" := VStr "✅ Connected & Working"]> response))
           (fun e =>
              ret (<["database" :=
                       VStr ("⚠️  Connected but Error: " +:+ str_prefix 50 (exn_str e))]>
                     response))
     | None =>
         ret (<["database" := VStr "⚠️  Available but not initialized"]> response)
     end)
    (fun e =>
       ret (<["database" := VStr ("❌ Error: " +:+ str_prefix 50 (exn_str e))]> response)).

(** ** More notions for the properties *)

(** The document's field [k] is exactly the text [c]. *)
Definition field_is (k c : string) (d : doc) : bool :=
  match d !! k with
  | Some (VStr x) => String.eqb x c
  | _ => false
  end.

(** A product document with a non-negative price and stock. *)
Definition stocked (d : doc) : Prop :=
  exists x q,
    d !! "price" = Some (VFloat x) /\ PrimFloat.leb 0 x = true /\
    d !! "stock_qty" = Some (VInt q) /\ 0 <= q.

(** An order document whose lines have a quantity of at least one and whose
    total is its subtotal. *)
Definition sound_order (d : doc) : Prop :=
  exists its amount,
    d !! "items" = Some (VList (map OrderItem_dump its)) /\
    Forall (fun it => 1 <= quantity it) its /\
    d !! "subtotal" = Some (VFloat amount) /\
    d !! "total" = Some (VFloat amount).

(** The document [create_product] stores for a product under identifier [o]. *)
Definition product_record (p : Product) (o : ObjectId) : doc :=
  <["_id" := VOid o]> (Product_dump p).

(** The identifier the driver generates next. *)
Definition fresh_oid (s : store) : ObjectId := oid_bytes (next_oid s).

(** No document of the collection carries the identifier generated next. *)
Definition fresh_in (coll : string) (s : store) : Prop :=
  existsb (matches [("_id", VOid (fresh_oid s))]) (docs s coll) = false.

(** The store once [insert_one] has written [d] under the next identifier. *)
Definition written (coll : string) (d : doc) (s : store) : store :=
  set_docs coll (docs s coll ++ [<["_id" := VOid (fresh_oid s)]> d])
    (advanced (reached s)).

(** The order document stored for a payload, an amount and an identifier. *)
Definition stored_order (payload : CheckoutPayload) (amount : float)
    (o : ObjectId) : doc :=
  <["_id" := VOid o]> (order_record payload amount).

(** A computation whose every error satisfies [Q]. *)
Definition raises {A} (Q : exn -> Prop) (m : M A) : Prop :=
  forall s e s', m s = (Raise e, s') -> Q e.

(** An error that is not an [HTTPException]. *)
Definition plain (e : exn) : Prop :=
  match e with
  | HTTPException _ _ => False
  | _ => True
  end.

(** The errors of the checkout loop: a plain error, or the not-found of one
    of the items. *)
Definition loop_error (its : list OrderItem) (e : exn) : Prop :=
  plain e \/ exists item, In item its /\ e = not_found item.


(** The number of ASCII whitespace characters of a string. *)
Fixpoint count_space (s : string) : nat :=
  match s with
  | EmptyString => O
  | String c rest => ((if is_space c then 1 else 0) + count_space rest)%nat
  end.

(** Every character is a hexadecimal digit or ASCII whitespace. *)
Fixpoint hex_or_space (s : string) : bool :=
  match s with
  | EmptyString => true
  | String c rest => (is_space c || bool_decide (is_Some (hex_val c))) && hex_or_space rest
  end.

(** The number a sequence of bytes spells, most significant first, after
    the digits of [acc]. *)
Fixpoint bytes_to_N (acc : N) (b : list byte) : N :=
  match b with
  | [] => acc
  | x :: rest => bytes_to_N (256 * acc + Byte.to_N x)%N rest
  end.


(** No timestamp is left in the value, at any depth. *)
Fixpoint dateless (v : value) : bool :=
  match v with
  | VDate _ => false
  | VList l => forallb dateless l
  | VDoc d => forallb (fun kv => dateless (snd kv)) d
  | _ => true
  end.
(** ** More examples *)

Definition lamp : Product :=
  {| title := "Desk lamp"; description := None; price := 250.5;
     category := "Home Decor"; in_stock := true; stock_qty := 4;
     image := None |}.

(** The seeded store, down for its fourth operation from now. *)
Definition flaky_store : store :=
  {| collections := collections demo_store; next_oid := next_oid demo_store;
     outages := [None; None; None; Some "connection reset by peer"] |}.

(** A product whose price is stored as null. *)
Definition null_price_card : doc := <["price" := VNull]> gift_card.

Definition null_price_store : store :=
  {| collections := {[ "product" := [null_price_card] ]};
     next_oid := 10%N; outages := [] |}.


(** A product priced near the largest float: two of them cost more than a
    float can hold. *)
Definition jewel : doc :=
  <["_id" := VOid (oid_bytes 5)]> (<["title" := VStr "Jewel"]> (
  <["price" := VFloat 1e308]> (<["category" := VStr "Jewellery"]> ∅))).

Definition jewel_store : store :=
  {| collections := {[ "product" := [jewel] ]};
     next_oid := 6%N; outages := [] |}.

Definition jewel_item (q : Z) : OrderItem :=
  {| product_id := ObjectId_str (oid_bytes 5); quantity := q |}.

(** A product whose price is infinite: it passes the schema's [ge=0]. *)
Definition gilded_lamp : Product :=
  {| title := "Desk lamp"; description := None; price := infinity;
     category := "Home Decor"; in_stock := true; stock_qty := 4;
     image := None |}.
(** ** Hexadecimal text of an ObjectId *)

Ltac ascii_ranges H :=
  repeat match type of H with
         | (if ?b then _ else _) = _ => destruct b eqn:?
         end;
  repeat match goal with
         | H : (_ && _) = true |- _ => apply andb_true_iff in H as [? ?]
         | H : (_ && _) = false |- _ => apply andb_false_iff in H
         | H : (_ || _) = true |- _ => apply orb_true_iff in H
         | H : (_ || _) = false |- _ => apply orb_false_iff in H as [? ?]
         | H : (_ <=? _)%N = true |- _ => apply N.leb_le in H
         | H : (_ <=? _)%N = false |- _ => apply N.leb_gt in H
         | H : (_ <? _)%N = true |- _ => apply N.ltb_lt in H
         | H : (_ <? _)%N = false |- _ => apply N.ltb_ge in H
         | H : (_ =? _)%N = true |- _ => apply N.eqb_eq in H
         | H : (_ =? _)%N = false |- _ => apply N.eqb_neq in H
         end.

Lemma hex_val_digit_char (d : N) :
  (d < 16)%N -> hex_val (digit_char d) = Some d.
Proof.
  intros Hd.
  assert (Hcases : In d (map N.of_nat (seq 0 16))).
  { apply in_map_iff. exists (N.to_nat d). split; [lia|].
    apply in_seq. lia. }
  simpl in Hcases.
  repeat (destruct Hcases as [<-|Hcases]; [reflexivity|]).
  destruct Hcases.
Qed.

Lemma hex_val_bound c d : hex_val c = Some d -> (d < 16)%N.
Proof.
  unfold hex_val. intros H. ascii_ranges H; inversion H; subst; lia.
Qed.

Lemma hex_val_not_space c d : hex_val c = Some d -> is_space c = false.
Proof.
  intros H. destruct (is_space c) eqn:Hs; [|reflexivity].
  unfold is_space in Hs. unfold hex_val in H.
  ascii_ranges Hs. ascii_ranges H; try discriminate;
    destruct Hs as [Hs|Hs]; ascii_ranges Hs; lia.
Qed.

Lemma hex_val_not_continuation c d : hex_val c = Some d -> continuation c = false.
Proof.
  intros H. destruct (continuation c) eqn:Hs; [|reflexivity].
  unfold continuation in Hs. unfold hex_val in H.
  ascii_ranges Hs. ascii_ranges H; try discriminate; lia.
Qed.

Lemma is_space_not_continuation c : is_space c = true -> continuation c = false.
Proof.
  intros H. destruct (continuation c) eqn:Hs; [|reflexivity].
  unfold continuation in Hs. unfold is_space in H.
  ascii_ranges Hs. ascii_ranges H.
  destruct H as [H|H]; ascii_ranges H; lia.
Qed.

Lemma length_digits base k n tail :
  String.length (digits base k n tail) = (k + String.length tail)%nat.
Proof.
  revert n tail. induction k as [|k IH]; intros n tail; simpl; [reflexivity|].
  rewrite IH. simpl. lia.
Qed.

Lemma byte_of_to_N x : byte_of_N (Byte.to_N x) = x.
Proof. unfold byte_of_N. now rewrite Byte.of_to_N. Qed.

Lemma byte_to_of_N n : (n < 256)%N -> Byte.to_N (byte_of_N n) = n.
Proof.
  intros Hn. unfold byte_of_N. destruct (Byte.of_N n) as [b|] eqn:Hb.
  - now apply Byte.to_of_N.
  - apply Byte.of_N_None_iff in Hb. lia.
Qed.

Lemma byte_halves x :
  (Byte.to_N x / 16 < 16)%N /\ (Byte.to_N x mod 16 < 16)%N /\
  byte_of_N (16 * (Byte.to_N x / 16) + Byte.to_N x mod 16) = x.
Proof.
  pose proof (Byte.to_N_bounded x) as Hb.
  split; [apply N.Div0.div_lt_upper_bound; lia|].
  split; [apply N.mod_lt; lia|].
  rewrite <- N.Div0.div_mod. apply byte_of_to_N.
Qed.

Lemma bytes_fromhex_hexlify b : bytes_fromhex (hexlify b) = Some b.
Proof.
  induction b as [|x rest IH]; [reflexivity|].
  destruct (byte_halves x) as (Htop & Hbot & Hx).
  cbn [hexlify bytes_fromhex].
  rewrite (hex_val_not_space _ _ (hex_val_digit_char _ Htop)).
  rewrite (hex_val_digit_char _ Htop), (hex_val_digit_char _ Hbot).
  rewrite Hx, IH. reflexivity.
Qed.

Lemma py_len_hexlify b : py_len (hexlify b) = (2 * length b)%nat.
Proof.
  induction b as [|x rest IH]; [reflexivity|].
  destruct (byte_halves x) as (Htop & Hbot & _).
  cbn [hexlify py_len length].
  rewrite (hex_val_not_continuation _ _ (hex_val_digit_char _ Htop)).
  rewrite (hex_val_not_continuation _ _ (hex_val_digit_char _ Hbot)).
  rewrite IH. lia.
Qed.

Lemma ObjectId_of_str_str (o : ObjectId) :
  ObjectId_of_str (ObjectId_str o)
  = if Nat.eqb (length o) 12 then Some o else None.
Proof.
  unfold ObjectId_of_str, ObjectId_str. rewrite py_len_hexlify.
  destruct (Nat.eqb (length o) 12) eqn:Hlen.
  - apply Nat.eqb_eq in Hlen. rewrite Hlen. cbn [Nat.mul Nat.add Nat.eqb].
    apply bytes_fromhex_hexlify.
  - apply Nat.eqb_neq in Hlen.
    destruct (Nat.eqb (2 * length o) 24) eqn:H2; [|reflexivity].
    apply Nat.eqb_eq in H2. lia.
Qed.

Lemma length_N_to_bytes k n tail :
  length (N_to_bytes k n tail) = (k + length tail)%nat.
Proof.
  revert n tail. induction k as [|k IH]; intros n tail; simpl; [reflexivity|].
  rewrite IH. simpl. lia.
Qed.

Lemma length_oid_bytes n : length (oid_bytes n) = 12%nat.
Proof. unfold oid_bytes. now rewrite length_N_to_bytes. Qed.

Lemma ObjectId_roundtrip (n : N) :
  ObjectId_of_str (ObjectId_str (oid_bytes n)) = Some (oid_bytes n).
Proof. now rewrite ObjectId_of_str_str, length_oid_bytes. Qed.

Lemma bytes_eqb_eq a b : bytes_eqb a b = true <-> a = b.
Proof.
  revert b. induction a as [|x a IH]; intros [|y b]; simpl;
    try (split; [discriminate|discriminate]); [tauto|].
  rewrite andb_true_iff, IH. split.
  - intros [Hx ->]. now rewrite (Byte.byte_dec_bl _ _ Hx).
  - intros H. inversion H; subst. split; [now apply Byte.byte_dec_lb|reflexivity].
Qed.

Lemma bytes_eqb_refl a : bytes_eqb a a = true.
Proof. now apply bytes_eqb_eq. Qed.

Lemma bytes_to_N_to_bytes k n tail acc :
  bytes_to_N acc (N_to_bytes k n tail)
  = bytes_to_N (acc * 256 ^ N.of_nat k + n mod 256 ^ N.of_nat k)%N tail.
Proof.
  revert n tail acc. induction k as [|k IH]; intros n tail acc.
  - simpl. rewrite N.mod_1_r. f_equal. lia.
  - cbn [N_to_bytes]. rewrite IH. cbn [bytes_to_N].
    rewrite byte_to_of_N by (apply N.mod_lt; lia).
    f_equal.
    rewrite Nat2N.inj_succ, N.pow_succ_r'.
    rewrite (N.Div0.mod_mul_r n 256 (256 ^ N.of_nat k)).
    lia.
Qed.

Lemma oid_bytes_spells n : bytes_to_N 0 (oid_bytes n) = (n mod 2 ^ 96)%N.
Proof.
  unfold oid_bytes. rewrite bytes_to_N_to_bytes. cbn [bytes_to_N].
  change (256 ^ N.of_nat 12)%N with (2 ^ 96)%N. lia.
Qed.

(** ** The store monad *)

Lemma bind_inv {A B} (m : M A) (k : A -> M B) s r s' :
  bind m k s = (r, s') ->
  (exists a s1, m s = (Ok a, s1) /\ k a s1 = (r, s')) \/
  (exists e, m s = (Raise e, s') /\ r = Raise e).
Proof.
  unfold bind. destruct (m s) as [[a|e] s1]; intros H.
  - left. eauto.
  - right. inversion H; subst. eauto.
Qed.

Lemma bind_Ok {A B} (m : M A) (k : A -> M B) s a s1 :
  m s = (Ok a, s1) -> bind m k s = k a s1.
Proof. intros H. unfold bind. now rewrite H. Qed.

Lemma bind_Raise {A B} (m : M A) (k : A -> M B) s e s1 :
  m s = (Raise e, s1) -> bind m k s = (Raise e, s1).
Proof. intros H. unfold bind. now rewrite H. Qed.

Ltac bind_split H :=
  let a := fresh "a" in let s1 := fresh "s" in let e := fresh "e" in
  let H1 := fresh "Hm" in let H2 := fresh "Hk" in
  apply bind_inv in H;
  destruct H as [(a & s1 & H1 & H2) | (e & H1 & H2)].

Lemma read_only_ret {A} (a : A) : read_only (ret a).
Proof. intros s r s' H. inversion H. reflexivity. Qed.

Lemma read_only_raise {A} e : read_only (@raise A e).
Proof. intros s r s' H. inversion H. reflexivity. Qed.

Lemma read_only_lift {A} (x : result A) : read_only (lift x).
Proof. intros s r s' H. inversion H. reflexivity. Qed.

Lemma read_only_bind {A B} (m : M A) (k : A -> M B) :
  read_only m -> (forall a, read_only (k a)) -> read_only (bind m k).
Proof.
  intros Hm Hk s r s' H. bind_split H.
  - rewrite (Hk _ _ _ _ Hk0). eauto.
  - eauto.
Qed.

Lemma access_eq s :
  access s = (match outage s with
              | Some msg => Raise (PersistenceError msg)
              | None => Ok tt
              end, reached s).
Proof.
  unfold access, outage, reached. destruct s as [c n o]; simpl.
  destruct o as [|[msg|] rest]; reflexivity.
Qed.

Lemma docs_reached s coll : docs (reached s) coll = docs s coll.
Proof. reflexivity. Qed.

Lemma read_only_access : read_only access.
Proof. intros s r s' H. rewrite access_eq in H. inversion H. reflexivity. Qed.

Lemma find_one_eq coll flt s :
  find_one coll flt s
  = (match outage s with
     | Some msg => Raise (PersistenceError msg)
     | None => Ok (List.find (matches flt) (docs s coll))
     end, reached s).
Proof.
  unfold find_one, bind. rewrite access_eq. destruct (outage s); reflexivity.
Qed.

Lemma find_eq coll flt s :
  find coll flt s
  = (match outage s with
     | Some msg => Raise (PersistenceError msg)
     | None => Ok (List.filter (matches flt) (docs s coll))
     end, reached s).
Proof.
  unfold find, bind. rewrite access_eq. destruct (outage s); reflexivity.
Qed.

Lemma count_documents_eq coll flt s :
  count_documents coll flt s
  = (match outage s with
     | Some msg => Raise (PersistenceError msg)
     | None => Ok (Z.of_nat (length (List.filter (matches flt) (docs s coll))))
     end, reached s).
Proof.
  unfold count_documents, bind. rewrite access_eq. destruct (outage s); reflexivity.
Qed.

Lemma read_only_find_one coll flt : read_only (find_one coll flt).
Proof. intros s r s' H. rewrite find_one_eq in H. inversion H. reflexivity. Qed.

Lemma online_outage k s : online (S k) s -> outage s = None.
Proof.
  unfold online, outage. destruct (outages s) as [|o rest]; [reflexivity|].
  simpl. intros H. inversion H; subst. reflexivity.
Qed.

Lemma online_reached k s : online (S k) s -> online k (reached s).
Proof.
  unfold online, reached. simpl. destruct (outages s) as [|o rest]; simpl.
  - intros _. rewrite take_nil. constructor.
  - intros H. inversion H; assumption.
Qed.

Lemma ObjectId_new_eq str s :
  ObjectId_new str s
  = (match ObjectId_of_str str with
     | Some o => Ok o
     | None => Raise (InvalidId (repr (VStr str) +:+
         " is not a valid ObjectId, it must be a 12-byte input or a 24-character hex string"))
     end, s).
Proof. unfold ObjectId_new. destruct (ObjectId_of_str str); reflexivity. Qed.

Lemma ObjectId_is_valid_spec str :
  ObjectId_is_valid str = true <-> is_Some (ObjectId_of_str str).
Proof.
  unfold ObjectId_is_valid. split.
  - intros H. apply andb_true_iff in H as [_ H]. now apply bool_decide_eq_true in H.
  - intros H. apply andb_true_iff. split.
    + destruct str; [|reflexivity]. destruct H as [o H]. discriminate H.
    + now apply bool_decide_eq_true.
Qed.

Lemma PyObjectId_validate_eq str s :
  PyObjectId_validate str s
  = (match ObjectId_of_str str with
     | Some o => Ok o
     | None => Raise (ValueError "Invalid ObjectId")
     end, s).
Proof.
  unfold PyObjectId_validate.
  destruct (ObjectId_is_valid str) eqn:Hv; simpl.
  - apply ObjectId_is_valid_spec in Hv as [o Ho].
    rewrite ObjectId_new_eq, Ho. reflexivity.
  - destruct (ObjectId_of_str str) eqn:Ho; [|reflexivity].
    assert (ObjectId_is_valid str = true) by (apply ObjectId_is_valid_spec; eauto).
    congruence.
Qed.

(** ** The checkout loop *)

Lemma order_subtotal_cons item rest acc s :
  order_subtotal (item :: rest) acc s
  = match ObjectId_of_str (product_id item) with
    | None => (Raise (ValueError "Invalid ObjectId"), s)
    | Some o =>
        match outage s with
        | Some msg => (Raise (PersistenceError msg), reached s)
        | None =>
            match List.find (matches [("_id", VOid o)]) (docs s "product") with
            | None => (Raise (not_found item), reached s)
            | Some p =>
                if dict_empty p then (Raise (not_found item), reached s)
                else
                  match py_float (default (VInt 0) (p !! "price")) with
                  | Raise e => (Raise e, reached s)
                  | Ok pr =>
                      match float_mul_int pr (quantity item) with
                      | Raise e => (Raise e, reached s)
                      | Ok a => order_subtotal rest (acc + a)%float (reached s)
                      end
                  end
            end
        end
    end.
Proof.
  cbn [order_subtotal]. unfold bind at 1. rewrite PyObjectId_validate_eq.
  destruct (ObjectId_of_str (product_id item)) as [o|]; [|reflexivity].
  unfold bind at 1. rewrite find_one_eq.
  destruct (outage s); [reflexivity|].
  destruct (List.find _ _) as [p|]; [|reflexivity].
  destruct (dict_empty p); [reflexivity|].
  unfold bind at 1, lift at 1.
  destruct (py_float _); [|reflexivity].
  unfold bind at 1, lift at 1.
  destruct (float_mul_int _ _); reflexivity.
Qed.

Lemma read_only_order_subtotal its acc : read_only (order_subtotal its acc).
Proof.
  revert acc. induction its as [|item rest IH]; intros acc s r s' H.
  - inversion H. reflexivity.
  - rewrite order_subtotal_cons in H.
    repeat match type of H with
           | (match ?x with _ => _ end) = _ => destruct x
           | (if ?x then _ else _) = _ => destruct x
           end;
      try (inversion H; reflexivity).
    apply IH in H. exact H.
Qed.

Lemma docs_same s s' coll :
  collections s' = collections s -> docs s' coll = docs s coll.
Proof. unfold docs. now intros ->. Qed.

Lemma order_subtotal_Ok its acc s x s' :
  order_subtotal its acc s = (Ok x, s') ->
  exists l, line_amounts (docs s "product") its = Some l /\
            x = fold_left PrimFloat.add l acc.
Proof.
  revert acc s. induction its as [|item rest IH]; intros acc s H.
  - inversion H; subst. exists []. split; reflexivity.
  - rewrite order_subtotal_cons in H.
    cbn [line_amounts]. unfold line_amount, resolved_price.
    destruct (ObjectId_of_str (product_id item)) as [o|]; [|discriminate].
    destruct (outage s); [discriminate|].
    destruct (List.find _ _) as [p|]; [|discriminate].
    destruct (dict_empty p); [discriminate|].
    destruct (py_float _) as [pr|]; [|discriminate]. cbn [to_option].
    destruct (float_mul_int _ _) as [a|]; [|discriminate]. cbn [to_option].
    apply IH in H as (l & Hl & ->). rewrite docs_reached in Hl. rewrite Hl.
    exists (a :: l). split; reflexivity.
Qed.

(** ** Writing a document *)

Lemma docs_set_docs_eq coll l s : docs (set_docs coll l s) coll = l.
Proof. unfold docs, set_docs. simpl. now rewrite lookup_insert_eq. Qed.

Lemma docs_set_docs_ne coll coll' l s :
  coll <> coll' -> docs (set_docs coll l s) coll' = docs s coll'.
Proof. intros H. unfold docs, set_docs. simpl. now rewrite lookup_insert_ne. Qed.

Lemma write_doc_fresh coll (d : doc) s :
  d !! "_id" = None ->
  write_doc coll d s
  = let o := oid_bytes (next_oid s) in
    if existsb (matches [("_id", VOid o)]) (docs s coll)
    then (Raise (DuplicateKeyError "E11000 duplicate key error"), advanced s)
    else (Ok (VOid o),
          set_docs coll (docs s coll ++ [<["_id" := VOid o]> d]) (advanced s)).
Proof.
  intros Hd. unfold write_doc. rewrite Hd.
  unfold bind at 1. unfold bind at 1. unfold new_ObjectId.
  unfold ret at 1. reflexivity.
Qed.

Lemma matches_id_insert (o : ObjectId) (d : doc) :
  matches [("_id", VOid o)] (<["_id" := VOid o]> d) = true.
Proof.
  unfold matches. simpl. rewrite lookup_insert_eq. simpl.
  now rewrite bytes_eqb_refl.
Qed.

Lemma matches_id_lookup (o : ObjectId) (d : doc) :
  matches [("_id", VOid o)] d = true <-> d !! "_id" = Some (VOid o).
Proof.
  unfold matches. simpl. destruct (d !! "_id") as [v|]; [|split; discriminate].
  rewrite andb_true_r. destruct v; simpl; try (split; discriminate).
  rewrite bytes_eqb_eq. split; congruence.
Qed.

Lemma find_app_last {A} (f : A -> bool) l x :
  existsb f l = false -> f x = true -> List.find f (l ++ [x]) = Some x.
Proof.
  induction l as [|y l IH]; simpl; intros Hl Hx.
  - now rewrite Hx.
  - apply orb_false_iff in Hl as [Hy Hl]. rewrite Hy. auto.
Qed.

Lemma except_http_500_Ok {A} (m : M A) s a s' :
  except_http_500 m s = (Ok a, s') -> m s = (Ok a, s').
Proof.
  unfold except_http_500. destruct (m s) as [[x|e] s1]; [auto|].
  destruct e; discriminate.
Qed.

Lemma except_500_Ok {A} (m : M A) s a s' :
  except_500 m s = (Ok a, s') -> m s = (Ok a, s').
Proof.
  unfold except_500. destruct (m s) as [[x|e] s1]; [auto|discriminate].
Qed.

Lemma Order_dump_no_id o : Order_dump o !! "_id" = None.
Proof. reflexivity. Qed.

Lemma bind_Ok_inv {A B} (m : M A) (k : A -> M B) s b s' :
  bind m k s = (Ok b, s') ->
  exists a s1, m s = (Ok a, s1) /\ k a s1 = (Ok b, s').
Proof.
  intros H. apply bind_inv in H as [H|(e & _ & H)]; [exact H|discriminate].
Qed.

Lemma lift_Ok_inv {A} (x : result A) s a s' :
  lift x s = (Ok a, s') -> x = Ok a /\ s' = s.
Proof. unfold lift. intros H. inversion H. auto. Qed.

Lemma insert_one_fresh_Ok coll (d : doc) s i s' :
  d !! "_id" = None ->
  insert_one coll d s = (Ok i, s') ->
  let o := oid_bytes (next_oid s) in
  outage s = None /\
  i = VOid o /\
  existsb (matches [("_id", VOid o)]) (docs s coll) = false /\
  s' = set_docs coll (docs s coll ++ [<["_id" := VOid o]> d]) (advanced (reached s)).
Proof.
  intros Hd H o. unfold insert_one in H.
  apply bind_Ok_inv in H as ([] & s1 & Ha & H).
  rewrite access_eq in Ha. destruct (outage s) eqn:Hout; [discriminate|].
  inversion Ha; subst s1. rewrite (write_doc_fresh _ _ _ Hd) in H.
  cbv zeta in H. rewrite docs_reached in H. change (next_oid (reached s)) with (next_oid s) in H.
  fold o in H. destruct (existsb _ _) eqn:He; [discriminate|].
  inversion H; subst. auto.
Qed.

Lemma insert_fetch_Ok coll (d : doc) s r s' :
  d !! "_id" = None ->
  (let! new_id := create_document coll d in
   let! oid := ObjectId_new new_id in
   let! x := find_one coll [("_id", VOid oid)] in
   ret (serialize_found x)) s = (Ok r, s') ->
  exists o,
    r = Some (serialize_doc (<["_id" := VOid o]> d)) /\
    docs s' coll = (docs s coll ++ [<["_id" := VOid o]> d])%list /\
    (forall c, c <> coll -> docs s' c = docs s c).
Proof.
  intros Hd H.
  apply bind_Ok_inv in H as (new_id & s2 & Hnew & H).
  unfold create_document in Hnew.
  apply bind_Ok_inv in Hnew as (i & s3 & Hins & Hret).
  inversion Hret; subst new_id s3. clear Hret.
  apply insert_one_fresh_Ok in Hins; [|exact Hd].
  cbv zeta in Hins. destruct Hins as (Hout & -> & Hfresh & ->).
  set (o := oid_bytes (next_oid s)) in *.
  apply bind_Ok_inv in H as (oid & s3 & Hoid & H).
  rewrite ObjectId_new_eq in Hoid. cbn [py_str] in Hoid.
  unfold o in Hoid at 1. rewrite ObjectId_roundtrip in Hoid. fold o in Hoid.
  inversion Hoid; subst oid s3. clear Hoid.
  apply bind_Ok_inv in H as (x & s3 & Hfind & H).
  rewrite find_one_eq in Hfind.
  destruct (outage (set_docs _ _ _)); [discriminate|].
  rewrite docs_set_docs_eq in Hfind.
  change (docs (advanced (reached s)) coll) with (docs s coll) in Hfind.
  rewrite (find_app_last _ _ _ Hfresh (matches_id_insert _ _)) in Hfind.
  inversion Hfind; subst; clear Hfind.
  inversion H; subst; clear H.
  exists o. split; [reflexivity|]. split.
  - now rewrite docs_reached, docs_set_docs_eq.
  - intros c Hne. now rewrite docs_reached, docs_set_docs_ne by congruence.
Qed.

Lemma create_order_Ok payload s r s' :
  create_order payload s = (Ok r, s') ->
  exists sub amount s1 o,
    order_subtotal (items payload) 0%float s = (Ok sub, s1) /\
    py_round2 sub = Ok amount /\
    r = Some (serialize_doc (<["_id" := VOid o]> (order_record payload amount))) /\
    docs s' "order"
      = (docs s "order" ++ [<["_id" := VOid o]> (order_record payload amount)])%list /\
    (forall coll, coll <> "order" -> docs s' coll = docs s coll).
Proof.
  intros H. apply except_http_500_Ok in H.
  apply bind_Ok_inv in H as (sub & s1 & Hsub & H).
  apply bind_Ok_inv in H as (st & s2 & Hst & H).
  apply lift_Ok_inv in Hst as [Hst ->].
  apply bind_Ok_inv in H as (tot & s2 & Htot & H).
  apply lift_Ok_inv in Htot as [Htot ->].
  assert (tot = st) by congruence. subst tot.
  apply insert_fetch_Ok in H as (o & -> & Hdocs & Hother); [|apply Order_dump_no_id].
  pose proof (read_only_order_subtotal _ _ _ _ _ Hsub) as Hsame.
  exists sub, st, s1, o.
  split; [exact Hsub|]. split; [exact Hst|]. split; [reflexivity|]. split.
  - rewrite Hdocs. now rewrite (docs_same _ _ _ Hsame).
  - intros coll Hne. rewrite Hother by exact Hne. now apply docs_same.
Qed.

(** ** Serialization *)

Lemma dict_empty_lookup (d : doc) k v : d !! k = Some v -> dict_empty d = false.
Proof.
  intros H. unfold dict_empty. apply Nat.eqb_neq. intros Hs.
  apply map_size_empty_iff in Hs. subst d. now rewrite lookup_empty in H.
Qed.

Lemma dict_empty_true (d : doc) : dict_empty d = true -> d = ∅.
Proof.
  unfold dict_empty. intros H. apply Nat.eqb_eq in H.
  now apply map_size_empty_iff in H.
Qed.

Lemma serialize_doc_other (d : doc) k :
  k <> "_id" -> k <> "id" -> serialize_doc d !! k = iso_value <$> d !! k.
Proof.
  intros H1 H2. unfold serialize_doc.
  destruct (dict_empty d) eqn:He.
  - apply dict_empty_true in He. subst d. now rewrite lookup_empty.
  - rewrite lookup_fmap. f_equal.
    destruct (d !! "_id") as [v|]; [|reflexivity].
    destruct (truthy v); [|reflexivity].
    rewrite lookup_insert_ne by congruence.
    now rewrite lookup_delete_ne by congruence.
Qed.

Lemma serialize_doc_truthy_id (d : doc) v :
  d !! "_id" = Some v -> truthy v = true ->
  serialize_doc d !! "_id" = None /\
  serialize_doc d !! "id" = Some (VStr (py_str v)).
Proof.
  intros Hid Ht. unfold serialize_doc.
  rewrite (dict_empty_lookup _ _ _ Hid), Hid, Ht.
  rewrite !lookup_fmap. split.
  - rewrite lookup_insert_ne by discriminate. now rewrite lookup_delete_eq.
  - now rewrite lookup_insert_eq.
Qed.

Lemma serialize_doc_no_date (d : doc) k t : serialize_doc d !! k <> Some (VDate t).
Proof.
  unfold serialize_doc. destruct (dict_empty d) eqn:He.
  - apply dict_empty_true in He. subst d. now rewrite lookup_empty.
  - rewrite lookup_fmap.
    match goal with |- _ <$> ?x <> _ => destruct x as [v|] end; [|discriminate].
    destruct v; discriminate.
Qed.

Lemma order_record_amounts payload amount o :
  let stored := <["_id" := VOid o]> (order_record payload amount) in
  stored !! "subtotal" = Some (VFloat amount) /\
  stored !! "total" = Some (VFloat amount) /\
  stored !! "status" = Some (VStr "pending").
Proof. cbv zeta. repeat split; reflexivity. Qed.

Lemma respond_Response {A} code (wrap : A -> body) (m : M A) s c content s' :
  respond code wrap m s = (Response c content, s') ->
  c = code /\
  exists a, m s = (Ok a, s') /\ body_ok (wrap a) = true /\
            content = body_json (wrap a).
Proof.
  unfold respond, render. destruct (m s) as [[a|e] s1].
  - destruct (body_ok (wrap a)) eqn:Hok; [|discriminate].
    intros H. inversion H; subst. eauto.
  - destruct e; discriminate.
Qed.

Lemma respond_Ok {A} code (wrap : A -> body) (m : M A) s a s' :
  m s = (Ok a, s') -> body_ok (wrap a) = true ->
  respond code wrap m s = (Response code (body_json (wrap a)), s').
Proof. intros H Hok. unfold respond, render. now rewrite H, Hok. Qed.

Lemma respond_unrenderable {A} code (wrap : A -> body) (m : M A) s a s' :
  m s = (Ok a, s') -> body_ok (wrap a) = false ->
  respond code wrap m s = (Error 500 "Internal Server Error", s').
Proof. intros H Hok. unfold respond, render. now rewrite H, Hok. Qed.

Lemma respond_Raise {A} code (wrap : A -> body) (m : M A) s c d s' :
  m s = (Raise (HTTPException c d), s') ->
  respond code wrap m s = (Error c d, s').
Proof. intros H. unfold respond. now rewrite H. Qed.

(** ** More on the checkout loop *)

Lemma collections_after k s : collections (after k s) = collections s.
Proof. revert s. induction k as [|k IH]; intros s; simpl; [reflexivity|]. now rewrite IH. Qed.

Lemma docs_after k s coll : docs (after k s) coll = docs s coll.
Proof. apply docs_same, collections_after. Qed.

Lemma online_after k m s : online (k + m) s -> online m (after k s).
Proof.
  revert s. induction k as [|k IH]; intros s H; simpl; [exact H|].
  apply IH. now apply online_reached.
Qed.

Lemma online_le k m s : (k <= m)%nat -> online m s -> online k s.
Proof.
  unfold online. intros Hle H.
  replace k with (Nat.min k m) by lia.
  rewrite <- take_take. now apply Forall_take.
Qed.

Lemma after_succ k s : after (S k) s = reached (after k s).
Proof. revert s. induction k as [|k IH]; intros s; [reflexivity|]. simpl. now rewrite <- IH. Qed.

Lemma order_subtotal_app pre rest acc s :
  order_subtotal (pre ++ rest) acc s
  = match order_subtotal pre acc s with
    | (Ok x, s1) => order_subtotal rest x s1
    | (Raise e, s1) => (Raise e, s1)
    end.
Proof.
  revert acc s. induction pre as [|item pre IH]; intros acc s; [reflexivity|].
  rewrite <- app_comm_cons, !order_subtotal_cons.
  repeat match goal with
         | |- context [match ?x with _ => _ end] =>
             lazymatch x with
             | order_subtotal _ _ _ => fail
             | _ => destruct x; try reflexivity
             end
         end.
  apply IH.
Qed.

Lemma find_matches_nonempty o (l : list doc) p :
  List.find (matches [("_id", VOid o)]) l = Some p -> dict_empty p = false.
Proof.
  intros H. apply find_some in H as [_ H].
  apply matches_id_lookup in H. eapply dict_empty_lookup; eauto.
Qed.

Lemma order_subtotal_complete its acc s l :
  online (length its) s ->
  line_amounts (docs s "product") its = Some l ->
  order_subtotal its acc s
  = (Ok (fold_left PrimFloat.add l acc), after (length its) s).
Proof.
  revert acc s l. induction its as [|item rest IH]; intros acc s l Hon Hl.
  - inversion Hl. reflexivity.
  - cbn [line_amounts] in Hl. unfold line_amount, resolved_price in Hl.
    rewrite order_subtotal_cons.
    destruct (ObjectId_of_str (product_id item)) as [o|]; [|discriminate].
    rewrite (online_outage _ _ Hon).
    destruct (List.find _ _) as [p|] eqn:Hfind; [|discriminate].
    rewrite (find_matches_nonempty _ _ _ Hfind).
    destruct (py_float _) as [pr|]; [|discriminate]. cbn [to_option] in Hl.
    destruct (float_mul_int _ _) as [a|]; [|discriminate]. cbn [to_option] in Hl.
    destruct (line_amounts _ rest) as [l'|] eqn:Hrest; [|discriminate].
    inversion Hl; subst l. simpl length.
    rewrite (IH _ _ l'); [reflexivity| |].
    + now apply online_reached.
    + now rewrite docs_reached.
Qed.

Lemma py_float_error v c d : py_float v <> Raise (HTTPException c d).
Proof.
  unfold py_float, int_to_float.
  destruct v; try discriminate.
  - destruct (is_infinity _); discriminate.
  - destruct (float_of_str s); discriminate.
Qed.

Lemma float_mul_int_error x n c d : float_mul_int x n <> Raise (HTTPException c d).
Proof.
  unfold float_mul_int, int_to_float. destruct (is_infinity _); discriminate.
Qed.

Lemma order_subtotal_error its acc s c d s' :
  order_subtotal its acc s = (Raise (HTTPException c d), s') -> c = 404.
Proof.
  revert acc s. induction its as [|item rest IH]; intros acc s H.
  - discriminate.
  - rewrite order_subtotal_cons in H.
    destruct (ObjectId_of_str (product_id item)) as [o|]; [|discriminate].
    destruct (outage s); [discriminate|].
    destruct (List.find _ _) as [p|]; [|inversion H; reflexivity].
    destruct (dict_empty p); [inversion H; reflexivity|].
    destruct (py_float _) as [pr|e] eqn:Hp.
    + destruct (float_mul_int _ _) as [a|e] eqn:Hm.
      * eapply IH; eassumption.
      * inversion H; subst. now apply float_mul_int_error in Hm.
    + inversion H; subst. now apply py_float_error in Hp.
Qed.

(** ** Listing and seeding *)

Lemma category_is_spec c d :
  category_is c d = true <-> d !! "category" = Some (VStr c).
Proof.
  unfold category_is. destruct (d !! "category") as [[]|]; try (split; discriminate).
  rewrite String.eqb_eq. split; congruence.
Qed.

Lemma matches_category c d : matches [("category", VStr c)] d = category_is c d.
Proof.
  unfold matches, category_is. simpl.
  destruct (d !! "category") as [[]|]; simpl; try reflexivity.
  apply andb_true_r.
Qed.

Lemma filter_all (l : list doc) : List.filter (matches []) l = l.
Proof. induction l as [|d l IH]; simpl; [reflexivity|]. now rewrite IH. Qed.

Lemma succ_mod_neq (n k : N) :
  (0 < k < 2 ^ 96)%N -> ((n + k) mod 2 ^ 96)%N <> (n mod 2 ^ 96)%N.
Proof.
  intros Hk H.
  pose proof (N.Div0.div_mod n (2 ^ 96)%N) as Hn.
  pose proof (N.Div0.div_mod (n + k) (2 ^ 96)%N) as Hnk.
  rewrite H in Hnk.
  set (M := (2 ^ 96)%N) in *. 
  set (q1 := (n / M)%N) in *. set (q2 := ((n + k) / M)%N) in *.
  set (r := (n mod M)%N) in *.
  assert (k = M * q2 - M * q1)%N by lia.
  assert (q1 < q2)%N by nia.
  nia.
Qed.

Lemma oid_bytes_neq (n k : N) :
  (0 < k < 2 ^ 96)%N -> bytes_eqb (oid_bytes (n + k)) (oid_bytes n) = false.
Proof.
  intros Hk. destruct (bytes_eqb _ _) eqn:He; [|reflexivity].
  apply bytes_eqb_eq in He. apply (f_equal (bytes_to_N 0)) in He.
  rewrite !oid_bytes_spells in He. now apply succ_mod_neq in He.
Qed.

Lemma seed_nonempty s :
  docs s "product" <> [] ->
  seed_products s
  = (match outage s with
     | Some msg => Raise (HTTPException 500 msg)
     | None => Ok {[ "message" := VStr "Products already exist" ]}
     end, reached s).
Proof.
  intros Hne. unfold seed_products, except_500, bind.
  rewrite count_documents_eq. destruct (outage s); [reflexivity|].
  rewrite filter_all.
  destruct (docs s "product") as [|d l]; [congruence|]. reflexivity.
Qed.

Lemma write_doc_appends coll (d : doc) s r s' :
  write_doc coll d s = (r, s') ->
  (forall c, c <> coll -> docs s' c = docs s c) /\
  ((docs s' coll = docs s coll /\ exists e, r = Raise e) \/
   exists d', r = Ok (default VNull (d' !! "_id")) /\
              (forall k, k <> "_id" -> d' !! k = d !! k) /\
              (d !! "_id" = None -> has_id d') /\
              docs s' coll = (docs s coll ++ [d'])%list).
Proof.
  unfold write_doc. intros H.
  apply bind_inv in H as [(i & s1 & Hi & H)|(e & Hi & _)].
  - assert (Hs1 : forall c, docs s1 c = docs s c).
    { destruct (d !! "_id").
      - inversion Hi. reflexivity.
      - apply bind_Ok_inv in Hi as (o & s2 & Ho & Hr).
        inversion Ho; subst. inversion Hr; subst. reflexivity. }
    assert (Hi1 : d !! "_id" = None -> exists o, i = VOid o).
    { intros Hnone. rewrite Hnone in Hi.
      apply bind_Ok_inv in Hi as (o & s2 & Ho & Hr).
      inversion Hr; subst. eauto. }
    destruct (existsb _ _); inversion H; subst; clear H.
    + split; [intros c _; apply Hs1|]. left. split; [apply Hs1|eauto].
    + split; [intros c Hc; rewrite docs_set_docs_ne by congruence; apply Hs1|].
      right. exists (<["_id" := i]> d).
      rewrite docs_set_docs_eq, lookup_insert_eq, Hs1. simpl.
      split; [reflexivity|]. split; [|split; [|reflexivity]].
      * intros k Hk. now rewrite lookup_insert_ne by congruence.
      * intros Hnone. destruct (Hi1 Hnone) as [o ->].
        exists o. apply lookup_insert_eq.
  - destruct (d !! "_id"); [discriminate|].
    apply bind_inv in Hi as [(o & s2 & Ho & Hr)|(e' & Ho & _)]; discriminate.
Qed.

(** ** What the endpoints write *)

Lemma appends_read_only {A} coll P (m : M A) : read_only m -> appends coll P m.
Proof.
  intros Hm s r s' H. apply Hm in H. split.
  - intros c _. now apply docs_same.
  - exists []. rewrite app_nil_r. split; [now apply docs_same|constructor].
Qed.

Lemma appends_bind {A B} coll P (m : M A) (k : A -> M B) :
  appends coll P m -> (forall a, appends coll P (k a)) -> appends coll P (bind m k).
Proof.
  intros Hm Hk s r s' H. bind_split H.
  - destruct (Hm _ _ _ Hm0) as (Ho1 & new1 & Hd1 & Hp1).
    destruct (Hk _ _ _ _ Hk0) as (Ho2 & new2 & Hd2 & Hp2).
    split.
    + intros c Hc. rewrite Ho2, Ho1 by assumption. reflexivity.
    + exists (new1 ++ new2)%list. rewrite Hd2, Hd1, app_assoc.
      split; [reflexivity|]. now apply Forall_app.
  - eauto.
Qed.

Lemma appends_except_500 {A} coll P (m : M A) :
  appends coll P m -> appends coll P (except_500 m).
Proof.
  intros Hm s r s' H. unfold except_500 in H.
  destruct (m s) as [[a|e] s1] eqn:Hms; inversion H; subst; eauto.
Qed.

Lemma appends_except_http_500 {A} coll P (m : M A) :
  appends coll P m -> appends coll P (except_http_500 m).
Proof.
  intros Hm s r s' H. unfold except_http_500 in H.
  destruct (m s) as [[a|e] s1] eqn:Hms; [inversion H; subst; eauto|].
  destruct e; inversion H; subst; eauto.
Qed.

Lemma appends_write_doc coll (P : doc -> Prop) (d : doc) :
  (forall d' : doc, (forall k, k <> "_id" -> d' !! k = d !! k) ->
     (d !! "_id" = None -> has_id d') -> P d') ->
  appends coll P (write_doc coll d).
Proof.
  intros HP s r s' H.
  apply write_doc_appends in H as (Ho & [[Hsame _]|(d' & _ & Hd' & Hid & Happ)]).
  - split; [exact Ho|]. exists []. rewrite app_nil_r. split; [exact Hsame|constructor].
  - split; [exact Ho|]. exists [d']. split; [exact Happ|].
    constructor; [now apply HP|constructor].
Qed.

Lemma appends_write_docs coll (P : doc -> Prop) (ds : list doc) :
  (forall d d' : doc, In d ds -> (forall k, k <> "_id" -> d' !! k = d !! k) ->
     (d !! "_id" = None -> has_id d') -> P d') ->
  appends coll P (write_docs coll ds).
Proof.
  induction ds as [|d rest IH]; intros HP.
  - apply appends_read_only, read_only_ret.
  - cbn [write_docs]. apply appends_bind.
    + apply appends_write_doc. intros d' Hd' Hid. apply (HP d); [now left|exact Hd'|exact Hid].
    + intros i. apply appends_bind.
      * apply IH. intros d0 d' Hin. apply HP. now right.
      * intros ids. apply appends_read_only, read_only_ret.
Qed.

Lemma read_only_find coll flt : read_only (find coll flt).
Proof. intros s r s' H. rewrite find_eq in H. inversion H. reflexivity. Qed.

Lemma read_only_count_documents coll flt : read_only (count_documents coll flt).
Proof. intros s r s' H. rewrite count_documents_eq in H. inversion H. reflexivity. Qed.

Lemma read_only_ObjectId_new str : read_only (ObjectId_new str).
Proof. intros s r s' H. rewrite ObjectId_new_eq in H. inversion H. reflexivity. Qed.

Lemma read_only_except_500 {A} (m : M A) : read_only m -> read_only (except_500 m).
Proof.
  intros Hm s r s' H. unfold except_500 in H.
  destruct (m s) as [[a|e] s1] eqn:Hms; inversion H; subst; eauto.
Qed.

Lemma read_only_list_products c : read_only (list_products c).
Proof.
  apply read_only_except_500, read_only_bind; [apply read_only_find|].
  intros ds. apply read_only_ret.
Qed.

Lemma read_only_list_orders e : read_only (list_orders e).
Proof.
  apply read_only_except_500, read_only_bind; [apply read_only_find|].
  intros ds. apply read_only_ret.
Qed.

Lemma appends_create_document coll P (d : doc) :
  (forall d' : doc, (forall k, k <> "_id" -> d' !! k = d !! k) ->
     (d !! "_id" = None -> has_id d') -> P d') ->
  appends coll P (create_document coll d).
Proof.
  intros HP. apply appends_bind.
  - apply appends_bind; [apply appends_read_only, read_only_access|].
    intros _. now apply appends_write_doc.
  - intros i. apply appends_read_only, read_only_ret.
Qed.

Lemma appends_fetch coll P new_id :
  appends coll P
    (let! oid := ObjectId_new new_id in
     let! d := find_one coll [("_id", VOid oid)] in
     ret (serialize_found d)).
Proof.
  apply appends_read_only, read_only_bind; [apply read_only_ObjectId_new|].
  intros oid. apply read_only_bind; [apply read_only_find_one|].
  intros d. apply read_only_ret.
Qed.

Lemma appends_create_product p : appends "product" (fun _ => True) (create_product p).
Proof.
  apply appends_except_500, appends_bind.
  - now apply appends_create_document.
  - intros new_id. apply appends_fetch.
Qed.

Lemma appends_create_order payload : appends "order" pending (create_order payload).
Proof.
  apply appends_except_http_500, appends_bind.
  { apply appends_read_only. intros s r s'. apply read_only_order_subtotal. }
  intros sub. apply appends_bind; [apply appends_read_only, read_only_lift|].
  intros st. apply appends_bind; [apply appends_read_only, read_only_lift|].
  intros tot. apply appends_bind.
  - apply appends_create_document. intros d' Hd' _. unfold pending.
    rewrite Hd' by discriminate. reflexivity.
  - intros new_id. apply appends_fetch.
Qed.

Lemma appends_seed_products : appends "product" (fun _ => True) seed_products.
Proof.
  apply appends_except_500, appends_bind.
  { apply appends_read_only, read_only_count_documents. }
  intros n. destruct (0 <? n).
  - apply appends_read_only, read_only_ret.
  - apply appends_bind.
    + apply appends_bind; [apply appends_read_only, read_only_access|].
      intros _. now apply appends_write_docs.
    + intros ids. apply appends_read_only, read_only_ret.
Qed.

Lemma respond_state {A} code (wrap : A -> body) (m : M A) s resp s' :
  respond code wrap m s = (resp, s') -> exists r, m s = (r, s').
Proof.
  unfold respond. destruct (m s) as [[a|e] s1].
  - intros H. inversion H; subst. eauto.
  - destruct e; intros H; inversion H; subst; eauto.
Qed.

Lemma handle_orders r s :
  exists new, docs (handle r s).2 "order" = (docs s "order" ++ new)%list /\
              Forall pending new.
Proof.
  assert (Hkeep : forall A (m : M A) code (wrap : A -> body),
             appends "product" (fun _ => True) m ->
             exists new, docs (respond code wrap m s).2 "order"
                         = (docs s "order" ++ new)%list /\ Forall pending new).
  { intros A m code wrap Hm.
    destruct (respond code wrap m s) as [resp s'] eqn:H.
    apply respond_state in H as [r0 H]. apply Hm in H as [Ho _].
    exists []. rewrite app_nil_r. split; [apply Ho; discriminate|constructor]. }
  destruct r as [c|p|p|e|]; simpl.
  - apply Hkeep, appends_read_only, read_only_list_products.
  - destruct (Product_valid p).
    + apply Hkeep, appends_create_product.
    + exists []. rewrite app_nil_r. split; [reflexivity|constructor].
  - destruct (CheckoutPayload_valid p).
    + destruct (respond 201 JDoc (create_order p) s) as [resp s'] eqn:H.
      apply respond_state in H as [r0 H].
      apply appends_create_order in H as [_ H]. exact H.
    + exists []. rewrite app_nil_r. split; [reflexivity|constructor].
  - apply Hkeep, appends_read_only, read_only_list_orders.
  - apply Hkeep, appends_seed_products.
Qed.

(** ** Seeding an empty collection *)

Lemma matches_id_inserted (o o' : ObjectId) (d : doc) :
  matches [("_id", VOid o)] (<["_id" := VOid o']> d) = bytes_eqb o' o.
Proof.
  unfold matches. simpl. rewrite lookup_insert_eq. simpl. apply andb_true_r.
Qed.

Lemma write_docs_with_ids coll ds s :
  Forall (fun d : doc => d !! "_id" = None) ds ->
  (N.of_nat (length ds) < 2 ^ 96)%N ->
  (forall j, (j < length ds)%nat ->
     existsb (matches [("_id", VOid (oid_bytes (next_oid s + N.of_nat j)))])
             (docs s coll) = false) ->
  exists ids s',
    write_docs coll ds s = (Ok ids, s') /\
    length ids = length ds /\
    docs s' coll = (docs s coll ++ with_ids (next_oid s) ds)%list /\
    (forall c, c <> coll -> docs s' c = docs s c) /\
    outages s' = outages s.
Proof.
  revert s. induction ds as [|d rest IH]; intros s Hnoid Hlen Hfresh.
  - exists [], s. simpl. rewrite app_nil_r. auto.
  - inversion Hnoid as [|? ? Hd Hrest]; subst.
    cbn [write_docs]. unfold bind at 1.
    rewrite (write_doc_fresh _ _ _ Hd). cbv zeta.
    specialize (Hfresh 0%nat ltac:(simpl; lia)) as H0.
    rewrite N.add_0_r in H0. rewrite H0.
    set (d' := <["_id" := VOid (oid_bytes (next_oid s))]> d).
    set (s1 := set_docs coll (docs s coll ++ [d']) (advanced s)).
    destruct (IH s1) as (ids & s' & Hrun & Hids & Hdocs & Hother & Hout).
    + exact Hrest.
    + simpl length in Hlen. lia.
    + intros j Hj. unfold s1. rewrite docs_set_docs_eq.
      change (next_oid (set_docs coll (docs s coll ++ [d']) (advanced s)))
        with (N.succ (next_oid s)).
      rewrite existsb_app. cbn [existsb].
      replace (N.succ (next_oid s) + N.of_nat j)%N
        with (next_oid s + N.of_nat (S j))%N by lia.
      rewrite (Hfresh (S j)) by (simpl; lia).
      unfold d'. rewrite matches_id_inserted.
      destruct (bytes_eqb _ _) eqn:He; [|reflexivity].
      apply bytes_eqb_eq in He. symmetry in He. apply bytes_eqb_eq in He.
      rewrite oid_bytes_neq in He; [discriminate|]. simpl length in Hlen. lia.
    + exists (VOid (oid_bytes (next_oid s)) :: ids), s'.
      unfold bind at 1. rewrite Hrun. unfold ret.
      split; [reflexivity|]. split; [simpl; now rewrite Hids|].
      split.
      { rewrite Hdocs. unfold s1. rewrite docs_set_docs_eq.
        change (next_oid (set_docs coll (docs s coll ++ [d']) (advanced s)))
          with (N.succ (next_oid s)).
        cbn [with_ids]. now rewrite <- app_assoc. }
      split.
      { intros c Hc. rewrite Hother by exact Hc. unfold s1.
        now rewrite docs_set_docs_ne. }
      rewrite Hout. reflexivity.
Qed.

Lemma seed_empty s :
  online 2 s ->
  docs s "product" = [] ->
  exists s',
    seed_products s = (Ok {[ "inserted" := VInt 3 ]}, s') /\
    docs s' "product" = with_ids (next_oid s) sample_products /\
    (forall c, c <> "product" -> docs s' c = docs s c).
Proof.
  intros Hon Hempty.
  destruct (write_docs_with_ids "product" sample_products (reached (reached s)))
    as (ids & s' & Hrun & Hids & Hdocs & Hother & _).
  - repeat constructor.
  - simpl. lia.
  - intros j _. rewrite !docs_reached, Hempty. reflexivity.
  - assert (Hins : insert_many "product" sample_products (reached s) = (Ok ids, s')).
    { unfold insert_many. erewrite bind_Ok; [exact Hrun|].
      rewrite access_eq, (online_outage 0 (reached s)) by now apply online_reached.
      reflexivity. }
    exists s'. split; [|split].
    + unfold seed_products, except_500.
      erewrite bind_Ok;
        [|rewrite count_documents_eq, (online_outage _ _ Hon), filter_all, Hempty;
          reflexivity].
      change (0 <? Z.of_nat (length (@nil doc))) with false. cbv iota.
      erewrite bind_Ok by exact Hins. unfold ret. rewrite Hids. reflexivity.
    + rewrite Hdocs, !docs_reached, Hempty. reflexivity.
    + intros c Hc. now rewrite Hother.
Qed.

Lemma write_docs_Ok_length coll ds s ids s' :
  write_docs coll ds s = (Ok ids, s') ->
  length (docs s' coll) = (length (docs s coll) + length ds)%nat.
Proof.
  revert s ids s'. induction ds as [|d rest IH]; intros s ids s' H.
  - inversion H. simpl. lia.
  - cbn [write_docs] in H.
    apply bind_Ok_inv in H as (i & s1 & Hw & H).
    apply bind_Ok_inv in H as (ids' & s2 & Hrest & H).
    inversion H; subst. apply IH in Hrest. rewrite Hrest.
    apply write_doc_appends in Hw as (_ & [[_ [e He]]|(d' & _ & _ & _ & Happ)]);
      [discriminate|].
    rewrite Happ, length_app. simpl. lia.
Qed.

Lemma seed_Ok_nonempty s r s' :
  seed_products s = (Ok r, s') -> docs s' "product" <> [].
Proof.
  intros H. destruct (docs s "product") as [|d0 l0] eqn:Hdocs.
  - apply except_500_Ok in H.
    apply bind_Ok_inv in H as (n & s1 & Hcount & H).
    rewrite count_documents_eq in Hcount.
    destruct (outage s); [discriminate|].
    rewrite filter_all, Hdocs in Hcount. inversion Hcount; subst n s1.
    cbn [length Z.of_nat Z.ltb Z.compare] in H.
    apply bind_Ok_inv in H as (ids & s2 & Hins & H).
    inversion H; subst. unfold insert_many in Hins.
    apply bind_Ok_inv in Hins as ([] & s3 & _ & Hw).
    apply write_docs_Ok_length in Hw.
    intros Hnil. rewrite Hnil in Hw. simpl in Hw. lia.
  - rewrite seed_nonempty in H by (rewrite Hdocs; discriminate).
    inversion H; subst. rewrite docs_reached, Hdocs. discriminate.
Qed.

(** ** Where returned documents come from *)

Lemma list_products_Ok c s l s' :
  list_products c s = (Ok l, s') ->
  forall d, In d l -> exists d0, In d0 (docs s' "product") /\ d = serialize_doc d0.
Proof.
  intros H d Hd. apply except_500_Ok in H.
  apply bind_Ok_inv in H as (ds & s1 & Hfind & H).
  inversion H; subst l s1. clear H.
  unfold get_documents in Hfind. rewrite find_eq in Hfind.
  destruct (outage s); [discriminate|]. inversion Hfind; subst ds s'.
  apply in_map_iff in Hd as (d0 & <- & Hd0).
  apply filter_In in Hd0 as [Hd0 _]. exists d0. rewrite docs_reached. auto.
Qed.

Lemma list_orders_Ok e s l s' :
  list_orders e s = (Ok l, s') ->
  forall d, In d l -> exists d0, In d0 (docs s' "order") /\ d = serialize_doc d0.
Proof.
  intros H d Hd. apply except_500_Ok in H.
  apply bind_Ok_inv in H as (ds & s1 & Hfind & H).
  inversion H; subst l s1. clear H.
  unfold get_documents in Hfind. rewrite find_eq in Hfind.
  destruct (outage s); [discriminate|]. inversion Hfind; subst ds s'.
  apply in_map_iff in Hd as (d0 & <- & Hd0).
  apply filter_In in Hd0 as [Hd0 _]. exists d0. rewrite docs_reached. auto.
Qed.

Lemma Product_dump_no_id p : Product_dump p !! "_id" = None.
Proof. reflexivity. Qed.

Lemma create_product_Ok p s r s' :
  create_product p s = (Ok r, s') ->
  exists d0, r = Some (serialize_doc d0) /\ In d0 (docs s' "product").
Proof.
  intros H. apply except_500_Ok in H.
  apply insert_fetch_Ok in H as (o & -> & Hdocs & _); [|apply Product_dump_no_id].
  eexists. split; [reflexivity|]. rewrite Hdocs. apply in_or_app. right. now left.
Qed.

Lemma serialize_doc_date (d : doc) k t :
  k <> "_id" -> k <> "id" -> d !! k = Some (VDate t) ->
  serialize_doc d !! k = Some (VStr (isoformat t)).
Proof. intros H1 H2 H. rewrite serialize_doc_other by assumption. now rewrite H. Qed.

(** ** Rounding to two decimals *)








(** ** The loop computes the specification's sum *)



(** ** What the framework sends *)

Lemma doc_ok_spec (d : doc) :
  doc_ok d = true <-> forall k v, d !! k = Some v -> json_ok v = true.
Proof. unfold doc_ok. rewrite bool_decide_eq_true. apply map_Forall_lookup. Qed.

Lemma doc_ok_insert (d : doc) k v :
  json_ok v = true -> doc_ok d = true -> doc_ok (<[k := v]> d) = true.
Proof.
  unfold doc_ok. rewrite !bool_decide_eq_true. intros Hv Hd.
  now apply map_Forall_insert_2.
Qed.

Lemma doc_ok_empty : doc_ok ∅ = true.
Proof. unfold doc_ok. apply bool_decide_eq_true. apply map_Forall_empty. Qed.

Lemma json_doc_lookup (d : doc) k : json_doc d !! k = jsonable_encoder <$> d !! k.
Proof. unfold json_doc. apply lookup_fmap. Qed.

Lemma json_doc_insert (d : doc) k v :
  json_doc (<[k := v]> d) = <[k := jsonable_encoder v]> (json_doc d).
Proof. unfold json_doc. apply fmap_insert. Qed.

Lemma json_doc_empty : json_doc ∅ = ∅.
Proof. unfold json_doc. apply fmap_empty. Qed.

Lemma json_ok_opt_str o : json_ok (opt_str o) = true.
Proof. destruct o; reflexivity. Qed.

Lemma jsonable_opt_str o : jsonable_encoder (opt_str o) = opt_str o.
Proof. destruct o; reflexivity. Qed.

Lemma json_ok_items its : json_ok (VList (map OrderItem_dump its)) = true.
Proof. cbn [json_ok]. induction its as [|i its IH]; [reflexivity|]. simpl. exact IH. Qed.

Lemma jsonable_items its :
  jsonable_encoder (VList (map OrderItem_dump its)) = VList (map OrderItem_dump its).
Proof.
  cbn [jsonable_encoder]. f_equal.
  induction its as [|i its IH]; [reflexivity|]. simpl. now rewrite IH.
Qed.

(** The serialization of a document stored under a generated identifier. *)
Lemma serialize_doc_stored (d : doc) o :
  d !! "_id" = None ->
  serialize_doc (<["_id" := VOid o]> d)
  = <["id" := VStr (ObjectId_str o)]> (iso_value <$> d).
Proof.
  intros Hd. unfold serialize_doc.
  rewrite (dict_empty_lookup _ "_id" (VOid o)) by apply lookup_insert_eq.
  rewrite lookup_insert_eq. cbn [truthy py_str].
  rewrite delete_insert_id by exact Hd. now rewrite fmap_insert.
Qed.

Lemma iso_opt_str o : iso_value (opt_str o) = opt_str o.
Proof. destruct o; reflexivity. Qed.

Lemma iso_Product_dump p : iso_value <$> Product_dump p = Product_dump p.
Proof.
  unfold Product_dump. rewrite !fmap_insert, fmap_empty. cbn [iso_value].
  now rewrite !iso_opt_str.
Qed.

Lemma iso_Order_dump o : iso_value <$> Order_dump o = Order_dump o.
Proof.
  unfold Order_dump. rewrite !fmap_insert, fmap_empty. cbn [iso_value].
  now rewrite !iso_opt_str.
Qed.

Lemma serialize_product_record p o :
  serialize_doc (product_record p o)
  = <["id" := VStr (ObjectId_str o)]> (Product_dump p).
Proof.
  unfold product_record. rewrite serialize_doc_stored by reflexivity.
  now rewrite iso_Product_dump.
Qed.

Lemma serialize_stored_order payload amount o :
  serialize_doc (stored_order payload amount o)
  = <["id" := VStr (ObjectId_str o)]> (order_record payload amount).
Proof.
  unfold stored_order, order_record. rewrite serialize_doc_stored by reflexivity.
  now rewrite iso_Order_dump.
Qed.

Lemma doc_ok_product p o :
  doc_ok (serialize_doc (product_record p o)) = is_finite (price p).
Proof.
  rewrite serialize_product_record.
  destruct (is_finite (price p)) eqn:Hfin.
  - unfold Product_dump.
    repeat (apply doc_ok_insert;
            [first [reflexivity | apply json_ok_opt_str | exact Hfin]|]).
    apply doc_ok_empty.
  - destruct (doc_ok _) eqn:Hok; [|reflexivity].
    rewrite doc_ok_spec in Hok. specialize (Hok "price" (VFloat (price p)) eq_refl).
    cbn [json_ok] in Hok. congruence.
Qed.

Lemma json_doc_product p o :
  json_doc (serialize_doc (product_record p o)) = serialize_doc (product_record p o).
Proof.
  rewrite serialize_product_record. unfold Product_dump.
  rewrite !json_doc_insert, json_doc_empty. cbn [jsonable_encoder].
  now rewrite !jsonable_opt_str.
Qed.

Lemma doc_ok_order payload amount o :
  doc_ok (serialize_doc (stored_order payload amount o)) = is_finite amount.
Proof.
  rewrite serialize_stored_order.
  destruct (is_finite amount) eqn:Hfin.
  - unfold order_record, Order_dump.
    repeat (apply doc_ok_insert;
            [first [reflexivity | apply json_ok_opt_str | apply json_ok_items
                   | exact Hfin]|]).
    apply doc_ok_empty.
  - destruct (doc_ok _) eqn:Hok; [|reflexivity].
    rewrite doc_ok_spec in Hok. specialize (Hok "total" (VFloat amount) eq_refl).
    cbn [json_ok] in Hok. congruence.
Qed.

Lemma json_doc_order payload amount o :
  json_doc (serialize_doc (stored_order payload amount o))
  = serialize_doc (stored_order payload amount o).
Proof.
  rewrite serialize_stored_order. unfold order_record, Order_dump.
  rewrite !json_doc_insert, json_doc_empty. cbn [order_items].
  rewrite jsonable_items. cbn [jsonable_encoder].
  now rewrite !jsonable_opt_str.
Qed.

Lemma render_listing code (ds : list doc) :
  render code (JList (map serialize_doc ds))
  = if forallb (fun d => doc_ok (serialize_doc d)) ds
    then Response code (JList (map (fun d => json_doc (serialize_doc d)) ds))
    else Error 500 "Internal Server Error".
Proof.
  unfold render. cbn [body_ok body_json].
  replace (forallb doc_ok (map serialize_doc ds))
    with (forallb (fun d => doc_ok (serialize_doc d)) ds)
    by (induction ds as [|d ds IH]; simpl; [reflexivity|now rewrite IH]).
  now rewrite map_map.
Qed.

(** ** Stored documents carry a generated identifier *)

Lemma identified_same s s' :
  collections s' = collections s -> identified s -> identified s'.
Proof.
  intros Hsame Hid coll d Hin. rewrite (docs_same _ _ _ Hsame) in Hin. eauto.
Qed.

Lemma identified_appends {A} coll (m : M A) s r s' :
  appends coll has_id m -> m s = (r, s') -> identified s -> identified s'.
Proof.
  intros Hm Hrun Hid c d Hin.
  apply Hm in Hrun as (Hother & new & Hdocs & Hnew).
  destruct (String.eqb_spec c coll) as [->|Hne].
  - rewrite Hdocs in Hin. apply in_app_or in Hin as [Hin|Hin]; [eauto|].
    rewrite Forall_forall in Hnew. apply Hnew. now apply list_elem_of_In.
  - rewrite Hother in Hin by exact Hne. eauto.
Qed.

Lemma appends_create_product_id p : appends "product" has_id (create_product p).
Proof.
  apply appends_except_500, appends_bind.
  - apply appends_create_document. intros d' _ Hid. apply Hid. reflexivity.
  - intros new_id. apply appends_fetch.
Qed.

Lemma appends_create_order_id payload : appends "order" has_id (create_order payload).
Proof.
  apply appends_except_http_500, appends_bind.
  { apply appends_read_only. intros s r s'. apply read_only_order_subtotal. }
  intros sub. apply appends_bind; [apply appends_read_only, read_only_lift|].
  intros st. apply appends_bind; [apply appends_read_only, read_only_lift|].
  intros tot. apply appends_bind.
  - apply appends_create_document. intros d' _ Hid. apply Hid. reflexivity.
  - intros new_id. apply appends_fetch.
Qed.

Lemma appends_seed_products_id : appends "product" has_id seed_products.
Proof.
  apply appends_except_500, appends_bind.
  { apply appends_read_only, read_only_count_documents. }
  intros n. destruct (0 <? n).
  - apply appends_read_only, read_only_ret.
  - apply appends_bind.
    + apply appends_bind; [apply appends_read_only, read_only_access|].
      intros _. apply appends_write_docs. intros d d' Hin _ Hid. apply Hid.
      simpl in Hin. destruct Hin as [<-|[<-|[<-|[]]]]; reflexivity.
    + intros ids. apply appends_read_only, read_only_ret.
Qed.

Lemma handle_identified r s : identified s -> identified (handle r s).2.
Proof.
  intros Hid.
  assert (Hvia : forall A (m : M A) code (wrap : A -> body) coll,
             appends coll has_id m -> identified (respond code wrap m s).2).
  { intros A m code wrap coll Hm.
    destruct (respond code wrap m s) as [resp s'] eqn:H.
    apply respond_state in H as [r0 H]. simpl.
    eapply identified_appends; eassumption. }
  destruct r as [c|p|p|e|]; cbn [handle].
  - apply (Hvia _ _ _ _ "product"), appends_read_only, read_only_list_products.
  - destruct (Product_valid p); [|exact Hid].
    apply (Hvia _ _ _ _ "product"), appends_create_product_id.
  - destruct (CheckoutPayload_valid p); [|exact Hid].
    apply (Hvia _ _ _ _ "order"), appends_create_order_id.
  - apply (Hvia _ _ _ _ "order"), appends_read_only, read_only_list_orders.
  - apply (Hvia _ _ _ _ "product"), appends_seed_products_id.
Qed.

Lemma run_identified rs s : identified s -> identified (run rs s).
Proof.
  revert s. induction rs as [|r rest IH]; intros s Hid; [exact Hid|].
  cbn [run]. apply IH. now apply handle_identified.
Qed.

Lemma serialize_doc_has_id (d : doc) o :
  d !! "_id" = Some (VOid o) ->
  serialize_doc d !! "_id" = None /\
  serialize_doc d !! "id" = Some (VStr (ObjectId_str o)).
Proof. intros Hid. exact (serialize_doc_truthy_id d (VOid o) Hid eq_refl). Qed.

Lemma render_created_product code p o :
  render code (JDoc (Some (serialize_doc (product_record p o))))
  = if is_finite (price p)
    then Response code (JDoc (Some (serialize_doc (product_record p o))))
    else Error 500 "Internal Server Error".
Proof.
  unfold render. cbn [body_ok body_json fmap option_fmap option_map].
  now rewrite doc_ok_product, json_doc_product.
Qed.

Lemma render_created_order code payload amount o :
  render code (JDoc (Some (serialize_doc (stored_order payload amount o))))
  = if is_finite amount
    then Response code (JDoc (Some (serialize_doc (stored_order payload amount o))))
    else Error 500 "Internal Server Error".
Proof.
  unfold render. cbn [body_ok body_json fmap option_fmap option_map].
  now rewrite doc_ok_order, json_doc_order.
Qed.

Lemma forallb_In_true {A} (f : A -> bool) l x :
  forallb f l = true -> In x l -> f x = true.
Proof. intros H Hin. rewrite forallb_forall in H. now apply H. Qed.

Lemma forallb_filter_true {A} (f g : A -> bool) l :
  forallb f l = true -> forallb f (List.filter g l) = true.
Proof.
  intros H. apply forallb_forall. intros x Hx.
  apply filter_In in Hx as [Hx _]. eapply forallb_In_true; eassumption.
Qed.

Lemma render_singleton code k v :
  json_ok v = true ->
  render code (JDoc (Some {[ k := v ]}))
  = Response code (JDoc (Some {[ k := jsonable_encoder v ]})).
Proof.
  intros Hv. unfold render. cbn [body_ok body_json fmap option_fmap option_map].
  rewrite <- !insert_empty, doc_ok_insert by (exact Hv || apply doc_ok_empty).
  now rewrite json_doc_insert, json_doc_empty.
Qed.

Lemma respond_seed s d s' :
  seed_products s = (Ok d, s') ->
  respond 201 (fun d => JDoc (Some d)) seed_products s = (render 201 (JDoc (Some d)), s').
Proof. intros H. unfold respond. now rewrite H. Qed.

Lemma dateless_jsonable : forall v, dateless (jsonable_encoder v) = true.
Proof.
  fix IH 1. intros [ | | | | | | |l|d]; try reflexivity.
  - cbn [jsonable_encoder dateless].
    revert l. fix IHl 1. intros [|x l]; [reflexivity|].
    cbn [map forallb]. rewrite IH. apply IHl.
  - cbn [jsonable_encoder dateless].
    revert d. fix IHd 1. intros [|[k x] d]; [reflexivity|].
    cbn [map forallb fst snd]. rewrite IH. apply IHd.
Qed.

Lemma json_doc_dateless (d : doc) k v : json_doc d !! k = Some v -> dateless v = true.
Proof.
  rewrite json_doc_lookup. destruct (d !! k) as [v0|]; [|discriminate].
  intros H. inversion H. apply dateless_jsonable.
Qed.
(** ** The text and number forms on known values *)

Example ObjectId_str_255 :
  ObjectId_str (oid_bytes 255) = "0000000000000000000000ff".
Proof. reflexivity. Qed.

Example ObjectId_of_str_upper :
  ObjectId_of_str "0000000000000000000000FF" = Some (oid_bytes 255).
Proof. reflexivity. Qed.

(** [bytes.fromhex] skips whitespace between bytes, so a 24-character
    string can spell fewer than twelve bytes; it does not skip whitespace
    inside a byte. *)
Example ObjectId_of_str_spaced :
  ObjectId_of_str "ab ab ab ab ab ab ab ab "
    = Some [xab; xab; xab; xab; xab; xab; xab; xab] /\
  ObjectId_str [xab; xab; xab; xab; xab; xab; xab; xab] = "abababababababab" /\
  ObjectId_of_str "abababababababab" = None /\
  ObjectId_of_str "a babababababababababab " = None /\
  ObjectId_of_str "                        " = Some [].
Proof. repeat split; reflexivity. Qed.

Example isoformat_with_microseconds :
  isoformat {| dt_year := 2025; dt_month := 11; dt_day := 30; dt_hour := 18;
               dt_minute := 45; dt_second := 9; dt_microsecond := 120000 |}
  = "2025-11-30T18:45:09.120000".
Proof. reflexivity. Qed.

(** [str(datetime(2024, 3, 9, 7, 5, 1))] *)
Example py_str_datetime :
  py_str (VDate {| dt_year := 2024; dt_month := 3; dt_day := 9; dt_hour := 7;
                   dt_minute := 5; dt_second := 1; dt_microsecond := 0 |})
  = "2024-03-09 07:05:01".
Proof. reflexivity. Qed.

(** Characters, not bytes, are counted and cut. *)
Example str_prefix_characters :
  py_len "ééé" = 3%nat /\ String.length "ééé" = 6%nat /\
  str_prefix 2 "ééé" = "éé" /\ str_prefix 2 "a✅b" = "a✅" /\
  str_prefix 0 "éa" = "".
Proof. repeat split; reflexivity. Qed.

(** [round(0.125, 2) == 0.12], [round(0.375, 2) == 0.38],
    [round(2.675, 2) == 2.67] and [round(-0.001, 2) == -0.0], as in Python. *)
Example py_round2_known_values :
  py_round2 0.125 = Ok 0.12%float /\
  py_round2 0.375 = Ok 0.38%float /\
  py_round2 2.675 = Ok 2.67%float /\
  py_round2 (-0.001) = Ok (-0)%float /\
  py_round2 5297.0 = Ok 5297.0%float /\
  py_round2 infinity = Ok infinity.
Proof. repeat split; reflexivity. Qed.

Example int_to_float_overflows :
  int_to_float (2 ^ 1024) = Raise (OverflowError "int too large to convert to float") /\
  int_to_float (2 ^ 53 + 1) = Ok 9007199254740992%float.
Proof. split; reflexivity. Qed.

(** A timestamp inside a list is turned into text by the framework; an
    infinite float and an ObjectId cannot be sent. *)
Example rendering_known_values :
  jsonable_encoder
    (VList [VDate {| dt_year := 2024; dt_month := 3; dt_day := 9; dt_hour := 7;
                     dt_minute := 5; dt_second := 1; dt_microsecond := 0 |}])
    = VList [VStr "2024-03-09T07:05:01"] /\
  json_ok (VFloat infinity) = false /\
  json_ok (VFloat nan) = false /\
  json_ok (VList [VOid (oid_bytes 1)]) = false /\
  json_ok (VDoc [("n", VInt (2 ^ 70)); ("x", VFloat 0.5)]) = true.
Proof. repeat split; reflexivity. Qed.
(** ** Checkout totals *)


(** C3: the loop that computes the total writes to no collection, whatever
    its outcome; and when it fails (a product is absent, an identifier is
    malformed, the store is unreachable, a price is not a number) the
    checkout fails with it, as HTTP 404 or 500, before any write: every
    collection, the order collection among them, is as it was before the
    request. *)
Theorem failed_total_creates_no_order payload s :
  (forall r s1,
     order_subtotal (items payload) 0%float s = (r, s1) ->
     collections s1 = collections s) /\
  (forall e s1,
     order_subtotal (items payload) 0%float s = (Raise e, s1) ->
     exists c d,
       create_order payload s = (Raise (HTTPException c d), s1) /\
       http_failure c /\
       collections s1 = collections s /\
       docs s1 "order" = docs s "order").
Proof.
  split.
  - intros r s1. apply read_only_order_subtotal.
  - intros e s1 H.
    pose proof (read_only_order_subtotal _ _ _ _ _ H) as Hsame.
    unfold create_order, except_http_500. rewrite (bind_Raise _ _ _ _ _ H).
    destruct e;
      try (do 2 eexists; split; [reflexivity|]; split; [right; reflexivity|];
           split; [exact Hsame|now apply docs_same]).
    apply order_subtotal_error in H as Hc. subst status_code.
    do 2 eexists. split; [reflexivity|]. split; [left; reflexivity|].
    split; [exact Hsame|now apply docs_same].
Qed.

(** ** Failing checkouts *)



(** ** Prices *)

(** C7: for the items [{A, 2}, {B, 1}] with product A priced 1499.0 and
    product B priced 2299.0 the loop computes 5297.0, rounding leaves it
    5297.0, and an order created from this payload carries subtotal
    5297.0. *)
Theorem two_scarves_one_vase payload s a b oa ob pa pb :
  items payload = [ {| product_id := a; quantity := 2 |};
                    {| product_id := b; quantity := 1 |} ] ->
  online 2 s ->
  ObjectId_of_str a = Some oa ->
  List.find (matches [("_id", VOid oa)]) (docs s "product") = Some pa ->
  pa !! "price" = Some (VFloat 1499.0) ->
  ObjectId_of_str b = Some ob ->
  List.find (matches [("_id", VOid ob)]) (docs s "product") = Some pb ->
  pb !! "price" = Some (VFloat 2299.0) ->
  order_subtotal (items payload) 0%float s = (Ok 5297.0%float, after 2 s) /\
  spec_order_total (docs s "product") (items payload) = Some 5297.0%float /\
  (forall r s', create_order payload s = (Ok r, s') ->
     exists created, r = Some created /\
                     created !! "subtotal" = Some (VFloat 5297.0)).
Proof.
  intros Hitems Hon Ha Hfa Hpa Hb Hfb Hpb.
  assert (Hl : line_amounts (docs s "product") (items payload)
               = Some [2998.0%float; 2299.0%float]).
  { rewrite Hitems. cbn [line_amounts]. unfold line_amount, resolved_price.
    cbn [product_id quantity]. rewrite Ha, Hfa, Hpa, Hb, Hfb, Hpb. reflexivity. }
  assert (Hrun : order_subtotal (items payload) 0%float s
                 = (Ok 5297.0%float, after 2 s)).
  { rewrite (order_subtotal_complete _ _ _ [2998.0%float; 2299.0%float]).
    - rewrite Hitems. reflexivity.
    - rewrite Hitems. exact Hon.
    - exact Hl. }
  split; [exact Hrun|]. split.
  - unfold spec_order_total. rewrite Hl. reflexivity.
  - intros r s' H.
    apply create_order_Ok in H as (sub & amount & s1 & o & Hsub & Hround & -> & _).
    rewrite Hrun in Hsub. inversion Hsub; subst sub s1.
    assert (amount = 5297.0%float) by (vm_compute in Hround; congruence). subst amount.
    eexists. split; [reflexivity|].
    rewrite serialize_doc_other by discriminate. reflexivity.
Qed.

(** C8 (amended): a referenced product that exists but has no price field
    is priced 0.  When the item's quantity converts to a float, the loop
    does not fail on the item: it adds [0.0 * quantity] and goes on with the
    remaining items.  When the quantity is too large for a float, the loop
    fails with the conversion's OverflowError. *)
Theorem missing_price_counts_as_zero item rest acc s oid p :
  ObjectId_of_str (product_id item) = Some oid ->
  online 1 s ->
  List.find (matches [("_id", VOid oid)]) (docs s "product") = Some p ->
  p !! "price" = None ->
  resolved_price (docs s "product") (product_id item) = Some 0%float /\
  (is_infinity (float_of_Z (quantity item)) = false ->
   order_subtotal (item :: rest) acc s
   = order_subtotal rest (acc + 0 * float_of_Z (quantity item))%float (reached s)) /\
  (is_infinity (float_of_Z (quantity item)) = true ->
   order_subtotal (item :: rest) acc s
   = (Raise (OverflowError "int too large to convert to float"), reached s)).
Proof.
  intros Hoid Hon Hfind Hprice.
  assert (Hstep : order_subtotal (item :: rest) acc s
                  = match float_mul_int 0%float (quantity item) with
                    | Ok amount => order_subtotal rest (acc + amount)%float (reached s)
                    | Raise e => (Raise e, reached s)
                    end).
  { rewrite order_subtotal_cons, Hoid, (online_outage _ _ Hon), Hfind.
    rewrite (find_matches_nonempty _ _ _ Hfind), Hprice.
    reflexivity. }
  split; [|split].
  - unfold resolved_price. rewrite Hoid, Hfind, Hprice. reflexivity.
  - intros Hfin. rewrite Hstep. unfold float_mul_int, int_to_float.
    now rewrite Hfin.
  - intros Hinf. rewrite Hstep. unfold float_mul_int, int_to_float.
    now rewrite Hinf.
Qed.

(** ** Returned documents *)

(** C4: in a store of the data model, where each stored document carries
    the ObjectId the store generated for it, every document that a
    document-returning endpoint sends back is the serialization
    [serialize_doc d0] of a stored document [d0], as the framework encodes
    it.  The serialization has no "_id" field, its "id" field holds the text
    of the stored identifier, no field of it is a raw timestamp, and every
    timestamp field of the stored document has become its ISO-8601 text;
    the same holds of the document as it is sent, in which no timestamp is
    left at any depth.  Every request leaves the store in the data model. *)
Theorem returned_documents_are_serialized r s code content s' d :
  identified s ->
  handle r s = (Response code content, s') ->
  r <> POST_seed ->
  In d (body_docs content) ->
  identified s' /\
  exists d0 o,
    (In d0 (docs s' "product") \/ In d0 (docs s' "order")) /\
    d0 !! "_id" = Some (VOid o) /\
    d = json_doc (serialize_doc d0) /\
    (serialize_doc d0 !! "_id" = None /\
     serialize_doc d0 !! "id" = Some (VStr (ObjectId_str o)) /\
     (forall k t, serialize_doc d0 !! k <> Some (VDate t)) /\
     (forall k t, k <> "id" -> d0 !! k = Some (VDate t) ->
        serialize_doc d0 !! k = Some (VStr (isoformat t)))) /\
    d !! "_id" = None /\
    d !! "id" = Some (VStr (ObjectId_str o)) /\
    (forall k v, d !! k = Some v -> dateless v = true) /\
    (forall k t, k <> "id" -> d0 !! k = Some (VDate t) ->
       d !! k = Some (VStr (isoformat t))).
Proof.
  intros Hid H Hseed Hd.
  assert (Hid' : identified s').
  { pose proof (handle_identified r s Hid) as H'. now rewrite H in H'. }
  split; [exact Hid'|].
  assert (Hsrc : exists d0, (In d0 (docs s' "product") \/ In d0 (docs s' "order"))
                            /\ d = json_doc (serialize_doc d0)).
  { destruct r as [c|p|p|e|]; simpl in H.
    - apply respond_Response in H as (_ & l & H & _ & ->).
      apply in_map_iff in Hd as (d1 & <- & Hd1).
      destruct (list_products_Ok _ _ _ _ H d1 Hd1) as (d0 & Hin & ->). eauto.
    - destruct (Product_valid p); [|discriminate].
      apply respond_Response in H as (_ & x & H & _ & ->).
      apply create_product_Ok in H as (d0 & -> & Hin).
      destruct Hd as [<-|[]]. eauto.
    - destruct (CheckoutPayload_valid p); [|discriminate].
      apply respond_Response in H as (_ & x & H & _ & ->).
      apply create_order_Ok in H as (sub & amount & s1 & o & _ & _ & -> & Hdocs & _).
      destruct Hd as [<-|[]]. eexists. split; [right|reflexivity].
      rewrite Hdocs. apply in_or_app. right. now left.
    - apply respond_Response in H as (_ & l & H & _ & ->).
      apply in_map_iff in Hd as (d1 & <- & Hd1).
      destruct (list_orders_Ok _ _ _ _ H d1 Hd1) as (d0 & Hin & ->). eauto.
    - congruence. }
  destruct Hsrc as (d0 & Hin & ->).
  assert (Hhas : has_id d0) by (destruct Hin as [Hin|Hin]; eapply Hid'; eassumption).
  destruct Hhas as [o Ho]. exists d0, o.
  destruct (serialize_doc_has_id d0 o Ho) as [Hnone Hsome].
  split; [exact Hin|]. split; [exact Ho|]. split; [reflexivity|].
  split.
  { split; [exact Hnone|]. split; [exact Hsome|].
    split; [intros k t; apply serialize_doc_no_date|].
    intros k t Hk Hdate. apply serialize_doc_date; [|exact Hk|exact Hdate].
    intros ->. congruence. }
  split; [now rewrite json_doc_lookup, Hnone|].
  split; [now rewrite json_doc_lookup, Hsome|].
  split.
  - intros k v. apply json_doc_dateless.
  - intros k t Hk Hdate.
    assert (k <> "_id") by (intros ->; congruence).
    rewrite json_doc_lookup, serialize_doc_other by assumption.
    now rewrite Hdate.
Qed.

(** ** Seeding and listing *)

(** C5: on a reachable store, seeding a non-empty product collection
    inserts nothing and answers 201 with the message "Products already
    exist"; seeding an empty one stores the three demo products and answers
    201 with the count 3; and after any successful seed a second call
    leaves every collection as it is, answering that message unless the
    store is down. *)
Theorem seed_is_idempotent s :
  (online 1 s -> docs s "product" <> [] ->
     seed_products s
     = (Ok {[ "message" := VStr "Products already exist" ]}, reached s) /\
     handle POST_seed s
     = (Response 201 (JDoc (Some {[ "message" := VStr "Products already exist" ]})),
        reached s)) /\
  (online 2 s -> docs s "product" = [] ->
     exists s', seed_products s = (Ok {[ "inserted" := VInt 3 ]}, s') /\
                handle POST_seed s
                = (Response 201 (JDoc (Some {[ "inserted" := VInt 3 ]})), s') /\
                docs s' "product" = with_ids (next_oid s) sample_products /\
                (forall c, c <> "product" -> docs s' c = docs s c)) /\
  (forall r1 s1 r2 s2,
     seed_products s = (Ok r1, s1) ->
     seed_products s1 = (r2, s2) ->
     collections s2 = collections s1 /\
     (r2 = Ok {[ "message" := VStr "Products already exist" ]} \/
      exists msg, r2 = Raise (HTTPException 500 msg))).
Proof.
  split; [|split].
  - intros Hon Hne.
    assert (Hrun : seed_products s
                   = (Ok {[ "message" := VStr "Products already exist" ]}, reached s)).
    { rewrite seed_nonempty by exact Hne. now rewrite (online_outage _ _ Hon). }
    split; [exact Hrun|]. cbn [handle].
    rewrite (respond_seed _ _ _ Hrun). now rewrite render_singleton.
  - intros Hon Hempty. destruct (seed_empty s Hon Hempty) as (s' & Hrun & Hdocs & Hother).
    exists s'. split; [exact Hrun|]. split; [|split; assumption].
    cbn [handle]. rewrite (respond_seed _ _ _ Hrun). now rewrite render_singleton.
  - intros r1 s1 r2 s2 H1 H2.
    apply seed_Ok_nonempty in H1. rewrite seed_nonempty in H2 by exact H1.
    inversion H2; subst. split; [reflexivity|].
    destruct (outage s1); eauto.
Qed.

(** C6 (amended): on a reachable store, GET /api/products with a non-empty
    category answers for exactly the product documents whose category field
    is that string, in stored order; with no category, or with the empty
    string as category, it answers for all product documents.  The answer
    is 200 with the serialized documents when each of them can be rendered,
    and the server's 500 otherwise. *)
Theorem list_products_by_category s :
  online 1 s ->
  let answer := fun listed : list doc =>
    if forallb (fun d => doc_ok (serialize_doc d)) listed
    then Response 200 (JList (map (fun d => json_doc (serialize_doc d)) listed))
    else Error 500 "Internal Server Error" in
  (forall c, c <> "" ->
     handle (GET_products (Some c)) s
     = (answer (List.filter (category_is c) (docs s "product")), reached s)) /\
  handle (GET_products None) s = (answer (docs s "product"), reached s) /\
  handle (GET_products (Some "")) s = (answer (docs s "product"), reached s).
Proof.
  intros Hon answer.
  assert (Hall : forall flt ds,
             List.filter (matches flt) (docs s "product") = ds ->
             respond 200 JList
               (except_500 (let! ds := get_documents "product" flt in
                            ret (map serialize_doc ds))) s
             = (answer ds, reached s)).
  { intros flt ds Hds. unfold respond, except_500, get_documents.
    erewrite bind_Ok; [|rewrite find_eq, (online_outage _ _ Hon); reflexivity].
    unfold ret. rewrite Hds. now rewrite render_listing. }
  split; [|split].
  - intros c Hc. unfold handle, list_products.
    destruct (String.eqb c "") eqn:He; [apply String.eqb_eq in He; congruence|].
    apply Hall. apply filter_ext. intros d. apply matches_category.
  - apply Hall, filter_all.
  - apply Hall, filter_all.
Qed.

(** ** Order status *)

(** C10: an order created through POST /api/orders is stored and returned
    with status "pending"; and whatever requests follow, in any store, the
    orders already there stay as they are and every order that was added
    has status "pending": no endpoint changes a stored order. *)
Theorem orders_are_created_pending_and_stay :
  (forall payload s code content s',
     handle (POST_orders payload) s = (Response code content, s') ->
     exists created stored,
       content = JDoc (Some created) /\
       created !! "status" = Some (VStr "pending") /\
       last (docs s' "order") = Some stored /\
       pending stored /\
       removelast (docs s' "order") = docs s "order") /\
  (forall rs s,
     exists new, docs (run rs s) "order" = (docs s "order" ++ new)%list /\
                 Forall pending new).
Proof.
  split.
  - intros payload s code content s'. unfold handle.
    destruct (CheckoutPayload_valid payload); [|discriminate].
    intros H. apply respond_Response in H as (_ & r & H & _ & ->).
    apply create_order_Ok in H as (sub & amount & s1 & o & _ & _ & -> & Hdocs & _).
    destruct (order_record_amounts payload amount o) as (_ & _ & Hst).
    fold (stored_order payload amount o) in *.
    exists (serialize_doc (stored_order payload amount o)), (stored_order payload amount o).
    split; [cbn [body_json fmap option_fmap option_map]; now rewrite json_doc_order|].
    split; [rewrite serialize_doc_other by discriminate; now rewrite Hst|].
    split; [rewrite Hdocs; apply last_snoc|].
    split; [exact Hst|].
    rewrite Hdocs. apply removelast_last.
  - induction rs as [|r rest IH]; intros s.
    + exists []. simpl. rewrite app_nil_r. split; [reflexivity|constructor].
    + cbn [run]. destruct (handle_orders r s) as (new1 & H1 & P1).
      destruct (IH (handle r s).2) as (new2 & H2 & P2).
      exists (new1 ++ new2)%list. rewrite H2, H1, app_assoc.
      split; [reflexivity|]. now apply Forall_app.
Qed.

(** ** Identifiers: [PyObjectId.validate] *)

Lemma bytes_fromhex_shape_le n str o :
  (String.length str <= n)%nat ->
  bytes_fromhex str = Some o ->
  hex_or_space str = true /\
  String.length str = (2 * length o + count_space str)%nat.
Proof.
  revert str o. induction n as [|n IH]; intros str o Hlen H.
  - destruct str; [|simpl in Hlen; lia]. inversion H. split; reflexivity.
  - destruct str as [|c rest]; [inversion H; split; reflexivity|].
    cbn [bytes_fromhex] in H. cbn [hex_or_space count_space String.length] in *.
    destruct (is_space c) eqn:Hsp.
    + apply IH in H as [Hh Hl]; [|lia]. rewrite Hh. split; [reflexivity|lia].
    + destruct (hex_val c) as [top|] eqn:Htop; [|discriminate].
      destruct rest as [|c' rest']; [discriminate|].
      destruct (hex_val c') as [bot|] eqn:Hbot; [|discriminate].
      destruct (bytes_fromhex rest') as [o'|] eqn:Hrest; [|discriminate].
      inversion H; subst o. clear H.
      apply IH in Hrest as [Hh Hl]; [|simpl in Hlen; lia].
      cbn [hex_or_space count_space String.length length].
      rewrite Hh, (hex_val_not_space _ _ Hbot).
      rewrite !bool_decide_true by eauto.
      split; [reflexivity|lia].
Qed.

Lemma py_len_hex_or_space str :
  hex_or_space str = true -> py_len str = String.length str.
Proof.
  induction str as [|c rest IH]; [reflexivity|].
  cbn [hex_or_space py_len String.length]. intros H.
  apply andb_true_iff in H as [Hc Hrest]. rewrite (IH Hrest).
  assert (Hnc : continuation c = false).
  { apply orb_true_iff in Hc as [Hc|Hc].
    - now apply is_space_not_continuation.
    - apply bool_decide_eq_true in Hc as [d Hd].
      eapply hex_val_not_continuation; eassumption. }
  now rewrite Hnc.
Qed.

Lemma ObjectId_of_str_shape str o :
  ObjectId_of_str str = Some o ->
  hex_or_space str = true /\ (2 * length o + count_space str = 24)%nat.
Proof.
  unfold ObjectId_of_str.
  destruct (Nat.eqb (py_len str) 24) eqn:Hlen; [|discriminate].
  apply Nat.eqb_eq in Hlen. intros H.
  apply (bytes_fromhex_shape_le (String.length str)) in H as [Hh Hl]; [|lia].
  split; [exact Hh|]. rewrite (py_len_hex_or_space _ Hh) in Hlen. lia.
Qed.




Lemma PyObjectId_validate_value_str str :
  PyObjectId_validate_value (VStr str) = PyObjectId_validate str.
Proof. reflexivity. Qed.


(** X2: the trip of an identifier through its text: validating [str(o)]
    gives back [o] when [o] has twelve bytes and is refused otherwise; so the
    identifier an accepted string spells is accepted again from its own
    text exactly when that string held no whitespace. *)
Theorem PyObjectId_validate_round_trip s :
  (forall o,
     PyObjectId_validate_value (VStr (ObjectId_str o)) s
     = (if Nat.eqb (length o) 12 then Ok o
        else Raise (ValueError "Invalid ObjectId"), s)) /\
  (forall str o,
     PyObjectId_validate_value (VStr str) s = (Ok o, s) ->
     (PyObjectId_validate_value (VStr (ObjectId_str o)) s = (Ok o, s)
      <-> count_space str = 0%nat)).
Proof.
  assert (Hrt : forall o,
            PyObjectId_validate_value (VStr (ObjectId_str o)) s
            = (if Nat.eqb (length o) 12 then Ok o
               else Raise (ValueError "Invalid ObjectId"), s)).
  { intros o. rewrite PyObjectId_validate_value_str, PyObjectId_validate_eq.
    rewrite ObjectId_of_str_str. destruct (Nat.eqb (length o) 12); reflexivity. }
  split; [exact Hrt|].
  intros str o H.
  rewrite PyObjectId_validate_value_str, PyObjectId_validate_eq in H.
  destruct (ObjectId_of_str str) as [o'|] eqn:Ho; [|discriminate].
  inversion H; subst o'. clear H.
  apply ObjectId_of_str_shape in Ho as [_ Hl].
  rewrite Hrt. destruct (Nat.eqb (length o) 12) eqn:Hlen.
  - apply Nat.eqb_eq in Hlen. split; [lia|reflexivity].
  - apply Nat.eqb_neq in Hlen. split; [discriminate|lia].
Qed.

(** ** Serialization: [serialize_doc] *)

Lemma iso_value_idempotent v : iso_value (iso_value v) = iso_value v.
Proof. destruct v; reflexivity. Qed.

Lemma dict_empty_fmap (f : value -> value) (d : doc) :
  dict_empty (f <$> d) = dict_empty d.
Proof. unfold dict_empty. now rewrite map_size_fmap. Qed.

(** X3: serializing twice is serializing once. *)
Theorem serialize_doc_idempotent (d : doc) :
  serialize_doc (serialize_doc d) = serialize_doc d.
Proof.
  unfold serialize_doc at 2 3.
  destruct (dict_empty d) eqn:He.
  { unfold serialize_doc. now rewrite He. }
  assert (Hfix : forall d1 : doc,
             dict_empty d1 = false ->
             (d1 !! "_id" = None \/ exists v, d1 !! "_id" = Some v /\ truthy v = false) ->
             serialize_doc (iso_value <$> d1) = iso_value <$> d1).
  { intros d1 Hne Hid. unfold serialize_doc.
    rewrite dict_empty_fmap, Hne, lookup_fmap.
    assert (Hsame : match iso_value <$> d1 !! "_id" with
                    | Some v => if truthy v
                                then <["id" := VStr (py_str v)]> (delete "_id" (iso_value <$> d1))
                                else iso_value <$> d1
                    | None => iso_value <$> d1
                    end = iso_value <$> d1).
    { destruct Hid as [Hid|(v & Hid & Hv)]; rewrite Hid; simpl; [reflexivity|].
      destruct v; simpl in *; try rewrite Hv; try reflexivity; discriminate. }
    rewrite Hsame, <- map_fmap_compose.
    apply map_fmap_ext. intros k v _. apply iso_value_idempotent. }
  destruct (d !! "_id") as [v|] eqn:Hid.
  - destruct (truthy v) eqn:Hv.
    + apply Hfix.
      * eapply dict_empty_lookup. apply lookup_insert_eq.
      * left. rewrite lookup_insert_ne by discriminate. apply lookup_delete_eq.
    + apply Hfix; [exact He|]. right. eauto.
  - apply Hfix; [exact He|]. now left.
Qed.

(** X4: serialization changes the identifier and the timestamps, nothing
    else: with a truthy "_id" the fields of the result are those of the
    document with "id" in place of "_id", otherwise they are the same
    fields; and every field other than "_id" and "id" keeps its value, a
    timestamp becoming its ISO-8601 text. *)
Theorem serialize_doc_fields (d : doc) :
  (forall v, d !! "_id" = Some v -> truthy v = true ->
     dom (serialize_doc d) = {["id"]} ∪ (dom d ∖ {["_id"]})) /\
  ((forall v, d !! "_id" = Some v -> truthy v = false) ->
     dom (serialize_doc d) = dom d) /\
  (forall k, k <> "_id" -> k <> "id" ->
     serialize_doc d !! k = iso_value <$> d !! k).
Proof.
  split; [|split].
  - intros v Hid Hv. unfold serialize_doc.
    rewrite (dict_empty_lookup _ _ _ Hid), Hid, Hv.
    rewrite dom_fmap_L, dom_insert_L, dom_delete_L. reflexivity.
  - intros Hfalsy. unfold serialize_doc.
    destruct (dict_empty d); [reflexivity|].
    rewrite dom_fmap_L.
    destruct (d !! "_id") as [v|] eqn:Hid; [|reflexivity].
    now rewrite (Hfalsy v eq_refl).
  - intros k H1 H2. now apply serialize_doc_other.
Qed.

(** ** Writing and reading back *)

Lemma insert_one_run coll (d : doc) s :
  d !! "_id" = None -> outage s = None -> fresh_in coll s ->
  insert_one coll d s = (Ok (VOid (fresh_oid s)), written coll d s).
Proof.
  intros Hd Hout Hfresh. unfold insert_one.
  erewrite bind_Ok; [|rewrite access_eq, Hout; reflexivity].
  rewrite (write_doc_fresh _ _ _ Hd). cbv zeta.
  change (oid_bytes (next_oid (reached s))) with (fresh_oid s).
  rewrite docs_reached. unfold fresh_in in Hfresh. rewrite Hfresh. reflexivity.
Qed.

Lemma outage_written coll d s : outage (written coll d s) = outage (reached s).
Proof. reflexivity. Qed.

Lemma docs_written_eq coll (d : doc) s :
  docs (written coll d s) coll
  = (docs s coll ++ [<["_id" := VOid (fresh_oid s)]> d])%list.
Proof. unfold written. now rewrite docs_set_docs_eq. Qed.

Lemma docs_written_ne coll (d : doc) s c :
  c <> coll -> docs (written coll d s) c = docs s c.
Proof. intros H. unfold written. now rewrite docs_set_docs_ne by congruence. Qed.

Lemma fresh_oid_roundtrip s :
  ObjectId_of_str (ObjectId_str (fresh_oid s)) = Some (fresh_oid s).
Proof. apply ObjectId_roundtrip. Qed.

Lemma find_written coll (d : doc) s :
  fresh_in coll s ->
  List.find (matches [("_id", VOid (fresh_oid s))]) (docs (written coll d s) coll)
  = Some (<["_id" := VOid (fresh_oid s)]> d).
Proof.
  intros Hfresh. rewrite docs_written_eq.
  apply find_app_last; [exact Hfresh|apply matches_id_insert].
Qed.

(** The tail shared by [create_product] and [create_order]. *)
Lemma insert_fetch_run coll (d : doc) s :
  d !! "_id" = None -> outage s = None -> fresh_in coll s ->
  (let! new_id := create_document coll d in
   let! oid := ObjectId_new new_id in
   let! x := find_one coll [("_id", VOid oid)] in
   ret (serialize_found x)) s
  = (match outage (reached s) with
     | Some msg => Raise (PersistenceError msg)
     | None => Ok (Some (serialize_doc (<["_id" := VOid (fresh_oid s)]> d)))
     end, reached (written coll d s)).
Proof.
  intros Hd Hout Hfresh.
  erewrite bind_Ok;
    [|unfold create_document; erewrite bind_Ok by (now apply insert_one_run);
      reflexivity].
  cbn [py_str].
  erewrite bind_Ok; [|rewrite ObjectId_new_eq, fresh_oid_roundtrip; reflexivity].
  unfold bind. rewrite find_one_eq, outage_written.
  destruct (outage (reached s)); [reflexivity|].
  rewrite (find_written _ _ _ Hfresh). reflexivity.
Qed.

Lemma insert_fetch_Ok_inv coll (d : doc) s r s' :
  d !! "_id" = None ->
  (let! new_id := create_document coll d in
   let! oid := ObjectId_new new_id in
   let! x := find_one coll [("_id", VOid oid)] in
   ret (serialize_found x)) s = (Ok r, s') ->
  fresh_in coll s /\
  r = Some (serialize_doc (<["_id" := VOid (fresh_oid s)]> d)) /\
  s' = reached (written coll d s).
Proof.
  intros Hd H. pose proof H as H0.
  apply bind_Ok_inv in H0 as (new_id & s2 & Hnew & _).
  unfold create_document in Hnew.
  apply bind_Ok_inv in Hnew as (i & s3 & Hins & _).
  apply insert_one_fresh_Ok in Hins; [|exact Hd].
  cbv zeta in Hins. destruct Hins as (Hout & _ & Hfresh & _).
  rewrite (insert_fetch_run _ _ _ Hd Hout Hfresh) in H.
  destruct (outage (reached s)); [discriminate|].
  inversion H; subst. auto.
Qed.

Lemma outages_after k s : outages (after k s) = drop k (outages s).
Proof.
  revert s. induction k as [|k IH]; intros s; simpl; [now rewrite drop_0|].
  rewrite IH. simpl. destruct (outages s); [destruct k; reflexivity|reflexivity].
Qed.

Lemma outage_after_lookup k s msg :
  outages s !! k = Some (Some msg) -> outage (after k s) = Some msg.
Proof.
  intros H. unfold outage. rewrite outages_after.
  now rewrite (drop_S _ _ _ H).
Qed.

Lemma next_oid_after k s : next_oid (after k s) = next_oid s.
Proof. revert s. induction k as [|k IH]; intros s; simpl; [reflexivity|]. now rewrite IH. Qed.

Lemma fresh_in_after coll k s : fresh_in coll s -> fresh_in coll (after k s).
Proof.
  unfold fresh_in, fresh_oid. now rewrite next_oid_after, docs_after.
Qed.

Lemma after_add k m s : after (k + m) s = after m (after k s).
Proof. revert s. induction k as [|k IH]; intros s; simpl; [reflexivity|]. apply IH. Qed.

(** The whole of [create_order] on a store that prices every item. *)
Lemma create_order_run payload s l amount :
  online (S (length (items payload))) s ->
  line_amounts (docs s "product") (items payload) = Some l ->
  py_round2 (fold_left PrimFloat.add l 0%float) = Ok amount ->
  fresh_in "order" s ->
  create_order payload s
  = (match outage (after (S (length (items payload))) s) with
     | Some msg => Raise (HTTPException 500 msg)
     | None => Ok (Some (serialize_doc (stored_order payload amount (fresh_oid s))))
     end,
     reached (written "order" (order_record payload amount)
                (after (length (items payload)) s))).
Proof.
  intros Hon Hl Hround Hfresh.
  set (n := length (items payload)) in *.
  assert (Hloop : order_subtotal (items payload) 0%float s
                  = (Ok (fold_left PrimFloat.add l 0%float), after n s)).
  { apply order_subtotal_complete; [|exact Hl].
    apply (online_le _ (S n)); [lia|exact Hon]. }
  assert (Hout : outage (after n s) = None).
  { apply (online_outage 0). apply online_after. now rewrite Nat.add_1_r. }
  unfold create_order, except_http_500.
  erewrite bind_Ok by exact Hloop.
  erewrite bind_Ok by (unfold lift; rewrite Hround; reflexivity).
  erewrite bind_Ok by (unfold lift; rewrite Hround; reflexivity).
  fold (order_record payload amount).
  rewrite (insert_fetch_run "order" (order_record payload amount) (after n s));
    [|apply Order_dump_no_id|exact Hout|now apply fresh_in_after].
  rewrite <- after_succ.
  unfold stored_order, fresh_oid. rewrite next_oid_after.
  destruct (outage (after (S n) s)); reflexivity.
Qed.

Lemma create_product_run p s :
  outage s = None -> fresh_in "product" s ->
  create_product p s
  = (match outage (reached s) with
     | Some msg => Raise (HTTPException 500 msg)
     | None => Ok (Some (serialize_doc (product_record p (fresh_oid s))))
     end, reached (written "product" (Product_dump p) s)).
Proof.
  intros Hout Hfresh. unfold create_product, except_500.
  rewrite (insert_fetch_run "product" (Product_dump p) s);
    [|apply Product_dump_no_id|exact Hout|exact Hfresh].
  destruct (outage (reached s)); reflexivity.
Qed.

Lemma listing_run coll flt s :
  outage s = None ->
  except_500 (let! ds := get_documents coll flt in ret (map serialize_doc ds)) s
  = (Ok (map serialize_doc (List.filter (matches flt) (docs s coll))), reached s).
Proof.
  intros Hout. unfold except_500, get_documents.
  erewrite bind_Ok; [|rewrite find_eq, Hout; reflexivity]. reflexivity.
Qed.

Lemma matches_field k c d : matches [(k, VStr c)] d = field_is k c d.
Proof.
  unfold matches, field_is. simpl.
  destruct (d !! k) as [[]|]; simpl; try reflexivity.
  apply andb_true_r.
Qed.

Lemma product_record_fields p o :
  product_record p o !! "_id" = Some (VOid o) /\
  product_record p o !! "title" = Some (VStr (title p)) /\
  product_record p o !! "description" = Some (opt_str (description p)) /\
  product_record p o !! "price" = Some (VFloat (price p)) /\
  product_record p o !! "category" = Some (VStr (category p)) /\
  product_record p o !! "in_stock" = Some (VBool (in_stock p)) /\
  product_record p o !! "stock_qty" = Some (VInt (stock_qty p)) /\
  product_record p o !! "image" = Some (opt_str (image p)).
Proof. repeat split; reflexivity. Qed.

Lemma serialize_doc_field (d : doc) k v :
  k <> "_id" -> k <> "id" -> d !! k = Some v ->
  serialize_doc d !! k = Some (iso_value v).
Proof. intros H1 H2 H. rewrite serialize_doc_other by assumption. now rewrite H. Qed.

(** ** Errors *)

Lemma raises_ret {A} Q (a : A) : raises Q (ret a).
Proof. intros s e s' H. discriminate. Qed.

Lemma raises_bind {A B} Q (m : M A) (k : A -> M B) :
  raises Q m -> (forall a, raises Q (k a)) -> raises Q (bind m k).
Proof.
  intros Hm Hk s e s' H. bind_split H.
  - eapply Hk; eassumption.
  - inversion Hk0; subst. eapply Hm; eassumption.
Qed.

Lemma raises_weaken {A} (Q Q' : exn -> Prop) (m : M A) :
  (forall e, Q e -> Q' e) -> raises Q m -> raises Q' m.
Proof. intros HQ Hm s e s' H. eauto. Qed.

Lemma raises_access : raises plain access.
Proof.
  intros s e s' H. rewrite access_eq in H.
  destruct (outage s); inversion H; subst. exact I.
Qed.

Lemma raises_find_one coll flt : raises plain (find_one coll flt).
Proof.
  intros s e s' H. rewrite find_one_eq in H.
  destruct (outage s); inversion H; subst. exact I.
Qed.

Lemma raises_ObjectId_new str : raises plain (ObjectId_new str).
Proof.
  intros s e s' H. rewrite ObjectId_new_eq in H.
  destruct (ObjectId_of_str str); inversion H; subst. exact I.
Qed.

Lemma raises_write_doc coll d : raises plain (write_doc coll d).
Proof.
  intros s e s' H. unfold write_doc in H.
  apply bind_inv in H as [(i & s1 & _ & H)|(e' & Hi & _)].
  - destruct (existsb _ _); inversion H; subst. exact I.
  - destruct (d !! "_id"); [discriminate|].
    apply bind_inv in Hi as [(o & s2 & _ & Hr)|(e2 & Ho & _)]; discriminate.
Qed.

Lemma raises_lift {A} (Q : exn -> Prop) (x : result A) :
  (forall e, x = Raise e -> Q e) -> raises Q (lift x).
Proof. intros HQ s e s' H. inversion H; subst. now apply HQ. Qed.

Lemma py_round2_plain x e : py_round2 x = Raise e -> plain e.
Proof.
  unfold py_round2. destruct (_ && _); intros H; inversion H; subst. exact I.
Qed.

Lemma py_float_plain v e : py_float v = Raise e -> plain e.
Proof.
  intros H. destruct e; try exact I. now apply py_float_error in H.
Qed.

Lemma float_mul_int_plain x n e : float_mul_int x n = Raise e -> plain e.
Proof.
  intros H. destruct e; try exact I. now apply float_mul_int_error in H.
Qed.

Lemma raises_insert_fetch coll d :
  raises plain
    (let! new_id := create_document coll d in
     let! oid := ObjectId_new new_id in
     let! x := find_one coll [("_id", VOid oid)] in
     ret (serialize_found x)).
Proof.
  apply raises_bind.
  - apply raises_bind.
    + apply raises_bind; [apply raises_access|]. intros _. apply raises_write_doc.
    + intros i. apply raises_ret.
  - intros new_id. apply raises_bind; [apply raises_ObjectId_new|].
    intros oid. apply raises_bind; [apply raises_find_one|].
    intros x. apply raises_ret.
Qed.

Lemma raises_order_subtotal its acc : raises (loop_error its) (order_subtotal its acc).
Proof.
  revert acc. induction its as [|item rest IH]; intros acc s e s' H.
  - discriminate.
  - rewrite order_subtotal_cons in H.
    assert (Hnf : loop_error (item :: rest) (not_found item)).
    { right. exists item. split; [now left|reflexivity]. }
    destruct (ObjectId_of_str (product_id item)) as [o|];
      [|inversion H; subst; left; exact I].
    destruct (outage s); [inversion H; subst; left; exact I|].
    destruct (List.find _ _) as [p|]; [|inversion H; subst; exact Hnf].
    destruct (dict_empty p); [inversion H; subst; exact Hnf|].
    destruct (py_float _) as [pr|e1] eqn:Hp.
    + destruct (float_mul_int _ _) as [a|e2] eqn:Hm.
      * apply IH in H as [Hpl|(it & Hin & ->)]; [now left|].
        right. exists it. split; [now right|reflexivity].
      * inversion H; subst. left. eapply float_mul_int_plain; eassumption.
    + inversion H; subst. left. eapply py_float_plain; eassumption.
Qed.

Lemma raises_create_order_body payload :
  raises (loop_error (items payload))
    (let! subtotal := order_subtotal (items payload) 0%float in
     let! st := lift (py_round2 subtotal) in
     let! tot := lift (py_round2 subtotal) in
     let order := {| order_customer_name := customer_name payload;
                     order_customer_email := customer_email payload;
                     order_customer_phone := customer_phone payload;
                     order_shipping_address := shipping_address payload;
                     order_items := items payload;
                     subtotal := st;
                     total := tot;
                     status := Order_default_status |} in
     let! new_id := create_document "order" (Order_dump order) in
     let! oid := ObjectId_new new_id in
     let! d := find_one "order" [("_id", VOid oid)] in
     ret (serialize_found d)).
Proof.
  apply raises_bind; [apply raises_order_subtotal|].
  intros sub. apply raises_bind.
  { apply raises_lift. intros e He. left. eapply py_round2_plain; eassumption. }
  intros st. apply raises_bind.
  { apply raises_lift. intros e He. left. eapply py_round2_plain; eassumption. }
  intros tot. eapply raises_weaken; [|apply raises_insert_fetch].
  intros e He. now left.
Qed.

Lemma except_500_Raise {A} (m : M A) s e s' :
  except_500 m s = (Raise e, s') -> exists msg, e = HTTPException 500 msg.
Proof.
  unfold except_500. destruct (m s) as [[a|e0] s1]; intros H; inversion H; eauto.
Qed.

Lemma respond_Error {A} code (wrap : A -> body) (m : M A) s c d s' :
  respond code wrap m s = (Error c d, s') ->
  (exists e, m s = (Raise e, s') /\
             (e = HTTPException c d \/ (plain e /\ c = 500))) \/
  (c = 500 /\ exists a, m s = (Ok a, s')).
Proof.
  unfold respond, render. destruct (m s) as [[a|e] s1].
  - destruct (body_ok (wrap a)); [discriminate|].
    intros H. inversion H; subst. right. eauto.
  - intros H. left.
    destruct e; inversion H; subst; eexists; split; try reflexivity;
      try (right; split; [exact I|reflexivity]).
    now left.
Qed.

Lemma except_http_500_Raise {A} (m : M A) s e s' :
  except_http_500 m s = (Raise e, s') ->
  exists e0, m s = (Raise e0, s') /\
             e = match e0 with
                 | HTTPException _ _ => e0
                 | _ => HTTPException 500 (exn_str e0)
                 end.
Proof.
  unfold except_http_500. destruct (m s) as [[a|e0] s1]; [discriminate|].
  destruct e0; intros H; inversion H; subst; eauto.
Qed.

(** ** What a request writes *)

Lemma listing_state coll flt s r s' :
  except_500 (let! ds := get_documents coll flt in ret (map serialize_doc ds)) s
    = (r, s') ->
  s' = reached s.
Proof.
  unfold except_500, get_documents, bind. rewrite find_eq.
  destruct (outage s); intros H; inversion H; reflexivity.
Qed.

Lemma appends_lift_bind {A B} coll P (x : result A) (k : A -> M B) :
  (forall a, x = Ok a -> appends coll P (k a)) -> appends coll P (bind (lift x) k).
Proof.
  intros Hk s r s' H. unfold bind, lift in H. destruct x as [a|e].
  - eapply Hk; [reflexivity|exact H].
  - inversion H; subst. split; [reflexivity|].
    exists []. rewrite app_nil_r. split; [reflexivity|constructor].
Qed.

Lemma appends_create_product_stocked p :
  Product_valid p = true -> appends "product" stocked (create_product p).
Proof.
  intros Hvalid. apply andb_true_iff in Hvalid as [Hprice Hstock].
  apply Z.leb_le in Hstock.
  apply appends_except_500, appends_bind.
  - apply appends_create_document. intros d' Hd' _.
    exists (price p), (stock_qty p). rewrite !Hd' by discriminate.
    repeat split; try reflexivity; assumption.
  - intros new_id. apply appends_fetch.
Qed.

Lemma sample_products_stocked (d d' : doc) :
  In d sample_products -> (forall k, k <> "_id" -> d' !! k = d !! k) ->
  (d !! "_id" = None -> has_id d') -> stocked d'.
Proof.
  intros Hin Hd' _. unfold stocked. rewrite !Hd' by discriminate.
  simpl in Hin. destruct Hin as [<-|[<-|[<-|[]]]];
    do 2 eexists; (split; [reflexivity|]); (split; [reflexivity|]);
    (split; [reflexivity|]); lia.
Qed.

Lemma appends_seed_products_stocked : appends "product" stocked seed_products.
Proof.
  apply appends_except_500, appends_bind.
  { apply appends_read_only, read_only_count_documents. }
  intros n. destruct (0 <? n).
  - apply appends_read_only, read_only_ret.
  - apply appends_bind.
    + apply appends_bind; [apply appends_read_only, read_only_access|].
      intros _. apply appends_write_docs. apply sample_products_stocked.
    + intros ids. apply appends_read_only, read_only_ret.
Qed.

Lemma appends_create_order_sound payload :
  CheckoutPayload_valid payload = true ->
  appends "order" sound_order (create_order payload).
Proof.
  intros Hvalid.
  assert (Hqty : Forall (fun it => 1 <= quantity it) (items payload)).
  { unfold CheckoutPayload_valid in Hvalid. apply Forall_forall. intros it Hin.
    apply list_elem_of_In in Hin.
    rewrite forallb_forall in Hvalid. apply Z.leb_le. now apply Hvalid. }
  apply appends_except_http_500, appends_bind.
  { apply appends_read_only. intros s r s'. apply read_only_order_subtotal. }
  intros sub. apply appends_lift_bind. intros st Hst.
  apply appends_lift_bind. intros tot Htot.
  assert (tot = st) by congruence. subst tot.
  apply appends_bind.
  - apply appends_create_document. intros d' Hd' _.
    exists (items payload), st. rewrite !Hd' by discriminate.
    repeat split; try reflexivity; assumption.
  - intros new_id. apply appends_fetch.
Qed.

Lemma handle_state_via {A} code (wrap : A -> body) (m : M A) s (Q : store -> Prop) :
  (forall r s', m s = (r, s') -> Q s') -> Q (respond code wrap m s).2.
Proof.
  intros H. destruct (respond code wrap m s) as [resp s'] eqn:E.
  apply respond_state in E as [r0 E]. simpl. eauto.
Qed.

Lemma handle_products r s :
  exists new,
    docs (handle r s).2 "product" = (docs s "product" ++ new)%list /\
    Forall stocked new /\
    (forall c, c <> "product" -> c <> "order" -> docs (handle r s).2 c = docs s c).
Proof.
  assert (Hsame : forall s' : store, collections s' = collections s ->
            exists new, docs s' "product" = (docs s "product" ++ new)%list /\
                        Forall stocked new /\
                        (forall c, c <> "product" -> c <> "order" -> docs s' c = docs s c)).
  { intros s' H. exists []. rewrite app_nil_r.
    split; [now apply docs_same|]. split; [constructor|].
    intros c _ _. now apply docs_same. }
  assert (Hprod : forall A (m : M A) (r0 : result A) s',
            appends "product" stocked m -> m s = (r0, s') ->
            exists new, docs s' "product" = (docs s "product" ++ new)%list /\
                        Forall stocked new /\
                        (forall c, c <> "product" -> c <> "order" -> docs s' c = docs s c)).
  { intros A m r0 s' Hm E. apply Hm in E as (Ho & new & Hd & HP).
    exists new. split; [exact Hd|]. split; [exact HP|]. intros c Hc _. now apply Ho. }
  destruct r as [c|p|p|e|]; cbn [handle].
  - apply handle_state_via. intros r0 s' E.
    apply Hsame. eapply read_only_list_products; eassumption.
  - destruct (Product_valid p) eqn:Hv; [|apply Hsame; reflexivity].
    apply handle_state_via. intros r0 s' E.
    exact (Hprod _ _ _ _ (appends_create_product_stocked p Hv) E).
  - destruct (CheckoutPayload_valid p); [|apply Hsame; reflexivity].
    apply handle_state_via. intros r0 s' E.
    apply appends_create_order in E as (Ho & _).
    exists []. rewrite app_nil_r.
    split; [apply Ho; discriminate|]. split; [constructor|].
    intros c _ Hc. now apply Ho.
  - apply handle_state_via. intros r0 s' E.
    apply Hsame. eapply read_only_list_orders; eassumption.
  - apply handle_state_via. intros r0 s' E.
    exact (Hprod _ _ _ _ appends_seed_products_stocked E).
Qed.

Lemma handle_orders_sound r s :
  exists new, docs (handle r s).2 "order" = (docs s "order" ++ new)%list /\
              Forall sound_order new.
Proof.
  assert (Hsame : forall s' : store, docs s' "order" = docs s "order" ->
            exists new, docs s' "order" = (docs s "order" ++ new)%list /\
                        Forall sound_order new).
  { intros s' H. exists []. rewrite app_nil_r. split; [exact H|constructor]. }
  destruct r as [c|p|p|e|]; cbn [handle].
  - apply handle_state_via. intros r0 s' E. apply Hsame, docs_same.
    eapply read_only_list_products; eassumption.
  - destruct (Product_valid p); [|apply Hsame; reflexivity].
    apply handle_state_via. intros r0 s' E. apply Hsame.
    apply appends_create_product in E as (Ho & _). apply Ho. discriminate.
  - destruct (CheckoutPayload_valid p) eqn:Hv; [|apply Hsame; reflexivity].
    apply handle_state_via. intros r0 s' E.
    apply (appends_create_order_sound _ Hv) in E as (_ & H). exact H.
  - apply handle_state_via. intros r0 s' E. apply Hsame, docs_same.
    eapply read_only_list_orders; eassumption.
  - apply handle_state_via. intros r0 s' E. apply Hsame.
    apply appends_seed_products in E as (Ho & _). apply Ho. discriminate.
Qed.

(** ** The health check *)

Lemma length_str_prefix n str : (py_len (str_prefix n str) <= n)%nat.
Proof.
  revert n. induction str as [|c rest IH]; intros n; [simpl; lia|].
  cbn [str_prefix]. destruct (continuation c) eqn:Hc.
  - cbn [py_len]. rewrite Hc. apply IH.
  - destruct n as [|n]; [simpl; lia|].
    cbn [py_len]. rewrite Hc. specialize (IH n). lia.
Qed.

Lemma str_prefix_short n str : (py_len str <= n)%nat -> str_prefix n str = str.
Proof.
  revert n. induction str as [|c rest IH]; intros n Hlen; [reflexivity|].
  cbn [str_prefix py_len] in *. destruct (continuation c).
  - rewrite IH by lia. reflexivity.
  - destruct n as [|n]; [lia|]. rewrite IH by lia. reflexivity.
Qed.

(** The cut falls in front of a character, after [n] characters or at the
    end of the string. *)
Lemma str_prefix_spec n str :
  exists rest,
    str = str_prefix n str +:+ rest /\
    py_len (str_prefix n str) = Nat.min n (py_len str) /\
    match rest with
    | String c _ => continuation c = false
    | EmptyString => True
    end.
Proof.
  revert n. induction str as [|c str IH]; intros n.
  - exists "". split; [reflexivity|]. split; [simpl; lia|exact I].
  - cbn [str_prefix py_len]. destruct (continuation c) eqn:Hc.
    + destruct (IH n) as (rest & Heq & Hlen & Hrest). exists rest.
      split; [now rewrite Heq at 1|]. split; [|exact Hrest].
      cbn [py_len]. rewrite Hc, Hlen. reflexivity.
    + destruct n as [|n].
      * exists (String c str). split; [reflexivity|]. split; [reflexivity|exact Hc].
      * destruct (IH n) as (rest & Heq & Hlen & Hrest). exists rest.
        split; [now rewrite Heq at 1|]. split; [|exact Hrest].
        cbn [py_len]. rewrite Hc, Hlen. lia.
Qed.

Lemma list_collection_names_eq s :
  list_collection_names s
  = (match outage s with
     | Some msg => Raise (PersistenceError msg)
     | None => Ok (map fst (map_to_list (collections s)))
     end, reached s).
Proof.
  unfold list_collection_names, bind. rewrite access_eq.
  destruct (outage s); reflexivity.
Qed.

Lemma collection_names_exist (m : gmap string (list doc)) k :
  Forall (fun n => is_Some (m !! n)) (take k (map fst (map_to_list m))).
Proof.
  apply Forall_take. apply Forall_forall. intros n Hn.
  apply list_elem_of_fmap in Hn as ([n' l] & -> & Hin).
  apply elem_of_map_to_list in Hin. simpl. eauto.
Qed.

(** ** Creating a product *)

(** X5: on a reachable store whose next identifier is unused, POST
    /api/products with a valid product of finite price answers 201 with the
    product as stored, "id" holding the new identifier's text in place of
    "_id" and the seven schema fields as given; the product is appended to
    the product collection and no other collection changes. *)
Theorem create_product_stores_and_returns p s :
  Product_valid p = true ->
  is_finite (price p) = true ->
  online 2 s ->
  fresh_in "product" s ->
  exists created s',
    handle (POST_products p) s = (Response 201 (JDoc (Some created)), s') /\
    docs s' "product" = (docs s "product" ++ [product_record p (fresh_oid s)])%list /\
    (forall c, c <> "product" -> docs s' c = docs s c) /\
    created !! "_id" = None /\
    created !! "id" = Some (VStr (ObjectId_str (fresh_oid s))) /\
    created !! "title" = Some (VStr (title p)) /\
    created !! "description" = Some (opt_str (description p)) /\
    created !! "price" = Some (VFloat (price p)) /\
    created !! "category" = Some (VStr (category p)) /\
    created !! "in_stock" = Some (VBool (in_stock p)) /\
    created !! "stock_qty" = Some (VInt (stock_qty p)) /\
    created !! "image" = Some (opt_str (image p)).
Proof.
  intros Hvalid Hfin Hon Hfresh.
  pose proof (online_outage _ _ Hon) as Hout.
  pose proof (online_outage _ _ (online_reached _ _ Hon)) as Hout2.
  destruct (product_record_fields p (fresh_oid s))
    as (Fid & Ft & Fd & Fp & Fc & Fi & Fs & Fim).
  exists (serialize_doc (product_record p (fresh_oid s))),
         (reached (written "product" (Product_dump p) s)).
  split.
  { unfold handle. rewrite Hvalid. unfold respond.
    rewrite (create_product_run _ _ Hout Hfresh), Hout2.
    now rewrite render_created_product, Hfin. }
  split; [now rewrite docs_reached, docs_written_eq|].
  split; [intros c Hc; now rewrite docs_reached, docs_written_ne|].
  destruct (serialize_doc_truthy_id _ _ Fid eq_refl) as [Hnone Hsome].
  split; [exact Hnone|]. split; [exact Hsome|].
  repeat split;
    (erewrite serialize_doc_field; [|discriminate|discriminate|eassumption]);
    simpl; rewrite ?iso_opt_str; reflexivity.
Qed.

(** X6: the "id" that POST /api/products returns leads back to the product:
    used as the product_id of a later checkout line it resolves to the
    product's price, and on a reachable store whose products can all be
    rendered the product is listed by GET /api/products, unfiltered or
    filtered by its own category. *)
Theorem created_product_is_found p s code content s' :
  handle (POST_products p) s = (Response code content, s') ->
  exists created i,
    content = JDoc (Some created) /\
    created !! "id" = Some (VStr i) /\
    created !! "price" = Some (VFloat (price p)) /\
    resolved_price (docs s' "product") i = Some (price p) /\
    (outage s' = None ->
     forallb (fun d => doc_ok (serialize_doc d)) (docs s' "product") = true ->
     forall c, c = None \/ c = Some (category p) ->
       exists l, handle (GET_products c) s' = (Response 200 (JList l), reached s') /\
                 In created l).
Proof.
  unfold handle at 1. destruct (Product_valid p); [|discriminate].
  intros H. apply respond_Response in H as (_ & r & H & _ & ->).
  apply except_500_Ok in H.
  apply insert_fetch_Ok_inv in H as (Hfresh & -> & ->); [|apply Product_dump_no_id].
  fold (product_record p (fresh_oid s)).
  cbn [body_json fmap option_fmap option_map]. rewrite json_doc_product.
  destruct (product_record_fields p (fresh_oid s))
    as (Fid & _ & _ & Fp & Fc & _).
  destruct (serialize_doc_truthy_id _ _ Fid eq_refl) as [_ Hsome].
  exists (serialize_doc (product_record p (fresh_oid s))), (ObjectId_str (fresh_oid s)).
  split; [reflexivity|]. split; [exact Hsome|].
  split; [rewrite serialize_doc_other by discriminate; now rewrite Fp|].
  assert (Hin : In (product_record p (fresh_oid s))
                  (docs (reached (written "product" (Product_dump p) s)) "product")).
  { rewrite docs_reached, docs_written_eq. apply in_or_app. right. now left. }
  split.
  - unfold resolved_price. rewrite fresh_oid_roundtrip, docs_reached.
    rewrite (find_written _ _ _ Hfresh).
    fold (product_record p (fresh_oid s)). rewrite Fp. reflexivity.
  - intros Hout Hok c Hc.
    set (s1 := reached (written "product" (Product_dump p) s)) in *.
    assert (Hlist : forall flt,
               matches flt (product_record p (fresh_oid s)) = true ->
               exists l,
                 respond 200 JList
                   (except_500 (let! ds := get_documents "product" flt in
                                ret (map serialize_doc ds))) s1
                 = (Response 200 (JList l), reached s1) /\
                 In (serialize_doc (product_record p (fresh_oid s))) l).
    { intros flt Hm. eexists. unfold respond.
      rewrite (listing_run _ _ _ Hout), render_listing.
      rewrite (forallb_filter_true _ _ _ Hok). split; [reflexivity|].
      rewrite <- json_doc_product.
      apply (in_map (fun d => json_doc (serialize_doc d))).
      apply filter_In. split; [exact Hin|exact Hm]. }
    destruct Hc as [->| ->]; unfold handle, list_products.
    + now apply Hlist.
    + destruct (negb (String.eqb (category p) "")); [|now apply Hlist].
      apply Hlist. rewrite matches_category.
      apply category_is_spec. exact Fc.
Qed.

(** X19: a product whose price is not finite is stored but cannot be sent:
    an infinite price passes the schema, the product is appended to the
    product collection, and the answer is the server's plain 500, because
    the returned product cannot be rendered as JSON. *)
Theorem unrenderable_product_is_stored p s :
  Product_valid p = true ->
  is_finite (price p) = false ->
  online 2 s ->
  fresh_in "product" s ->
  exists s',
    handle (POST_products p) s = (Error 500 "Internal Server Error", s') /\
    docs s' "product" = (docs s "product" ++ [product_record p (fresh_oid s)])%list /\
    (forall c, c <> "product" -> docs s' c = docs s c).
Proof.
  intros Hvalid Hfin Hon Hfresh.
  pose proof (online_outage _ _ Hon) as Hout.
  pose proof (online_outage _ _ (online_reached _ _ Hon)) as Hout2.
  exists (reached (written "product" (Product_dump p) s)).
  split; [|split].
  - unfold handle. rewrite Hvalid. unfold respond.
    rewrite (create_product_run _ _ Hout Hfresh), Hout2.
    now rewrite render_created_product, Hfin.
  - now rewrite docs_reached, docs_written_eq.
  - intros c Hc. now rewrite docs_reached, docs_written_ne.
Qed.

(** ** Checking out *)

(** X7: a checkout succeeds whenever it can: with a valid payload, a store
    reachable for one lookup per item, the write and the read-back, every
    item priced, a finite rounded amount, and an unused next identifier,
    POST /api/orders answers 201 with the stored order (rounded amount as
    subtotal and total), appends it to the order collection and changes no
    other collection. *)
Theorem checkout_succeeds payload s l amount :
  CheckoutPayload_valid payload = true ->
  online (length (items payload) + 2) s ->
  line_amounts (docs s "product") (items payload) = Some l ->
  py_round2 (fold_left PrimFloat.add l 0%float) = Ok amount ->
  is_finite amount = true ->
  fresh_in "order" s ->
  exists s',
    handle (POST_orders payload) s
      = (Response 201
           (JDoc (Some (serialize_doc (stored_order payload amount (fresh_oid s))))),
         s') /\
    docs s' "order"
      = (docs s "order" ++ [stored_order payload amount (fresh_oid s)])%list /\
    (forall c, c <> "order" -> docs s' c = docs s c).
Proof.
  intros Hvalid Hon Hl Hround Hfin Hfresh.
  set (n := length (items payload)) in *.
  assert (Hon1 : online (S n) s) by (apply (online_le _ (n + 2)); [lia|exact Hon]).
  assert (Hout : outage (after (S n) s) = None).
  { apply (online_outage 0). apply online_after.
    replace (S n + 1)%nat with (n + 2)%nat by lia. exact Hon. }
  eexists. split; [|split].
  - unfold handle. rewrite Hvalid. unfold respond.
    rewrite (create_order_run _ _ _ _ Hon1 Hl Hround Hfresh). fold n.
    rewrite Hout. now rewrite render_created_order, Hfin.
  - rewrite docs_reached, docs_written_eq, docs_after.
    unfold stored_order, fresh_oid. now rewrite next_oid_after.
  - intros c Hc. now rewrite docs_reached, docs_written_ne, docs_after.
Qed.

(** X8: a checkout with no items is accepted: on a reachable store with an
    unused next identifier it creates an order whose item list is empty and
    whose subtotal and total are 0.0. *)
Theorem empty_cart_is_accepted payload s :
  items payload = [] ->
  online 2 s ->
  fresh_in "order" s ->
  exists created s',
    handle (POST_orders payload) s = (Response 201 (JDoc (Some created)), s') /\
    created !! "items" = Some (VList []) /\
    created !! "subtotal" = Some (VFloat 0) /\
    created !! "total" = Some (VFloat 0) /\
    docs s' "order"
      = (docs s "order" ++ [stored_order payload 0%float (fresh_oid s)])%list.
Proof.
  intros Hitems Hon Hfresh.
  assert (Hrun := create_order_run payload s [] 0%float).
  rewrite Hitems in Hrun. cbn [length] in Hrun.
  specialize (Hrun (online_le _ _ _ (Nat.le_succ_diag_r 1) Hon) eq_refl eq_refl Hfresh).
  assert (Hout : outage (after 1 s) = None).
  { apply (online_outage 0). now apply (online_after 1 1). }
  rewrite Hout in Hrun.
  do 2 eexists. split.
  { unfold handle, CheckoutPayload_valid. rewrite Hitems. cbn [forallb].
    unfold respond. rewrite Hrun. rewrite render_created_order. reflexivity. }
  assert (Hrec : forall k, k <> "_id" ->
             stored_order payload 0%float (fresh_oid s) !! k
             = order_record payload 0%float !! k).
  { intros k Hk. unfold stored_order. now rewrite lookup_insert_ne by congruence. }
  split; [|split; [|split]].
  - rewrite serialize_doc_other, Hrec by discriminate.
    unfold order_record, Order_dump. cbn [order_items]. rewrite Hitems. reflexivity.
  - rewrite serialize_doc_other, Hrec by discriminate. reflexivity.
  - rewrite serialize_doc_other, Hrec by discriminate. reflexivity.
  - now rewrite docs_reached, docs_written_eq.
Qed.

(** X9: a 500 answer does not mean that no order was created: when the
    store prices every item and takes the write but is down for the
    read-back, POST /api/orders answers HTTP 500 with the store's error text
    and the order is in the order collection all the same. *)
Theorem order_is_stored_though_read_back_fails payload s l amount msg :
  CheckoutPayload_valid payload = true ->
  online (S (length (items payload))) s ->
  outages s !! S (length (items payload)) = Some (Some msg) ->
  line_amounts (docs s "product") (items payload) = Some l ->
  py_round2 (fold_left PrimFloat.add l 0%float) = Ok amount ->
  fresh_in "order" s ->
  exists s',
    handle (POST_orders payload) s = (Error 500 msg, s') /\
    docs s' "order"
      = (docs s "order" ++ [stored_order payload amount (fresh_oid s)])%list.
Proof.
  intros Hvalid Hon Hdown Hl Hround Hfresh.
  eexists. split.
  - unfold handle. rewrite Hvalid. unfold respond.
    rewrite (create_order_run _ _ _ _ Hon Hl Hround Hfresh).
    rewrite (outage_after_lookup _ _ _ Hdown). reflexivity.
  - rewrite docs_reached, docs_written_eq, docs_after.
    unfold stored_order, fresh_oid. now rewrite next_oid_after.
Qed.

(** X10: a stored price that [float()] refuses (null, a list, a text that is
    no number) fails the checkout with HTTP 500 and the conversion error's
    text, unlike a missing price; nothing is written. *)
Theorem unconvertible_price_is_500 payload s pre item post l oid p v e :
  CheckoutPayload_valid payload = true ->
  items payload = (pre ++ item :: post)%list ->
  online (S (length pre)) s ->
  line_amounts (docs s "product") pre = Some l ->
  ObjectId_of_str (product_id item) = Some oid ->
  List.find (matches [("_id", VOid oid)]) (docs s "product") = Some p ->
  p !! "price" = Some v ->
  py_float v = Raise e ->
  handle (POST_orders payload) s = (Error 500 (exn_str e), after (S (length pre)) s) /\
  collections (after (S (length pre)) s) = collections s.
Proof.
  intros Hvalid Hitems Hon Hpre Hoid Hfind Hprice Hfloat.
  split; [|apply collections_after].
  unfold handle. rewrite Hvalid. unfold respond, create_order, except_http_500, bind at 1.
  rewrite Hitems, order_subtotal_app.
  rewrite (order_subtotal_complete pre 0%float s l);
    [|apply (online_le _ (S (length pre))); [lia|exact Hon]|exact Hpre].
  rewrite order_subtotal_cons, Hoid.
  assert (Hon1 : online 1 (after (length pre) s)).
  { apply online_after. now rewrite Nat.add_1_r. }
  rewrite (online_outage _ _ Hon1), docs_after, Hfind.
  rewrite (find_matches_nonempty _ _ _ Hfind), Hprice.
  change (default (VInt 0) (Some v)) with v.
  rewrite Hfloat, <- after_succ.
  destruct e; try reflexivity.
  exfalso. exact (py_float_error _ _ _ Hfloat).
Qed.

(** X18: an amount that is not finite is stored but cannot be sent: under
    the conditions of a successful checkout, when the rounded amount is
    infinite or NaN the order is appended to the order collection all the
    same, and the answer is the server's plain 500, because the returned
    order cannot be rendered as JSON. *)
Theorem unrenderable_order_is_stored payload s l amount :
  CheckoutPayload_valid payload = true ->
  online (length (items payload) + 2) s ->
  line_amounts (docs s "product") (items payload) = Some l ->
  py_round2 (fold_left PrimFloat.add l 0%float) = Ok amount ->
  is_finite amount = false ->
  fresh_in "order" s ->
  exists s',
    handle (POST_orders payload) s = (Error 500 "Internal Server Error", s') /\
    docs s' "order"
      = (docs s "order" ++ [stored_order payload amount (fresh_oid s)])%list.
Proof.
  intros Hvalid Hon Hl Hround Hfin Hfresh.
  set (n := length (items payload)) in *.
  assert (Hon1 : online (S n) s) by (apply (online_le _ (n + 2)); [lia|exact Hon]).
  assert (Hout : outage (after (S n) s) = None).
  { apply (online_outage 0). apply online_after.
    replace (S n + 1)%nat with (n + 2)%nat by lia. exact Hon. }
  eexists. split.
  - unfold handle. rewrite Hvalid. unfold respond.
    rewrite (create_order_run _ _ _ _ Hon1 Hl Hround Hfresh). fold n.
    rewrite Hout. now rewrite render_created_order, Hfin.
  - rewrite docs_reached, docs_written_eq, docs_after.
    unfold stored_order, fresh_oid. now rewrite next_oid_after.
Qed.

(** ** Error answers *)

(** X11: an error answer is a 422 (payload refused by its schema), a 500,
    or a 404; a 404 comes only from POST /api/orders, and its detail is
    "Product not found: " followed by the product_id of one of the
    payload's items. *)
Theorem error_answers r s c d s' :
  handle r s = (Error c d, s') ->
  c = 422 \/ c = 500 \/
  (c = 404 /\
   exists payload item,
     r = POST_orders payload /\ In item (items payload) /\
     d = "Product not found: " +:+ product_id item).
Proof.
  assert (H500 : forall A (m : M A) code (wrap : A -> body),
             respond code wrap (except_500 m) s = (Error c d, s') -> c = 500).
  { intros A m code wrap H.
    apply respond_Error in H as [(e & He & [->|[_ ->]])|[-> _]];
      [|reflexivity|reflexivity].
    apply except_500_Raise in He as [msg He]. now inversion He. }
  destruct r as [cat|p|p|e|]; cbn [handle]; intros H.
  - right; left. eapply H500. exact H.
  - destruct (Product_valid p).
    + right; left. eapply H500. exact H.
    + inversion H. now left.
  - destruct (CheckoutPayload_valid p); [|inversion H; now left].
    apply respond_Error in H as [(e & He & Hcase)|[-> _]]; [|now (right; left)].
    apply except_http_500_Raise in He as (e0 & He0 & ->).
    apply raises_create_order_body in He0 as [Hplain|(item & Hin & ->)].
    + right; left. destruct e0; try contradiction;
        destruct Hcase as [Hc|[_ Hc]]; congruence.
    + right; right. unfold not_found in Hcase.
      destruct Hcase as [Hc|[[] _]]. inversion Hc; subst.
      split; [reflexivity|]. exists p, item. auto.
  - right; left. eapply H500. exact H.
  - right; left. eapply H500. exact H.
Qed.

(** ** Listing orders *)

(** X12: on a reachable store GET /api/orders with a non-empty email
    answers for exactly the orders whose customer_email is that text, in
    stored order; with no email, or with the empty string, it answers for
    every order.  The answer is 200 with the serialized orders when each of
    them can be rendered, and the server's 500 otherwise. *)
Theorem list_orders_by_email s :
  online 1 s ->
  let answer := fun listed : list doc =>
    if forallb (fun d => doc_ok (serialize_doc d)) listed
    then Response 200 (JList (map (fun d => json_doc (serialize_doc d)) listed))
    else Error 500 "Internal Server Error" in
  (forall e, e <> "" ->
     handle (GET_orders (Some e)) s
     = (answer (List.filter (field_is "customer_email" e) (docs s "order")),
        reached s)) /\
  handle (GET_orders None) s = (answer (docs s "order"), reached s) /\
  handle (GET_orders (Some "")) s = (answer (docs s "order"), reached s).
Proof.
  intros Hon answer. pose proof (online_outage _ _ Hon) as Hout.
  assert (Hall : forall flt ds,
             List.filter (matches flt) (docs s "order") = ds ->
             respond 200 JList
               (except_500 (let! ds := get_documents "order" flt in
                            ret (map serialize_doc ds))) s
             = (answer ds, reached s)).
  { intros flt ds Hds. unfold respond. rewrite (listing_run _ _ _ Hout).
    now rewrite Hds, render_listing. }
  split; [|split].
  - intros e He. unfold handle, list_orders.
    destruct (String.eqb e "") eqn:E; [apply String.eqb_eq in E; congruence|].
    apply Hall. apply filter_ext. intros d. apply matches_field.
  - apply Hall, filter_all.
  - apply Hall, filter_all.
Qed.

(** X13: an order just created is listed: when POST /api/orders answers
    with an order, the store stays reachable and its orders can all be
    rendered, GET /api/orders returns that same document, both unfiltered
    and filtered by the customer's email. *)
Theorem created_order_is_listed payload s code content s' :
  handle (POST_orders payload) s = (Response code content, s') ->
  outage s' = None ->
  forallb (fun d => doc_ok (serialize_doc d)) (docs s' "order") = true ->
  exists created,
    content = JDoc (Some created) /\
    forall e, e = None \/ e = Some (customer_email payload) ->
      exists l, handle (GET_orders e) s' = (Response 200 (JList l), reached s') /\
                In created l.
Proof.
  unfold handle at 1. destruct (CheckoutPayload_valid payload); [|discriminate].
  intros H Hout Hok. apply respond_Response in H as (_ & r & H & _ & ->).
  apply create_order_Ok in H as (sub & amount & s1 & o & _ & _ & -> & Hdocs & _).
  fold (stored_order payload amount o) in *.
  exists (serialize_doc (stored_order payload amount o)).
  split; [cbn [body_json fmap option_fmap option_map];
          now rewrite json_doc_order|].
  assert (Hin : In (stored_order payload amount o) (docs s' "order")).
  { rewrite Hdocs. apply in_or_app. right. now left. }
  assert (Hlist : forall flt,
             matches flt (stored_order payload amount o) = true ->
             exists l,
               respond 200 JList
                 (except_500 (let! ds := get_documents "order" flt in
                              ret (map serialize_doc ds))) s'
               = (Response 200 (JList l), reached s') /\
               In (serialize_doc (stored_order payload amount o)) l).
  { intros flt Hm. eexists. unfold respond.
    rewrite (listing_run _ _ _ Hout), render_listing.
    rewrite (forallb_filter_true _ _ _ Hok). split; [reflexivity|].
    rewrite <- json_doc_order.
    apply (in_map (fun d => json_doc (serialize_doc d))).
    apply filter_In. split; [exact Hin|exact Hm]. }
  intros e [->| ->]; unfold handle, list_orders.
  - now apply Hlist.
  - destruct (negb (String.eqb (customer_email payload) "")); [|now apply Hlist].
    apply Hlist. rewrite matches_field. unfold field_is, stored_order.
    rewrite lookup_insert_ne by discriminate.
    change (order_record payload amount !! "customer_email")
      with (Some (VStr (customer_email payload))).
    apply String.eqb_refl.
Qed.

(** ** What the requests write *)

(** X14: a GET request writes nothing (the store only counts one operation
    more); POST /api/orders leaves every collection but the order
    collection as it is, so a checkout never changes a product; POST
    /api/products and POST /api/seed leave every collection but the product
    collection as it is.  This holds for every outcome of the request. *)
Theorem request_footprint r s :
  match r with
  | GET_products _ | GET_orders _ => (handle r s).2 = reached s
  | POST_orders _ => forall c, c <> "order" -> docs (handle r s).2 c = docs s c
  | POST_products _ | POST_seed =>
      forall c, c <> "product" -> docs (handle r s).2 c = docs s c
  end.
Proof.
  destruct r as [c|p|p|e|]; cbn [handle].
  - apply (handle_state_via 200 JList (list_products c) s (fun s' => s' = reached s)).
    intros r0 s'. apply listing_state.
  - intros c Hc. destruct (Product_valid p); [|reflexivity].
    apply (handle_state_via 201 JDoc (create_product p) s
             (fun s' => docs s' c = docs s c)).
    intros r0 s' E. apply appends_create_product in E as (Ho & _). now apply Ho.
  - intros c Hc. destruct (CheckoutPayload_valid p); [|reflexivity].
    apply (handle_state_via 201 JDoc (create_order p) s
             (fun s' => docs s' c = docs s c)).
    intros r0 s' E. apply appends_create_order in E as (Ho & _). now apply Ho.
  - apply (handle_state_via 200 JList (list_orders e) s (fun s' => s' = reached s)).
    intros r0 s'. apply listing_state.
  - intros c Hc.
    apply (handle_state_via 201 (fun d => JDoc (Some d)) seed_products s
             (fun s' => docs s' c = docs s c)).
    intros r0 s' E. apply appends_seed_products in E as (Ho & _). now apply Ho.
Qed.

(** X15: whatever requests are served, the product collection only grows:
    the products already stored stay as they are and in place, every product
    added has a float price of at least 0 and a stock of at least 0, and
    the collections other than products and orders never change. *)
Theorem products_only_grow rs s :
  exists new,
    docs (run rs s) "product" = (docs s "product" ++ new)%list /\
    Forall stocked new /\
    (forall c, c <> "product" -> c <> "order" -> docs (run rs s) c = docs s c).
Proof.
  revert s. induction rs as [|r rest IH]; intros s.
  - exists []. simpl. rewrite app_nil_r. split; [reflexivity|]. split; [constructor|auto].
  - cbn [run]. destruct (handle_products r s) as (new1 & H1 & P1 & O1).
    destruct (IH (handle r s).2) as (new2 & H2 & P2 & O2).
    exists (new1 ++ new2)%list. rewrite H2, H1, app_assoc.
    split; [reflexivity|]. split; [now apply Forall_app|].
    intros c Hp Ho. now rewrite O2, O1.
Qed.

(** X16: whatever requests are served, every order added to the order
    collection has lines of quantity at least 1 and a total equal to its
    subtotal, also when the request that added it answered an error. *)
Theorem orders_added_are_sound rs s :
  exists new,
    docs (run rs s) "order" = (docs s "order" ++ new)%list /\
    Forall sound_order new.
Proof.
  revert s. induction rs as [|r rest IH]; intros s.
  - exists []. simpl. rewrite app_nil_r. split; [reflexivity|constructor].
  - cbn [run]. destruct (handle_orders_sound r s) as (new1 & H1 & P1).
    destruct (IH (handle r s).2) as (new2 & H2 & P2).
    exists (new1 ++ new2)%list. rewrite H2, H1, app_assoc.
    split; [reflexivity|]. now apply Forall_app.
Qed.

(** ** The health check *)

(** X17: GET /test never fails and never writes, whether the [db] handle is
    missing, the store is down or all is well: it always answers a
    dictionary whose backend is "✅ Running" and whose collections are at
    most ten names, each the name of a collection of the store.  Without a
    handle the connection is reported "Not Connected" and the store is not
    reached; when the store is down the connection is still reported
    "Connected", no collection is listed and the first 50 characters of the
    error text are shown (all of it when it has no more): what is shown is
    the text up to a cut in front of a character, with 50 characters or the
    whole text. *)
Theorem test_database_never_fails db url s :
  exists response names,
    test_database db url s
      = (Ok response, match db with Some _ => reached s | None => s end) /\
    response !! "backend" = Some (VStr "✅ Running") /\
    response !! "collections" = Some (VList (map VStr names)) /\
    (length names <= 10)%nat /\
    Forall (fun n => is_Some (collections s !! n)) names /\
    (db = None ->
       names = [] /\
       response !! "connection_status" = Some (VStr "Not Connected") /\
       response !! "database" = Some (VStr "⚠️  Available but not initialized")) /\
    (forall msg, db <> None -> outage s = Some msg ->
       names = [] /\
       response !! "connection_status" = Some (VStr "Connected") /\
       response !! "database"
         = Some (VStr ("⚠️  Connected but Error: " +:+ str_prefix 50 msg)) /\
       (exists rest,
          msg = str_prefix 50 msg +:+ rest /\
          py_len (str_prefix 50 msg) = Nat.min 50 (py_len msg) /\
          match rest with
          | String c _ => continuation c = false
          | EmptyString => True
          end)) /\
    (db <> None -> outage s = None ->
       names = take 10 (map fst (map_to_list (collections s))) /\
       response !! "connection_status" = Some (VStr "Connected") /\
       response !! "database" = Some (VStr "✅ Connected & Working")).
Proof.
  destruct db as [h|].
  - unfold test_database, try_except, bind. rewrite list_collection_names_eq.
    destruct (outage s) as [msg|] eqn:Hout.
    + eexists. exists []. split; [reflexivity|].
      split; [reflexivity|]. split; [reflexivity|].
      split; [simpl; lia|]. split; [constructor|].
      split; [discriminate|]. split; [|discriminate].
      intros msg' _ Hmsg. inversion Hmsg; subst msg'.
      split; [reflexivity|]. split; [reflexivity|]. split; [reflexivity|].
      apply str_prefix_spec.
    + eexists. exists (take 10 (map fst (map_to_list (collections s)))).
      split; [reflexivity|].
      split; [reflexivity|]. split; [reflexivity|].
      split; [rewrite length_take; lia|]. split; [apply collection_names_exist|].
      split; [discriminate|]. split; [discriminate|].
      intros _ _. repeat split; reflexivity.
  - eexists. exists []. split; [reflexivity|].
    split; [reflexivity|]. split; [reflexivity|].
    split; [simpl; lia|]. split; [constructor|].
    split; [intros _; repeat split; reflexivity|].
    split; [intros msg H; congruence|intros H; congruence].
Qed.

End Api.

(** ** The theorems at concrete requests *)


(** A checkout of a product that is not in the seeded store. *)
Lemma failed_total_witness :
  order_subtotal float_of_decimal repr_scalar [absent_item] 0%float demo_store
    = (Raise (HTTPException 404 "Product not found: 0000000000000000000000ff"),
       demo_store) /\
  exists c d,
    create_order float_of_decimal repr_scalar (checkout_of [absent_item]) demo_store
      = (Raise (HTTPException c d), demo_store) /\
    http_failure c /\
    collections demo_store = collections demo_store /\
    docs demo_store "order" = docs demo_store "order".
Proof.
  assert (H : order_subtotal float_of_decimal repr_scalar
                (items (checkout_of [absent_item])) 0%float demo_store
              = (Raise (HTTPException 404 "Product not found: 0000000000000000000000ff"),
                 demo_store))
    by (vm_compute; reflexivity).
  split; [exact H|].
  exact (proj2 (failed_total_creates_no_order float_of_decimal repr_scalar
                  (checkout_of [absent_item]) demo_store) _ _ H).
Defined.



(** The seeded scarf costs 1499.0 and the seeded vase 2299.0. *)
Lemma two_scarves_one_vase_witness :
  (online 2 demo_store /\
   ObjectId_of_str (ObjectId_str (oid_bytes 1)) = Some (oid_bytes 1) /\
   List.find (matches [("_id", VOid (oid_bytes 1))]) (docs demo_store "product")
     = Some scarf /\
   scarf !! "price" = Some (VFloat 1499.0) /\
   ObjectId_of_str (ObjectId_str (oid_bytes 2)) = Some (oid_bytes 2) /\
   List.find (matches [("_id", VOid (oid_bytes 2))]) (docs demo_store "product")
     = Some vase /\
   vase !! "price" = Some (VFloat 2299.0)) /\
  order_subtotal float_of_decimal repr_scalar (items demo_checkout) 0%float demo_store
    = (Ok 5297.0%float, after 2 demo_store) /\
  spec_order_total float_of_decimal repr_scalar (docs demo_store "product")
    (items demo_checkout) = Some 5297.0%float /\
  (forall r s',
     create_order float_of_decimal repr_scalar demo_checkout demo_store = (Ok r, s') ->
     exists created, r = Some created /\
                     created !! "subtotal" = Some (VFloat 5297.0)).
Proof.
  assert (H2 : online 2 demo_store) by (unfold online; simpl; constructor).
  assert (H3 : ObjectId_of_str (ObjectId_str (oid_bytes 1)) = Some (oid_bytes 1))
    by (vm_compute; reflexivity).
  assert (H4 : List.find (matches [("_id", VOid (oid_bytes 1))])
                 (docs demo_store "product") = Some scarf)
    by (vm_compute; reflexivity).
  assert (H5 : scarf !! "price" = Some (VFloat 1499.0)) by (vm_compute; reflexivity).
  assert (H6 : ObjectId_of_str (ObjectId_str (oid_bytes 2)) = Some (oid_bytes 2))
    by (vm_compute; reflexivity).
  assert (H7 : List.find (matches [("_id", VOid (oid_bytes 2))])
                 (docs demo_store "product") = Some vase)
    by (vm_compute; reflexivity).
  assert (H8 : vase !! "price" = Some (VFloat 2299.0)) by (vm_compute; reflexivity).
  split; [repeat split; assumption|].
  exact (two_scarves_one_vase float_of_decimal repr_scalar demo_checkout demo_store
           (ObjectId_str (oid_bytes 1)) (ObjectId_str (oid_bytes 2))
           (oid_bytes 1) (oid_bytes 2) scarf vase
           eq_refl H2 H3 H4 H5 H6 H7 H8).
Defined.

(** Two lines of three gift cards, a product stored without a price: each
    line adds [0.0 * 3.0] to the 10.0 the loop starts from here. *)
Lemma missing_price_witness :
  (ObjectId_of_str (product_id gift_item) = Some (oid_bytes 9) /\
   online 1 gift_store /\
   List.find (matches [("_id", VOid (oid_bytes 9))]) (docs gift_store "product")
     = Some gift_card /\
   gift_card !! "price" = None /\
   is_infinity (float_of_Z (quantity gift_item)) = false) /\
  resolved_price float_of_decimal repr_scalar (docs gift_store "product")
    (product_id gift_item) = Some 0%float /\
  order_subtotal float_of_decimal repr_scalar [gift_item; gift_item] 10%float gift_store
  = order_subtotal float_of_decimal repr_scalar [gift_item]
      (10 + 0 * float_of_Z (quantity gift_item))%float (reached gift_store) /\
  order_subtotal float_of_decimal repr_scalar [gift_item; gift_item] 10%float gift_store
  = (Ok 10%float, after 2 gift_store).
Proof.
  assert (H1 : ObjectId_of_str (product_id gift_item) = Some (oid_bytes 9))
    by (vm_compute; reflexivity).
  assert (H2 : online 1 gift_store) by (unfold online; simpl; constructor).
  assert (H3 : List.find (matches [("_id", VOid (oid_bytes 9))])
                 (docs gift_store "product") = Some gift_card)
    by (vm_compute; reflexivity).
  assert (H4 : gift_card !! "price" = None) by (vm_compute; reflexivity).
  assert (H5 : is_infinity (float_of_Z (quantity gift_item)) = false)
    by (vm_compute; reflexivity).
  destruct (missing_price_counts_as_zero float_of_decimal repr_scalar
              gift_item [gift_item] 10%float gift_store (oid_bytes 9) gift_card
              H1 H2 H3 H4) as (Hprice & Hfinite & _).
  split; [auto 6|]. split; [exact Hprice|]. split; [exact (Hfinite H5)|].
  vm_compute. reflexivity.
Defined.

Lemma gift_store_identified : identified gift_store.
Proof.
  intros coll d Hin. unfold docs, gift_store in Hin. cbn [collections] in Hin.
  destruct (decide (coll = "product")) as [->|Hne].
  - rewrite lookup_singleton_eq in Hin. destruct Hin as [<-|[]].
    exists (oid_bytes 9). reflexivity.
  - rewrite lookup_singleton_ne in Hin by congruence. destruct Hin.
Qed.

(** Listing the store that holds the gift card, a document with a
    generated identifier and a creation date. *)
Lemma returned_documents_witness :
  let d := json_doc (serialize_doc repr_scalar gift_card) in
  (identified gift_store /\
   handle float_of_decimal repr_scalar (GET_products None) gift_store
     = (Response 200 (JList [d]), gift_store) /\
   GET_products None <> POST_seed /\
   In d (body_docs (JList [d]))) /\
  identified gift_store /\
  d !! "_id" = None /\
  d !! "id" = Some (VStr "000000000000000000000009") /\
  d !! "created_at" = Some (VStr "2025-11-30T18:45:09.120000") /\
  serialize_doc repr_scalar gift_card !! "created_at"
    = Some (VStr "2025-11-30T18:45:09.120000") /\
  exists d0 o,
    (In d0 (docs gift_store "product") \/ In d0 (docs gift_store "order")) /\
    d0 !! "_id" = Some (VOid o) /\
    d = json_doc (serialize_doc repr_scalar d0) /\
    (serialize_doc repr_scalar d0 !! "_id" = None /\
     serialize_doc repr_scalar d0 !! "id" = Some (VStr (ObjectId_str o)) /\
     (forall k t, serialize_doc repr_scalar d0 !! k <> Some (VDate t)) /\
     (forall k t, k <> "id" -> d0 !! k = Some (VDate t) ->
        serialize_doc repr_scalar d0 !! k = Some (VStr (isoformat t)))) /\
    d !! "_id" = None /\
    d !! "id" = Some (VStr (ObjectId_str o)) /\
    (forall k v, d !! k = Some v -> dateless v = true) /\
    (forall k t, k <> "id" -> d0 !! k = Some (VDate t) ->
       d !! k = Some (VStr (isoformat t))).
Proof.
  cbv zeta.
  assert (H1 : handle float_of_decimal repr_scalar (GET_products None) gift_store
               = (Response 200 (JList [json_doc (serialize_doc repr_scalar gift_card)]),
                  gift_store))
    by (vm_compute; reflexivity).
  assert (H2 : GET_products None <> POST_seed) by discriminate.
  assert (H3 : In (json_doc (serialize_doc repr_scalar gift_card))
                 (body_docs (JList [json_doc (serialize_doc repr_scalar gift_card)])))
    by (left; reflexivity).
  destruct (returned_documents_are_serialized float_of_decimal repr_scalar
              _ _ _ _ _ _ gift_store_identified H1 H2 H3) as [Hid Hdoc].
  split; [auto using gift_store_identified|]. split; [exact Hid|].
  split; [vm_compute; reflexivity|]. split; [vm_compute; reflexivity|].
  split; [vm_compute; reflexivity|]. split; [vm_compute; reflexivity|].
  exact Hdoc.
Defined.

(** Seeding the empty store, then seeding again. *)
Lemma seed_witness :
  (online 2 empty_store /\ docs empty_store "product" = []) /\
  (exists s',
     seed_products empty_store = (Ok {[ "inserted" := VInt 3 ]}, s') /\
     handle float_of_decimal repr_scalar POST_seed empty_store
     = (Response 201 (JDoc (Some {[ "inserted" := VInt 3 ]})), s') /\
     docs s' "product" = with_ids 1 sample_products /\
     (forall c, c <> "product" -> docs s' c = docs empty_store c)) /\
  seed_products empty_store = (Ok {[ "inserted" := VInt 3 ]}, demo_store) /\
  (forall r2 s2,
     seed_products demo_store = (r2, s2) ->
     collections s2 = collections demo_store /\
     (r2 = Ok {[ "message" := VStr "Products already exist" ]} \/
      exists msg, r2 = Raise (HTTPException 500 msg))) /\
  handle float_of_decimal repr_scalar POST_seed demo_store
    = (Response 201 (JDoc (Some {[ "message" := VStr "Products already exist" ]})),
       demo_store).
Proof.
  assert (H1 : online 2 empty_store) by (unfold online; simpl; constructor).
  assert (H2 : docs empty_store "product" = []) by reflexivity.
  assert (H3 : seed_products empty_store = (Ok {[ "inserted" := VInt 3 ]}, demo_store))
    by (vm_compute; reflexivity).
  destruct (seed_is_idempotent float_of_decimal repr_scalar empty_store)
    as (_ & Hempty & Hagain).
  split; [auto|]. split; [exact (Hempty H1 H2)|]. split; [exact H3|].
  split; [intros r2 s2; exact (Hagain _ _ r2 s2 H3)|].
  vm_compute. reflexivity.
Defined.

(** Listing the seeded store: the category "Bags" returns the tote bag. *)
Lemma list_products_witness :
  online 1 demo_store /\
  (let answer := fun listed : list doc =>
     if forallb (fun d => doc_ok (serialize_doc repr_scalar d)) listed
     then Response 200
            (JList (map (fun d => json_doc (serialize_doc repr_scalar d)) listed))
     else Error 500 "Internal Server Error" in
   (forall c, c <> "" ->
      handle float_of_decimal repr_scalar (GET_products (Some c)) demo_store
      = (answer (List.filter (category_is c) (docs demo_store "product")),
         reached demo_store)) /\
   handle float_of_decimal repr_scalar (GET_products None) demo_store
     = (answer (docs demo_store "product"), reached demo_store) /\
   handle float_of_decimal repr_scalar (GET_products (Some "")) demo_store
     = (answer (docs demo_store "product"), reached demo_store)) /\
  exists bag,
    handle float_of_decimal repr_scalar (GET_products (Some "Bags")) demo_store
      = (Response 200 (JList [bag]), demo_store) /\
    bag !! "title" = Some (VStr "Embroidered Tote Bag") /\
    bag !! "id" = Some (VStr "000000000000000000000003").
Proof.
  assert (H : online 1 demo_store) by (unfold online; simpl; constructor).
  split; [exact H|].
  split; [exact (list_products_by_category float_of_decimal repr_scalar demo_store H)|].
  eexists. split; [vm_compute; reflexivity|]. split; vm_compute; reflexivity.
Defined.

(** The demo checkout, and a session that seeds, orders and lists. *)
Lemma orders_pending_witness :
  let out := handle float_of_decimal repr_scalar (POST_orders demo_checkout) demo_store in
  out = (Response 201 (content_of out.1), out.2) /\
  (exists created stored,
     content_of out.1 = JDoc (Some created) /\
     created !! "status" = Some (VStr "pending") /\
     last (docs out.2 "order") = Some stored /\
     pending stored /\
     removelast (docs out.2 "order") = docs demo_store "order") /\
  exists new,
    docs (run float_of_decimal repr_scalar
            [POST_seed; POST_orders demo_checkout; GET_orders None] empty_store) "order"
      = (docs empty_store "order" ++ new)%list /\
    Forall pending new.
Proof.
  cbv zeta.
  assert (H : handle float_of_decimal repr_scalar (POST_orders demo_checkout) demo_store
              = (Response 201
                   (content_of (handle float_of_decimal repr_scalar
                                  (POST_orders demo_checkout) demo_store).1),
                 (handle float_of_decimal repr_scalar
                    (POST_orders demo_checkout) demo_store).2))
    by (vm_compute; reflexivity).
  destruct (orders_are_created_pending_and_stay float_of_decimal repr_scalar)
    as [Hcreated Hstay].
  split; [exact H|]. split; [exact (Hcreated _ _ _ _ _ H)|]. apply Hstay.
Defined.

(** A product_id of 24 characters with whitespace between its bytes is a
    valid identifier of eight bytes: the product is looked up and not
    found. *)
Example spaced_product_id_is_looked_up :
  ObjectId_is_valid "ab ab ab ab ab ab ab ab " = true /\
  handle float_of_decimal repr_scalar
    (POST_orders (checkout_of [ {| product_id := "ab ab ab ab ab ab ab ab ";
                                   quantity := 1 |} ])) demo_store
  = (Error 404 "Product not found: ab ab ab ab ab ab ab ab ", demo_store).
Proof. split; vm_compute; reflexivity. Qed.

(** ** Requests on which a sentence of the specification fails as worded *)


(** C8, as worded, fails: the gift card exists and has no price field, yet
    a checkout of 2^1024 of them fails, with HTTP 500, because the quantity
    cannot be converted to a float. *)
Lemma priceless_huge_quantity_is_500 :
  CheckoutPayload_valid (checkout_of [huge_gift_item]) = true /\
  ObjectId_of_str (product_id huge_gift_item) = Some (oid_bytes 9) /\
  List.find (matches [("_id", VOid (oid_bytes 9))]) (docs gift_store "product")
    = Some gift_card /\
  gift_card !! "price" = None /\
  handle float_of_decimal repr_scalar (POST_orders (checkout_of [huge_gift_item]))
    gift_store
    = (Error 500 "int too large to convert to float", gift_store).
Proof.
  repeat split; vm_compute; reflexivity.
Qed.

(** C6, as worded, fails: the empty string supplied as category returns the
    three demo products, none of whose category is the empty string. *)
Lemma empty_category_lists_everything :
  exists l,
    handle float_of_decimal repr_scalar (GET_products (Some "")) demo_store
      = (Response 200 (JList l), demo_store) /\
    map (fun d : doc => d !! "category") l
      = [Some (VStr "Accessories"); Some (VStr "Home Decor"); Some (VStr "Bags")].
Proof.
  exists (map (fun d => json_doc (serialize_doc repr_scalar d))
            (docs demo_store "product")).
  split; vm_compute; reflexivity.
Qed.


(** ** The further properties at concrete requests *)

(** A desk lamp posted to the seeded store gets the identifier that spells
    4. *)
Lemma create_product_witness :
  (Product_valid lamp = true /\ is_finite (price lamp) = true /\
   online 2 demo_store /\ fresh_in "product" demo_store) /\
  exists created s',
    handle float_of_decimal repr_scalar (POST_products lamp) demo_store
      = (Response 201 (JDoc (Some created)), s') /\
    docs s' "product"
      = (docs demo_store "product" ++ [product_record lamp (oid_bytes 4)])%list /\
    created !! "_id" = None /\
    created !! "id" = Some (VStr "000000000000000000000004") /\
    created !! "price" = Some (VFloat 250.5).
Proof.
  assert (H1 : Product_valid lamp = true) by reflexivity.
  assert (H2 : online 2 demo_store) by (unfold online; simpl; constructor).
  assert (H3 : fresh_in "product" demo_store) by (vm_compute; reflexivity).
  assert (H4 : is_finite (price lamp) = true) by reflexivity.
  split; [auto|].
  destruct (create_product_stores_and_returns float_of_decimal repr_scalar
              lamp demo_store H1 H4 H2 H3)
    as (created & s' & Hrun & Hdocs & _ & Hnoid & Hid & _ & _ & Hprice & _).
  exists created, s'. repeat split; assumption.
Defined.

(** The identifier returned for the desk lamp prices it, and the lamp is
    listed under "Home Decor". *)
Lemma created_product_witness :
  let out := handle float_of_decimal repr_scalar (POST_products lamp) demo_store in
  out = (Response 201 (content_of out.1), out.2) /\
  exists created i,
    content_of out.1 = JDoc (Some created) /\
    created !! "id" = Some (VStr i) /\
    resolved_price float_of_decimal repr_scalar (docs out.2 "product") i
      = Some (price lamp) /\
    exists l,
      handle float_of_decimal repr_scalar (GET_products (Some "Home Decor")) out.2
        = (Response 200 (JList l), reached out.2) /\
      In created l.
Proof.
  cbv zeta.
  assert (H : handle float_of_decimal repr_scalar (POST_products lamp) demo_store
              = (Response 201
                   (content_of (handle float_of_decimal repr_scalar
                                  (POST_products lamp) demo_store).1),
                 (handle float_of_decimal repr_scalar
                    (POST_products lamp) demo_store).2))
    by (vm_compute; reflexivity).
  split; [exact H|].
  destruct (created_product_is_found float_of_decimal repr_scalar _ _ _ _ _ H)
    as (created & i & Hc & Hid & _ & Hres & Hlisted).
  exists created, i. split; [exact Hc|]. split; [exact Hid|]. split; [exact Hres|].
  apply Hlisted.
  - vm_compute. reflexivity.
  - vm_compute. reflexivity.
  - right. reflexivity.
Defined.

(** The demo checkout on the seeded store. *)
Lemma checkout_succeeds_witness :
  (CheckoutPayload_valid demo_checkout = true /\
   online (length (items demo_checkout) + 2) demo_store /\
   line_amounts float_of_decimal repr_scalar (docs demo_store "product")
     (items demo_checkout) = Some [2998.0%float; 2299.0%float] /\
   py_round2 (fold_left PrimFloat.add [2998.0%float; 2299.0%float] 0%float)
     = Ok 5297.0%float /\
   is_finite 5297.0 = true /\
   fresh_in "order" demo_store) /\
  exists s',
    handle float_of_decimal repr_scalar (POST_orders demo_checkout) demo_store
      = (Response 201
           (JDoc (Some (serialize_doc repr_scalar
                          (stored_order demo_checkout 5297.0 (fresh_oid demo_store))))),
         s') /\
    docs s' "order"
      = (docs demo_store "order"
         ++ [stored_order demo_checkout 5297.0 (fresh_oid demo_store)])%list /\
    (forall c, c <> "order" -> docs s' c = docs demo_store c).
Proof.
  assert (H1 : CheckoutPayload_valid demo_checkout = true) by reflexivity.
  assert (H2 : online (length (items demo_checkout) + 2) demo_store)
    by (unfold online; simpl; constructor).
  assert (H3 : line_amounts float_of_decimal repr_scalar (docs demo_store "product")
                 (items demo_checkout) = Some [2998.0%float; 2299.0%float])
    by (vm_compute; reflexivity).
  assert (H4 : py_round2 (fold_left PrimFloat.add [2998.0%float; 2299.0%float] 0%float)
               = Ok 5297.0%float) by (vm_compute; reflexivity).
  assert (H5 : fresh_in "order" demo_store) by (vm_compute; reflexivity).
  assert (H6 : is_finite 5297.0 = true) by reflexivity.
  split; [auto 7|].
  exact (checkout_succeeds float_of_decimal repr_scalar demo_checkout demo_store
           _ _ H1 H2 H3 H4 H6 H5).
Defined.

(** A checkout without items on the seeded store. *)
Lemma empty_cart_witness :
  (items (checkout_of []) = [] /\ online 2 demo_store /\ fresh_in "order" demo_store) /\
  exists created s',
    handle float_of_decimal repr_scalar (POST_orders (checkout_of [])) demo_store
      = (Response 201 (JDoc (Some created)), s') /\
    created !! "items" = Some (VList []) /\
    created !! "subtotal" = Some (VFloat 0) /\
    created !! "total" = Some (VFloat 0) /\
    docs s' "order"
      = (docs demo_store "order"
         ++ [stored_order (checkout_of []) 0%float (fresh_oid demo_store)])%list.
Proof.
  assert (H2 : online 2 demo_store) by (unfold online; simpl; constructor).
  assert (H3 : fresh_in "order" demo_store) by (vm_compute; reflexivity).
  split; [auto|].
  exact (empty_cart_is_accepted float_of_decimal repr_scalar (checkout_of [])
           demo_store eq_refl H2 H3).
Defined.

(** The demo checkout on a store that drops the read-back. *)
Lemma read_back_fails_witness :
  (CheckoutPayload_valid demo_checkout = true /\
   online (S (length (items demo_checkout))) flaky_store /\
   outages flaky_store !! S (length (items demo_checkout))
     = Some (Some "connection reset by peer") /\
   fresh_in "order" flaky_store) /\
  exists s',
    handle float_of_decimal repr_scalar (POST_orders demo_checkout) flaky_store
      = (Error 500 "connection reset by peer", s') /\
    docs s' "order"
      = (docs flaky_store "order"
         ++ [stored_order demo_checkout 5297.0 (fresh_oid flaky_store)])%list.
Proof.
  assert (H1 : CheckoutPayload_valid demo_checkout = true) by reflexivity.
  assert (H2 : online (S (length (items demo_checkout))) flaky_store)
    by (unfold online; simpl; repeat constructor).
  assert (H3 : outages flaky_store !! S (length (items demo_checkout))
               = Some (Some "connection reset by peer")) by reflexivity.
  assert (H4 : line_amounts float_of_decimal repr_scalar (docs flaky_store "product")
                 (items demo_checkout) = Some [2998.0%float; 2299.0%float])
    by (vm_compute; reflexivity).
  assert (H5 : py_round2 (fold_left PrimFloat.add [2998.0%float; 2299.0%float] 0%float)
               = Ok 5297.0%float) by (vm_compute; reflexivity).
  assert (H6 : fresh_in "order" flaky_store) by (vm_compute; reflexivity).
  split; [auto|].
  exact (order_is_stored_though_read_back_fails float_of_decimal repr_scalar
           demo_checkout flaky_store _ _ _ H1 H2 H3 H4 H5 H6).
Defined.

(** Three gift cards whose price is stored as null. *)
Lemma unconvertible_price_witness :
  (ObjectId_of_str (product_id gift_item) = Some (oid_bytes 9) /\
   List.find (matches [("_id", VOid (oid_bytes 9))]) (docs null_price_store "product")
     = Some null_price_card /\
   null_price_card !! "price" = Some VNull /\
   py_float float_of_decimal repr_scalar VNull
     = Raise (TypeError "float() argument must be a string or a real number, not 'NoneType'")) /\
  handle float_of_decimal repr_scalar (POST_orders (checkout_of [gift_item]))
    null_price_store
    = (Error 500 "float() argument must be a string or a real number, not 'NoneType'",
       after 1 null_price_store) /\
  collections (after 1 null_price_store) = collections null_price_store.
Proof.
  assert (H1 : CheckoutPayload_valid (checkout_of [gift_item]) = true) by reflexivity.
  assert (H2 : online 1 null_price_store) by (unfold online; simpl; constructor).
  assert (H3 : ObjectId_of_str (product_id gift_item) = Some (oid_bytes 9))
    by (vm_compute; reflexivity).
  assert (H4 : List.find (matches [("_id", VOid (oid_bytes 9))])
                 (docs null_price_store "product")
               = Some null_price_card) by (vm_compute; reflexivity).
  assert (H5 : null_price_card !! "price" = Some VNull) by (vm_compute; reflexivity).
  assert (H6 : py_float float_of_decimal repr_scalar VNull
               = Raise (TypeError
                   "float() argument must be a string or a real number, not 'NoneType'"))
    by reflexivity.
  split; [auto|].
  exact (unconvertible_price_is_500 float_of_decimal repr_scalar
           (checkout_of [gift_item]) null_price_store [] gift_item [] [] (oid_bytes 9)
           null_price_card VNull _ H1 eq_refl H2 eq_refl H3 H4 H5 H6).
Defined.

(** The 404 of a checkout of an absent product. *)
Lemma error_answers_witness :
  handle float_of_decimal repr_scalar (POST_orders (checkout_of [absent_item])) demo_store
    = (Error 404 "Product not found: 0000000000000000000000ff", demo_store) /\
  (404 = 422 \/ 404 = 500 \/
   (404 = 404 /\
    exists payload item,
      POST_orders (checkout_of [absent_item]) = POST_orders payload /\
      In item (items payload) /\
      "Product not found: 0000000000000000000000ff"
        = "Product not found: " +:+ product_id item)).
Proof.
  assert (H : handle float_of_decimal repr_scalar
                (POST_orders (checkout_of [absent_item])) demo_store
              = (Error 404 "Product not found: 0000000000000000000000ff", demo_store))
    by (vm_compute; reflexivity).
  split; [exact H|].
  exact (error_answers float_of_decimal repr_scalar _ _ _ _ _ H).
Defined.

(** Listing the orders of the store that holds the demo order: it is
    returned for asha@example.com, and nothing is for another address. *)
Lemma list_orders_witness :
  let s := (handle float_of_decimal repr_scalar (POST_orders demo_checkout) demo_store).2 in
  online 1 s /\
  (let answer := fun listed : list doc =>
     if forallb (fun d => doc_ok (serialize_doc repr_scalar d)) listed
     then Response 200
            (JList (map (fun d => json_doc (serialize_doc repr_scalar d)) listed))
     else Error 500 "Internal Server Error" in
   (forall e, e <> "" ->
      handle float_of_decimal repr_scalar (GET_orders (Some e)) s
      = (answer (List.filter (field_is "customer_email" e) (docs s "order")),
         reached s)) /\
   handle float_of_decimal repr_scalar (GET_orders None) s
     = (answer (docs s "order"), reached s) /\
   handle float_of_decimal repr_scalar (GET_orders (Some "")) s
     = (answer (docs s "order"), reached s)) /\
  (exists order,
     handle float_of_decimal repr_scalar (GET_orders (Some "asha@example.com")) s
       = (Response 200 (JList [order]), reached s) /\
     order !! "total" = Some (VFloat 5297.0)) /\
  handle float_of_decimal repr_scalar (GET_orders (Some "ravi@example.com")) s
    = (Response 200 (JList []), reached s).
Proof.
  cbv zeta.
  assert (H : online 1 (handle float_of_decimal repr_scalar
                          (POST_orders demo_checkout) demo_store).2)
    by (unfold online; vm_compute; constructor).
  split; [exact H|].
  split; [exact (list_orders_by_email float_of_decimal repr_scalar _ H)|].
  split; [eexists; split; vm_compute; reflexivity|].
  vm_compute. reflexivity.
Defined.

(** The demo order is listed for asha@example.com. *)
Lemma created_order_witness :
  let out := handle float_of_decimal repr_scalar (POST_orders demo_checkout) demo_store in
  (out = (Response 201 (content_of out.1), out.2) /\ outage out.2 = None /\
   forallb (fun d => doc_ok (serialize_doc repr_scalar d)) (docs out.2 "order") = true) /\
  exists created,
    content_of out.1 = JDoc (Some created) /\
    forall e, e = None \/ e = Some (customer_email demo_checkout) ->
      exists l,
        handle float_of_decimal repr_scalar (GET_orders e) out.2
          = (Response 200 (JList l), reached out.2) /\
        In created l.
Proof.
  cbv zeta.
  assert (H : handle float_of_decimal repr_scalar (POST_orders demo_checkout) demo_store
              = (Response 201
                   (content_of (handle float_of_decimal repr_scalar
                                  (POST_orders demo_checkout) demo_store).1),
                 (handle float_of_decimal repr_scalar
                    (POST_orders demo_checkout) demo_store).2))
    by (vm_compute; reflexivity).
  assert (Hout : outage (handle float_of_decimal repr_scalar
                           (POST_orders demo_checkout) demo_store).2 = None)
    by (vm_compute; reflexivity).
  assert (Hok : forallb (fun d => doc_ok (serialize_doc repr_scalar d))
                  (docs (handle float_of_decimal repr_scalar
                           (POST_orders demo_checkout) demo_store).2 "order") = true)
    by (vm_compute; reflexivity).
  split; [auto|].
  exact (created_order_is_listed float_of_decimal repr_scalar _ _ _ _ _ H Hout Hok).
Defined.

(** Two jewels at 1e308 each: the sum is infinite, the order is stored with
    an infinite total and the answer is the server's 500. *)
Lemma unrenderable_order_witness :
  (CheckoutPayload_valid (checkout_of [jewel_item 2]) = true /\
   online (length (items (checkout_of [jewel_item 2])) + 2) jewel_store /\
   line_amounts float_of_decimal repr_scalar (docs jewel_store "product")
     (items (checkout_of [jewel_item 2])) = Some [infinity] /\
   py_round2 (fold_left PrimFloat.add [infinity] 0%float) = Ok infinity /\
   is_finite infinity = false /\
   fresh_in "order" jewel_store) /\
  exists s',
    handle float_of_decimal repr_scalar (POST_orders (checkout_of [jewel_item 2]))
      jewel_store
      = (Error 500 "Internal Server Error", s') /\
    docs s' "order"
      = (docs jewel_store "order"
         ++ [stored_order (checkout_of [jewel_item 2]) infinity
               (fresh_oid jewel_store)])%list.
Proof.
  assert (H1 : CheckoutPayload_valid (checkout_of [jewel_item 2]) = true) by reflexivity.
  assert (H2 : online (length (items (checkout_of [jewel_item 2])) + 2) jewel_store)
    by (unfold online; simpl; constructor).
  assert (H3 : line_amounts float_of_decimal repr_scalar (docs jewel_store "product")
                 (items (checkout_of [jewel_item 2])) = Some [infinity])
    by (vm_compute; reflexivity).
  assert (H4 : py_round2 (fold_left PrimFloat.add [infinity] 0%float) = Ok infinity)
    by (vm_compute; reflexivity).
  assert (H5 : is_finite infinity = false) by reflexivity.
  assert (H6 : fresh_in "order" jewel_store) by (vm_compute; reflexivity).
  split; [auto 7|].
  exact (unrenderable_order_is_stored float_of_decimal repr_scalar
           (checkout_of [jewel_item 2]) jewel_store _ _ H1 H2 H3 H4 H5 H6).
Defined.

(** A desk lamp priced at infinity: it is stored and the answer is the
    server's 500. *)
Lemma unrenderable_product_witness :
  (Product_valid gilded_lamp = true /\
   is_finite (price gilded_lamp) = false /\
   online 2 demo_store /\
   fresh_in "product" demo_store) /\
  exists s',
    handle float_of_decimal repr_scalar (POST_products gilded_lamp) demo_store
      = (Error 500 "Internal Server Error", s') /\
    docs s' "product"
      = (docs demo_store "product"
         ++ [product_record gilded_lamp (fresh_oid demo_store)])%list /\
    (forall c, c <> "product" -> docs s' c = docs demo_store c).
Proof.
  assert (H1 : Product_valid gilded_lamp = true) by reflexivity.
  assert (H2 : is_finite (price gilded_lamp) = false) by reflexivity.
  assert (H3 : online 2 demo_store) by (unfold online; simpl; constructor).
  assert (H4 : fresh_in "product" demo_store) by (vm_compute; reflexivity).
  split; [auto|].
  exact (unrenderable_product_is_stored float_of_decimal repr_scalar
           gilded_lamp demo_store H1 H2 H3 H4).
Defined.
